(** * Invoice tracker: extraction-result normalization and invoice lifecycle

    A shallow embedding of the Cloud Functions module of the repository
    (entity selection, value coercion, line-item parsing, the processing
    body and its two entry points) and of the review page's save path,
    followed by the properties proved about them.

    Conventions of the embedding.
    - A JavaScript number is an IEEE 754 binary64 value: Rocq's primitive
      [float], whose operations are the kernel's binary64 operations.
    - A JavaScript string is a [string]; each [ascii] stands for the UTF-16
      code unit of the same value, so the model covers strings of code
      units below 256.
    - [undefined] and [null] are both [None]; the code only ever tests them
      with truthiness, [?.], [??] and [== null], except for the two
      [typeof ... !== "undefined"] tests on a money value, whose fields are
      optional integers here.
    - The document store is a finite map from invoice id to record, and
      every external call is recorded in a log. *)

From Stdlib Require Import ZArith List Bool Lia.
From Stdlib Require Import Strings.String Strings.Ascii Numbers.DecimalString.
From Stdlib Require Import Floats.
From stdpp Require Import base option gmap strings.

Set Warnings "-inexact-float,-register-all".

Local Open Scope string_scope.
Local Open Scope Z_scope.

(* ===================================================================== *)
(** ** JavaScript numbers *)
(* ===================================================================== *)

Module JsNumber.

(** [Number.isFinite]. *)
Definition isFinite (x : float) : bool := PrimFloat.is_finite x.

(** The binary64 value of a natural number below 2^63 (exact up to 2^53). *)
Definition ofSmallZ (m : Z) : float := PrimFloat.of_uint63 (Uint63.of_Z m).

(** The binary64 value nearest to the positive rational [n / d], ties to
    even, overflowing to infinity: the rounding that the conversion of a
    decimal literal to a number performs.  [e] is chosen so that the
    quotient by [2^e] has 53 significant bits (or [e] is the least
    exponent of the format), and the quotient is rounded to an integer. *)
Definition nearest (n d : Z) : float :=
  if n <=? 0 then PrimFloat.zero else
  let e0 := Z.log2 n - Z.log2 d - 52 in
  let scaled (e : Z) : Z * Z :=
    if 0 <=? e then (n, d * 2 ^ e) else (n * 2 ^ (- e), d) in
  let e1 := (let '(a, b) := scaled e0 in if a <? 2 ^ 52 * b then e0 - 1 else e0) in
  let e := Z.max e1 (-1074) in
  let '(a, b) := scaled e in
  let q := a / b in
  let r := a mod b in
  let m := if 2 * r <? b then q
           else if b <? 2 * r then q + 1
           else if Z.even q then q else q + 1 in
  if 971 <? e then PrimFloat.infinity else Z.ldexp (ofSmallZ m) e.

(** The number nearest to an integer. *)
Definition ofZ (z : Z) : float :=
  if z <? 0 then PrimFloat.opp (nearest (- z) 1) else nearest z 1.

(** The exact value [m * 2^e] of a finite number, as sign, [m] and [e]. *)
Definition decompose (x : float) : option (bool * Z * Z) :=
  match Prim2SF x with
  | S754_finite s m e => Some (s, Z.pos m, e)
  | S754_zero s => Some (s, 0, 0)
  | _ => None
  end.

(** [Math.round]: the integer nearest to [x], ties towards +infinity;
    NaN and the infinities are returned as they are, and a result of
    zero keeps the sign of [x]. *)
Definition round (x : float) : float :=
  match decompose x with
  | None => x
  | Some (s, m, e) =>
      if 0 <=? e then x else
      let den := 2 ^ (- e) in
      let r := if s then (den - 2 * m) / (2 * den) else (2 * m + den) / (2 * den) in
      if r =? 0 then (if s then PrimFloat.neg_zero else PrimFloat.zero)
      else ofZ r
  end.

End JsNumber.

(* ===================================================================== *)
(** ** JavaScript strings and the regular expressions of the program *)
(* ===================================================================== *)

Module JsString.

Definition code (c : ascii) : N := N_of_ascii c.

Definition between (lo hi : N) (c : ascii) : bool :=
  ((lo <=? code c) && (code c <=? hi))%N.

(** [\d] *)
Definition isDigit (c : ascii) : bool := between 48 57 c.

(** The word characters of [\b]: [A-Za-z0-9_]. *)
Definition isWordChar (c : ascii) : bool :=
  isDigit c || between 65 90 c || between 97 122 c || (code c =? 95)%N.

(** [\s], and what [trim] removes: tab, LF, VT, FF, CR, space, NBSP. *)
Definition isSpace (c : ascii) : bool :=
  between 9 13 c || (code c =? 32)%N || (code c =? 160)%N.

(** What [.] does not match: the line terminators. *)
Definition isLineTerminator (c : ascii) : bool :=
  (code c =? 10)%N || (code c =? 13)%N.

Definition toLowerChar (c : ascii) : ascii :=
  if between 65 90 c || (between 192 222 c && negb (code c =? 215)%N)
  then ascii_of_N (code c + 32) else c.

Fixpoint toLowerCase (s : string) : string :=
  match s with
  | EmptyString => EmptyString
  | String c s' => String (toLowerChar c) (toLowerCase s')
  end.

Fixpoint trimStart (s : string) : string :=
  match s with
  | String c s' => if isSpace c then trimStart s' else s
  | EmptyString => EmptyString
  end.

Fixpoint trimEnd (s : string) : string :=
  match s with
  | EmptyString => EmptyString
  | String c s' =>
      match trimEnd s' with
      | EmptyString => if isSpace c then EmptyString else String c EmptyString
      | t => String c t
      end
  end.

Definition trim (s : string) : string := trimEnd (trimStart s).

(** [s.slice(0, n)] for [0 <= n]. *)
Definition sliceTo (n : nat) (s : string) : string := substring 0 n s.

(** [s.slice(n)] for [0 <= n]. *)
Definition sliceFrom (n : nat) (s : string) : string :=
  substring n (String.length s - n) s.

(** A string is truthy when it is not empty. *)
Definition truthy (s : string) : bool :=
  match s with EmptyString => false | _ => true end.

Definition head (s : string) : option ascii :=
  match s with EmptyString => None | String c _ => Some c end.

Fixpoint repeat (s : string) (n : nat) : string :=
  match n with O => EmptyString | S n' => s ++ repeat s n' end.

End JsString.

Module Regex.
Import JsString.

(** The fragment of the regular-expression syntax that the program uses. *)
Inductive regex : Type :=
| Chr (p : ascii -> bool)       (* one code unit: a literal, a class or [.] *)
| WordBoundary                  (* [\b] *)
| EndOfInput                    (* [$] *)
| Empty
| Seq (r1 r2 : regex)
| Alt (r1 r2 : regex)           (* [r1|r2], [r1] tried first *)
| Star (r : regex).             (* [r*], greedy *)

Definition Lit (c : ascii) : regex := Chr (Ascii.eqb c).
Definition Plus (r : regex) : regex := Seq r (Star r).
Definition Opt (r : regex) : regex := Alt r Empty.
Definition Digit : regex := Chr isDigit.
Definition Space : regex := Chr isSpace.
Definition AnyChar : regex := Chr (fun c => negb (isLineTerminator c)).

Fixpoint seq (rs : list regex) : regex :=
  match rs with
  | nil => Empty
  | r :: nil => r
  | r :: rs' => Seq r (seq rs')
  end.

Definition isWordAt (c : option ascii) : bool :=
  match c with Some c => isWordChar c | None => false end.

(** The backtracking matcher.  [prev] is the code unit before the current
    position, [s] the rest of the input, [pos] the current index, and [k]
    what remains to be matched; the result is the index where the whole
    match ends.  An iteration of [r*] that consumes nothing is rejected,
    so each iteration consumes input and [fuel], at least the length of
    the input, bounds the number of iterations. *)
Fixpoint run (r : regex) (fuel : nat) (prev : option ascii) (s : string) (pos : nat)
         (k : option ascii -> string -> nat -> option nat) {struct r} : option nat :=
  match r with
  | Chr p =>
      match s with
      | String c s' => if p c then k (Some c) s' (S pos) else None
      | EmptyString => None
      end
  | WordBoundary =>
      if xorb (isWordAt prev) (isWordAt (head s)) then k prev s pos else None
  | EndOfInput =>
      match s with EmptyString => k prev s pos | _ => None end
  | Empty => k prev s pos
  | Seq r1 r2 =>
      run r1 fuel prev s pos (fun prev' s' pos' => run r2 fuel prev' s' pos' k)
  | Alt r1 r2 =>
      match run r1 fuel prev s pos k with
      | Some e => Some e
      | None => run r2 fuel prev s pos k
      end
  | Star r1 =>
      (fix star (f : nat) (prev : option ascii) (s : string) (pos : nat) {struct f}
         : option nat :=
         match f with
         | O => k prev s pos
         | S f' =>
             match run r1 fuel prev s pos
                     (fun prev' s' pos' =>
                        if Nat.eqb pos' pos then None else star f' prev' s' pos') with
             | Some e => Some e
             | None => k prev s pos
             end
         end) fuel prev s pos
  end.

(** One attempt to match [r] at index [pos]. *)
Definition matchAt (r : regex) (prev : option ascii) (s : string) (pos : nat) : option nat :=
  run r (S (String.length s)) prev s pos (fun _ _ e => Some e).

(** All the matches of a global regular expression, left to right, as
    pairs of start and end index: after a match the search resumes at its
    end (one further when the match is empty). *)
Fixpoint scan (r : regex) (prev : option ascii) (s : string) (pos skip : nat)
  : list (nat * nat) :=
  match s with
  | EmptyString =>
      match skip, matchAt r prev s pos with
      | O, Some e => (pos, e) :: nil
      | _, _ => nil
      end
  | String c s' =>
      match skip with
      | S n => scan r (Some c) s' (S pos) n
      | O =>
          match matchAt r prev s pos with
          | Some e => (pos, e) :: scan r (Some c) s' (S pos) (e - pos - 1)
          | None => scan r (Some c) s' (S pos) 0
          end
      end
  end.

Definition matches (r : regex) (s : string) : list (nat * nat) := scan r None s 0 0.

(** The matched texts with their start index: [m[0]] and [m.index]. *)
Definition matchAll (r : regex) (s : string) : list (string * nat) :=
  map (fun '(b, e) => (substring b (e - b) s, b)) (matches r s).

Fixpoint splice (ms : list (nat * nat)) (rep s : string) (from : nat) : string :=
  match ms with
  | nil => sliceFrom from s
  | (b, e) :: ms' => substring from (b - from) s ++ rep ++ splice ms' rep s e
  end.

(** [s.replace(/r/g, rep)] for a replacement without [$]. *)
Definition replaceAll (r : regex) (rep s : string) : string :=
  splice (matches r s) rep s 0.

(** [s.replace(/r/, rep)]: the first match only. *)
Definition replaceFirst (r : regex) (rep s : string) : string :=
  splice (firstn 1 (matches r s)) rep s 0.

End Regex.

(* ===================================================================== *)
(** ** Conversions between strings and numbers *)
(* ===================================================================== *)

Module JsConv.
Import JsString.

Definition digitValue (c : ascii) : Z := Z.of_N (code c) - 48.

(** The longest prefix of decimal digits, and the rest. *)
Fixpoint takeDigits (s : string) : string * string :=
  match s with
  | String c s' =>
      if isDigit c then let '(d, r) := takeDigits s' in (String c d, r)
      else (EmptyString, s)
  | EmptyString => (EmptyString, EmptyString)
  end.

Fixpoint digitsValueFrom (acc : Z) (s : string) : Z :=
  match s with
  | EmptyString => acc
  | String c s' => digitsValueFrom (10 * acc + digitValue c) s'
  end.

Definition digitsValue (s : string) : Z := digitsValueFrom 0 s.

Definition hexValue (c : ascii) : option Z :=
  if isDigit c then Some (digitValue c)
  else if between 97 102 c then Some (Z.of_N (code c) - 87)
  else if between 65 70 c then Some (Z.of_N (code c) - 55)
  else None.

(** The value of a non-empty string of digits in [base], if it is one. *)
Fixpoint radixValueFrom (base acc : Z) (s : string) : option Z :=
  match s with
  | EmptyString => Some acc
  | String c s' =>
      match hexValue c with
      | Some v => if v <? base then radixValueFrom base (base * acc + v) s' else None
      | None => None
      end
  end.

Definition radixLiteral (base : Z) (s : string) : float :=
  match s with
  | EmptyString => PrimFloat.nan
  | _ => match radixValueFrom base 0 s with
         | Some v => JsNumber.ofZ v
         | None => PrimFloat.nan
         end
  end.

(** An exponent part [e], [e+] or [e-] followed by digits up to the end
    of the string; no exponent part counts as exponent 0. *)
Definition exponentPart (s : string) : option Z :=
  match s with
  | EmptyString => Some 0
  | String c s' =>
      if Ascii.eqb c "e" || Ascii.eqb c "E" then
        let '(neg, s'') :=
          match s' with
          | String "-" t => (true, t)
          | String "+" t => (false, t)
          | _ => (false, s')
          end in
        match takeDigits s'' with
        | (String d ds, EmptyString) =>
            let v := digitsValue (String d ds) in Some (if neg then - v else v)
        | _ => None
        end
      else None
  end.

(** An unsigned decimal literal: digits with an optional fraction and an
    optional exponent, at least one digit before the exponent. *)
Definition decimalLiteral (s : string) : float :=
  let '(ip, r1) := takeDigits s in
  let '(fp, r2) :=
    match r1 with
    | String "." t => takeDigits t
    | _ => (EmptyString, r1)
    end in
  if negb (truthy ip) && negb (truthy fp) then PrimFloat.nan else
  match exponentPart r2 with
  | None => PrimFloat.nan
  | Some ex =>
      let mant := digitsValue (ip ++ fp) in
      let e10 := ex - Z.of_nat (String.length fp) in
      if 0 <=? e10 then JsNumber.nearest (mant * 10 ^ e10) 1
      else JsNumber.nearest mant (10 ^ (- e10))
  end.

Definition signedLiteral (s : string) : float :=
  if String.eqb s "Infinity" then PrimFloat.infinity else decimalLiteral s.

(** [Number(s)] for a string [s]: surrounding white space is dropped, the
    empty string is 0, and what is not a numeric literal is NaN. *)
Definition Number (s : string) : float :=
  match trim s with
  | EmptyString => PrimFloat.zero
  | String "0" (String "x" t) | String "0" (String "X" t) => radixLiteral 16 t
  | String "0" (String "o" t) | String "0" (String "O" t) => radixLiteral 8 t
  | String "0" (String "b" t) | String "0" (String "B" t) => radixLiteral 2 t
  | String "-" t => PrimFloat.opp (signedLiteral t)
  | String "+" t => signedLiteral t
  | t => signedLiteral t
  end.

Definition decimalString (z : Z) : string :=
  NilZero.string_of_uint (N.to_uint (Z.to_N z)).

(** When [x] is finite, not negative and integral, its value. *)
Definition integerValue (x : float) : option Z :=
  match JsNumber.decompose x with
  | Some (false, m, e) =>
      if 0 <=? e then Some (m * 2 ^ e)
      else if m mod 2 ^ (- e) =? 0 then Some (m / 2 ^ (- e)) else None
  | _ => None
  end.

(** The integer with the fewest significant digits that converts back to
    [x], the closest to [v] among those with as few: [ks] lists the
    numbers of significant digits to try, [n] is the number of digits of
    [v], the value of [x]. *)
Fixpoint shortest (x : float) (v : Z) (n : Z) (ks : list Z) : Z :=
  match ks with
  | nil => v
  | k :: ks' =>
      if n <=? k then v else
      let p := 10 ^ (n - k) in
      let lo := (v / p) * p in
      let hi := lo + p in
      let okLo := PrimFloat.Leibniz.eqb (JsNumber.ofZ lo) x in
      let okHi := PrimFloat.Leibniz.eqb (JsNumber.ofZ hi) x in
      match okLo, okHi with
      | true, true =>
          if v - lo <? hi - v then lo
          else if hi - v <? v - lo then hi
          else if Z.even (lo / p) then lo else hi
      | true, false => lo
      | false, true => hi
      | false, false => shortest x v n ks'
      end
  end.

Fixpoint dropTrailingZeros (s : string) : string :=
  match s with
  | EmptyString => EmptyString
  | String c s' =>
      match dropTrailingZeros s' with
      | EmptyString => if Ascii.eqb c "0" then EmptyString else String c EmptyString
      | t => String c t
      end
  end.

(** [String(x)] for a number [x] that is finite, not negative and
    integral, which is what a quantity read from digits is: plain digits
    below 10^21, and the exponent notation from there on. *)
Definition toString (x : float) : string :=
  match integerValue x with
  | None => "NaN"
  | Some v =>
      let n := Z.of_nat (String.length (decimalString v)) in
      let w := shortest x v n (map Z.of_nat (seq 1 17)) in
      let ds := decimalString w in
      if w <? 10 ^ 21 then ds else
      let ex := decimalString (Z.of_nat (String.length ds) - 1) in
      match dropTrailingZeros ds with
      | String d EmptyString => String d ("e+" ++ ex)
      | String d t => String d ("." ++ t ++ "e+" ++ ex)
      | EmptyString => ds
      end
  end.

End JsConv.

(** The time value of [new Date(year, month, date)], as ECMAScript
    defines it.  The arguments are integers here, as the components of a
    date value are. *)
Module JsDate.

Definition msPerDay : Z := 86400000.

Definition inLeapYear (y : Z) : bool :=
  ((y mod 4 =? 0) && negb (y mod 100 =? 0)) || (y mod 400 =? 0).

(** The day number of the first day of year [y]. *)
Definition dayFromYear (y : Z) : Z :=
  365 * (y - 1970) + (y - 1969) / 4 - (y - 1901) / 100 + (y - 1601) / 400.

(** The number of days of the year before month [mn], from 0 to 11. *)
Definition dayWithinYear (mn : Z) (leap : bool) : Z :=
  nth (Z.to_nat mn) [0; 31; 59; 90; 120; 151; 181; 212; 243; 273; 304; 334] 0
  + (if leap && (2 <=? mn) then 1 else 0).

Definition makeDay (year month date : Z) : Z :=
  let ym := year + month / 12 in
  let mn := month mod 12 in
  dayFromYear ym + dayWithinYear mn (inLeapYear ym) + date - 1.

(** A year from 0 to 99 stands for a year of the twentieth century. *)
Definition makeFullYear (year : Z) : Z :=
  if (0 <=? year) && (year <=? 99) then 1900 + year else year.

(** A time value further than 8.64e15 ms from the epoch is NaN. *)
Definition timeClip (t : Z) : option Z :=
  if 8640000000000000 <? Z.abs t then None else Some t.

(** [new Date(year, month, date).getTime()]: local midnight of that day,
    [localTZA] giving the offset of local time from UTC. *)
Definition construct (localTZA : Z -> Z) (year month date : Z) : option Z :=
  let local := makeDay (makeFullYear year) month date * msPerDay in
  timeClip (local - localTZA local).

End JsDate.

(* ===================================================================== *)
(** ** Data model *)
(* ===================================================================== *)

Import JsString Regex.

(** The entities returned by the extraction service. *)
(** A component of a money value, as the code tests it: a property that
    the object does not have, [null], or a number. *)
Inductive Component : Type :=
| Undefined
| Null
| Num (z : Z).

Record MoneyValue : Type := { units : Component; nanos : Component }.

Record DateValue : Type := { year : option Z; month : option Z; day : option Z }.

Record NormalizedValue : Type := {
  text : option string;
  moneyValue : option MoneyValue;
  dateValue : option DateValue;
}.

Inductive RawEntity : Type := Entity {
  type : option string;
  mentionText : option string;
  normalizedValue : option NormalizedValue;
  properties : option (list RawEntity);
  confidence : option float;
}.

(** Timestamps are kept symbolic: the calendar arithmetic, the time zone
    and the server clock belong to the platform. *)
Inductive Timestamp : Type :=
| LocalMidnight (y monthIndex d : Z)   (* Timestamp.fromDate(new Date(y, monthIndex, d)) *)
| LocalDateTime (iso : string)         (* Timestamp.fromDate(new Date(iso)) *)
| ServerTimestamp (write : nat).       (* FieldValue.serverTimestamp() of the n-th store operation *)

Record LineItem : Type := {
  description : option string;
  quantity : option float;
  unitPrice : option float;
  amount : option float;
}.

Record InvoiceFields : Type := {
  supplierName : option string;
  supplierAddress : option string;
  invoiceNumber : option string;
  purchaseOrderNumber : option string;
  invoiceDate : option Timestamp;
  dueDate : option Timestamp;
  subtotal : option float;
  tax : option float;
  total : option float;
  lineItems : list LineItem;
}.

(* ===================================================================== *)
(** ** Failures and collaborators *)
(* ===================================================================== *)

Inductive FunctionsErrorCode : Type :=
| unauthenticated | invalid_argument | not_found | permission_denied | failed_precondition.

(** What a [throw] or a rejected promise carries. *)
Inductive Thrown : Type :=
| HttpsError (code : FunctionsErrorCode) (message : string)
| Error (name message : string).

(** [String(err?.message || err)] *)
Definition describe (err : Thrown) : string :=
  match err with
  | HttpsError _ message => if truthy message then message else "Error"
  | Error name message => if truthy message then message else name
  end.

Record ProcessRequest : Type := {
  processorName : string;
  content : string;
  mimeType : string;
}.

Record Document : Type := { entities : option (list RawEntity) }.

Record ProcessResponse : Type := { document : option Document }.

(** The two Firestore libraries: the Admin SDK of the functions and the
    Web SDK of the pages. *)
Inductive Sdk : Type := Admin | Web.

(** What a call to a Firestore library rejects before any request is
    made. *)
Inductive LibraryFailure : Type :=
| NotADocumentPath (path : string)            (* doc(path) *)
| TimestampOutOfRange (seconds : option Z)    (* new Timestamp(seconds, nanoseconds) *)
| NoDocumentToUpdate (key : string).          (* update(patch) *)

(** The collaborators of the core, as the answers they give, and what the
    code takes from the JavaScript runtime and the libraries. *)
Record Services : Type := {
  getMetadata : string -> Thrown + option string;    (* the file's content type *)
  download : string -> Thrown + string;              (* the file's bytes *)
  base64 : string -> string;                         (* buf.toString("base64") *)
  GCLOUD_PROJECT : option string;                    (* process.env.GCLOUD_PROJECT *)
  processDocument : ProcessRequest -> Thrown + ProcessResponse;
  localTZA : Z -> Z;                 (* local time minus UTC, in ms, at a local time value *)
  dateTime : string -> option Z;     (* new Date(s).getTime(), None when it is NaN *)
  libraryMessage : Sdk -> LibraryFailure -> string;  (* the text of the library's error *)
}.

Inductive Result (A : Type) : Type :=
| Ok (a : A)
| Throw (err : Thrown).
Arguments Ok {A} a.
Arguments Throw {A} err.

#[global] Instance Result_ret : MRet Result := fun A a => Ok a.

#[global] Instance Result_bind : MBind Result := fun A B f r =>
  match r with
  | Ok a => f a
  | Throw err => Throw err
  end.

#[global] Instance Result_fmap : FMap Result := fun A B f r =>
  match r with
  | Ok a => Ok (f a)
  | Throw err => Throw err
  end.

(** The error that a Firestore library throws: a plain [Error] in the
    Admin SDK, a [FirebaseError] in the Web SDK. *)
Definition libraryError (sv : Services) (sdk : Sdk) (failure : LibraryFailure) : Thrown :=
  Error (match sdk with Admin => "Error" | Web => "FirebaseError" end)
        (libraryMessage sv sdk failure).

(** The range of the seconds of a Firestore timestamp:
    0001-01-01T00:00:00Z to 9999-12-31T23:59:59Z. *)
Definition MIN_SECONDS : Z := -62135596800.
Definition MAX_SECONDS : Z := 253402300799.

(** [Timestamp.fromDate(date)] for a date whose time value is [time]
    ([None] for an invalid date): the seconds are [Math.floor(time / 1000)],
    and the constructor rejects seconds that are not a number or are out
    of range.  [made] is the timestamp when it is accepted. *)
Definition fromDate (sv : Services) (sdk : Sdk) (time : option Z) (made : Timestamp)
  : Result Timestamp :=
  match time with
  | None => Throw (libraryError sv sdk (TimestampOutOfRange None))
  | Some ms =>
      let seconds := ms / 1000 in
      if (seconds <? MIN_SECONDS) || (MAX_SECONDS <? seconds)
      then Throw (libraryError sv sdk (TimestampOutOfRange (Some seconds)))
      else Ok made
  end.

(* ===================================================================== *)
(** ** Entity selection and value coercion *)
(* ===================================================================== *)

(** [String(e.type || "").toLowerCase()] *)
Definition typeName (e : RawEntity) : string :=
  toLowerCase (default "" (type e)).

Definition pickEntity (entities : list RawEntity) (types : list string) : option RawEntity :=
  let lower := map toLowerCase types in
  List.find (fun e => existsb (String.eqb (typeName e)) lower) entities.

Definition entityText (e : option RawEntity) : option string :=
  match e with
  | None => None
  | Some e =>
      match normalizedValue e ≫= text with
      | Some t => Some t
      | None => mentionText e
      end
  end.

(** [/[^0-9.\-]/g] *)
Definition nonNumeric : regex :=
  Chr (fun c => negb (isDigit c || Ascii.eqb c "." || Ascii.eqb c "-")).

Definition toNumberLoose (s : string) : option float :=
  let cleaned := replaceAll nonNumeric "" s in
  let n := JsConv.Number cleaned in
  if JsNumber.isFinite n then Some n else None.

Definition defined {A : Type} (x : option A) : bool :=
  match x with Some _ => true | None => false end.

(** [typeof c !== "undefined"] *)
Definition isDefined (c : Component) : bool :=
  match c with Undefined => false | Null | Num _ => true end.

(** [c || 0] *)
Definition orZero (c : Component) : Z :=
  match c with Num z => z | Undefined | Null => 0 end.

Definition entityMoneyToNumber (e : option RawEntity) : option float :=
  match e with
  | None => None
  | Some e =>
      let fromText :=
        match entityText (Some e) with
        | None => None
        | Some t => if truthy t then toNumberLoose t else None
        end in
      match normalizedValue e ≫= moneyValue with
      | Some mv =>
          if isDefined (units mv) || isDefined (nanos mv) then
            let units := JsNumber.ofZ (orZero (units mv)) in
            let nanos := JsNumber.ofZ (orZero (nanos mv)) in
            Some (units + nanos / 1e9)%float
          else fromText
      | None => fromText
      end
  end.

Definition nonZero (z : option Z) : option Z :=
  match z with Some 0 | None => None | Some v => Some v end.

Definition entityDateToTimestamp (sv : Services) (e : option RawEntity)
  : Result (option Timestamp) :=
  match e with
  | None => Ok None
  | Some e =>
      match normalizedValue e ≫= dateValue with
      | Some dv =>
          match nonZero (year dv), nonZero (month dv), nonZero (day dv) with
          | Some y, Some m, Some d =>
              let d' := JsDate.construct (localTZA sv) y (m - 1) d in
              Some <$> fromDate sv Admin d' (LocalMidnight y (m - 1) d)
          | _, _, _ => Ok None
          end
      | None => Ok None
      end
  end.

(* ===================================================================== *)
(** ** Line items *)
(* ===================================================================== *)

(** [/\s+/g] *)
Definition whitespaceRun : regex := Plus Space.

(** [/\b\d{1,3}(?:,\d{3})*\.\d{2}\b/g]: money-like numbers with 2 decimals. *)
Definition moneyRegex : regex :=
  seq [ WordBoundary;
        Digit; Opt (Seq Digit (Opt Digit));
        Star (seq [Lit ","; Digit; Digit; Digit]);
        Lit "."; Digit; Digit;
        WordBoundary ].

(** [/\b\d+\b/g] *)
Definition qtyRegex : regex := seq [WordBoundary; Plus Digit; WordBoundary].

(** The pattern that the text of a number is when it is spliced into the
    source of a regular expression: a digit or a letter stands for itself,
    [.] matches any character but a line terminator, and [+] repeats what
    is before it. *)
Fixpoint numberPattern (s : string) : regex :=
  match s with
  | EmptyString => Empty
  | String c s' =>
      let atom := if Ascii.eqb c "." then AnyChar else Lit c in
      match s' with
      | String "+" s'' => Seq (Plus atom) (numberPattern s'')
      | _ => Seq atom (numberPattern s')
      end
  end.

(** [new RegExp(`\\b${quantity}\\b\\s*$`)] *)
Definition trailingQuantity (quantity : float) : regex :=
  seq [ WordBoundary; numberPattern (JsConv.toString quantity); WordBoundary;
        Star Space; EndOfInput ].

Record MoneyMatch : Type := { value : float; start : nat }.

(** The loop over [moneyRegex.exec(mt)]: a match whose text does not
    convert to a finite number is skipped. *)
Fixpoint collectMoney (found : list (string * nat)) : list MoneyMatch :=
  match found with
  | nil => nil
  | (raw, index) :: found' =>
      match toNumberLoose raw with
      | None => collectMoney found'
      | Some value => {| value := value; start := index |} :: collectMoney found'
      end
  end.

Definition moneyMatchesOf (mt : string) : list MoneyMatch :=
  collectMoney (matchAll moneyRegex mt).

(** The roles of the money matches: [(unitPrice, amount)]. *)
Definition moneyRoles (moneyMatches : list MoneyMatch) : option float * option float :=
  let n := length moneyMatches in
  if (2 <=? n)%nat then
    (value <$> moneyMatches !! (n - 2)%nat, value <$> moneyMatches !! (n - 1)%nat)
  else if (n =? 1)%nat then (None, value <$> moneyMatches !! 0%nat)
  else (None, None).

(** Quantity: the last integer before the money. *)
Definition quantityOf (beforeMoney : string) : option float :=
  match last (matchAll qtyRegex beforeMoney) with
  | Some (lastQtyRaw, _) =>
      let q := JsConv.Number lastQtyRaw in
      if JsNumber.isFinite q then Some q else None
  | None => None
  end.

(** Description: everything before the money, without a trailing quantity. *)
Definition descriptionOf (beforeMoney : string) (quantity : option float) : string :=
  match quantity with
  | Some q => trim (replaceFirst (trailingQuantity q) "" beforeMoney)
  | None => beforeMoney
  end.

(** [Math.round(x * 100) / 100] *)
Definition round2 (x : float) : float := (JsNumber.round (x * 100) / 100)%float.

(** The missing fields computed when possible: [(unitPrice, amount)]. *)
Definition backfill (quantity unitPrice amount : option float) : option float * option float :=
  let amount :=
    match amount, quantity, unitPrice with
    | None, Some q, Some u => Some (round2 (q * u)%float)
    | _, _, _ => amount
    end in
  let unitPrice :=
    match unitPrice, quantity, amount with
    | None, Some q, Some a =>
        if negb (q =? 0)%float then Some (round2 (a / q)%float) else unitPrice
    | _, _, _ => unitPrice
    end in
  (unitPrice, amount).

Definition parseLineItemFromMentionText (text : string) : LineItem :=
  let mt := trim (replaceAll whitespaceRun " " text) in
  if negb (truthy mt) then
    {| description := None; quantity := None; unitPrice := None; amount := None |}
  else
    let moneyMatches := moneyMatchesOf mt in
    let '(unitPrice, amount) := moneyRoles moneyMatches in
    let firstMoneyStart :=
      match moneyMatches with m :: _ => start m | nil => String.length mt end in
    let beforeMoney := trim (sliceTo firstMoneyStart mt) in
    let quantity := quantityOf beforeMoney in
    let description := descriptionOf beforeMoney quantity in
    let description := if truthy description then description else mt in
    let '(unitPrice, amount) := backfill quantity unitPrice amount in
    {| description := if truthy description then Some description else None;
       quantity := quantity;
       unitPrice := unitPrice;
       amount := amount |}.

Definition isLineItem (e : RawEntity) : bool := String.eqb (typeName e) "line_item".

Definition orElse {A : Type} (x y : option A) : option A :=
  match x with Some _ => x | None => y end.

Definition parseLineItem (li : RawEntity) : LineItem :=
  let props := default [] (properties li) in
  let descriptionProp :=
    entityText (pickEntity props ["description"; "item_description"; "product_description"; "name"]) in
  let quantityText := entityText (pickEntity props ["quantity"; "qty"]) in
  let unitPriceProp := entityMoneyToNumber (pickEntity props ["unit_price"; "price"; "unit_cost"]) in
  let amountProp := entityMoneyToNumber (pickEntity props ["amount"; "line_item_amount"; "total_price"]) in
  let quantityProp :=
    match quantityText with
    | Some t => if truthy t then toNumberLoose t else None
    | None => None
    end in
  let item := {| description := descriptionProp; quantity := quantityProp;
                 unitPrice := unitPriceProp; amount := amountProp |} in
  let mt := default "" (mentionText li) in
  let needsFallback :=
    (length props =? 0)%nat
    || (negb (truthy (default "" (description item)))
        && negb (defined (quantity item)) && negb (defined (unitPrice item))
        && negb (defined (amount item)) && truthy mt) in
  if needsFallback && truthy mt then
    let fb := parseLineItemFromMentionText mt in
    {| description := orElse (description item) (description fb);
       quantity := orElse (quantity item) (quantity fb);
       unitPrice := orElse (unitPrice item) (unitPrice fb);
       amount := orElse (amount item) (amount fb) |}
  else item.

Definition parseLineItems (entities : list RawEntity) : list LineItem :=
  map parseLineItem (List.filter isLineItem entities).

(** The header fields and the line items, as the processing body computes
    them from the entities. *)
Definition normalizeInvoice (sv : Services) (entities : list RawEntity)
  : Result InvoiceFields :=
  let supplierName :=
    entityText (pickEntity entities ["supplier_name"; "supplier"; "vendor_name"; "vendor"]) in
  let supplierAddress :=
    entityText (pickEntity entities ["supplier_address"; "vendor_address"; "address"]) in
  let invoiceNumber :=
    entityText (pickEntity entities ["invoice_id"; "invoice_number"; "invoice_no"]) in
  let purchaseOrderNumber :=
    entityText (pickEntity entities ["purchase_order"; "purchase_order_number"; "po_number"; "po"]) in
  invoiceDate ← entityDateToTimestamp sv (pickEntity entities ["invoice_date"; "date"]);
  dueDate ← entityDateToTimestamp sv (pickEntity entities ["due_date"]);
  let subtotal := entityMoneyToNumber (pickEntity entities ["subtotal_amount"; "subtotal"]) in
  let tax := entityMoneyToNumber (pickEntity entities ["total_tax_amount"; "tax_amount"; "tax"]) in
  let total :=
    entityMoneyToNumber (pickEntity entities ["total_amount"; "invoice_total"; "amount_due"; "total"]) in
  let lineItems := parseLineItems entities in
  mret {| supplierName := supplierName;
          supplierAddress := supplierAddress;
          invoiceNumber := invoiceNumber;
          purchaseOrderNumber := purchaseOrderNumber;
          invoiceDate := invoiceDate;
          dueDate := dueDate;
          subtotal := subtotal;
          tax := tax;
          total := total;
          lineItems := lineItems |}.

(* ===================================================================== *)
(** ** The stored record and the platform *)
(* ===================================================================== *)

(** The debug copy of an entity that is stored with the record. *)
Record DebugEntity : Type := {
  debugType : option string;
  debugMentionText : option string;
  normalizedText : option string;
  debugConfidence : option float;
}.

(** A document of the [invoices] collection. *)
Record InvoiceRecord : Type := {
  userId : option string;
  status : option string;
  storagePath : option string;
  contentType : option string;
  skipProcessing : bool;
  errorMessage : option string;
  fields : InvoiceFields;
  rawEntities : list DebugEntity;
  createdAt : option Timestamp;
  updatedAt : option Timestamp;
  extractedAt : option Timestamp;
  finalizedAt : option Timestamp;
}.

Inductive Event : Type :=
| DocGet (id : string)
| DocUpdate (id : string)
| FileGetMetadata (path : string)
| FileDownload (path : string)
| ExtractionCall (request : ProcessRequest).

(** The state that the operations act on: the invoices collection, and
    the log of the calls made to the store, to object storage and to the
    extraction service (latest first). *)
Record Platform : Type := {
  docs : gmap string InvoiceRecord;
  log : list Event;
}.

(** Computations that read and write the platform and may throw. *)
Definition M (A : Type) : Type := Platform -> Result A * Platform.

#[global] Instance M_ret : MRet M := fun A a p => (Ok a, p).

#[global] Instance M_bind : MBind M := fun A B f m p =>
  match m p with
  | (Ok a, p') => f a p'
  | (Throw err, p') => (Throw err, p')
  end.

Definition throw {A : Type} (err : Thrown) : M A := fun p => (Throw err, p).

Definition tryCatch {A : Type} (body : M A) (handler : Thrown -> M A) : M A := fun p =>
  match body p with
  | (Ok a, p') => (Ok a, p')
  | (Throw err, p') => handler err p'
  end.

Definition logEvent (ev : Event) : M unit := fun p =>
  (Ok tt, {| docs := docs p; log := ev :: log p |}).

(** A computation that touches nothing of the platform. *)
Definition outcome {A : Type} (r : Result A) : M A := fun p => (r, p).

(** The outcome of a call to a collaborator. *)
Definition answer {A : Type} (r : Thrown + A) : M A :=
  match r with inl err => throw err | inr a => mret a end.

(** The segments of a path: its parts between slashes, without the empty
    ones, so that a slash at either end is allowed. *)
Fixpoint splitOn (c : ascii) (s : string) : list string :=
  match s with
  | EmptyString => [EmptyString]
  | String d s' =>
      if Ascii.eqb d c then EmptyString :: splitOn c s'
      else match splitOn c s' with
           | first :: rest => String d first :: rest
           | [] => [String d EmptyString]
           end
  end.

Definition segments (path : string) : list string :=
  List.filter truthy (splitOn "/" path).

(** [path.indexOf("//") >= 0] *)
Fixpoint hasEmptySegment (path : string) : bool :=
  match path with
  | EmptyString => false
  | String c path' =>
      match path' with
      | String c' _ => (Ascii.eqb c "/" && Ascii.eqb c' "/") || hasEmptySegment path'
      | EmptyString => false
      end
  end.

(** The document of the [invoices] collection that a path names, as the
    path of the document below the collection: the path must not contain
    [//], and together with the segment of the collection its segments
    must be even in number. *)
Definition documentKey (documentPath : string) : option string :=
  if hasEmptySegment documentPath then None
  else
    let relative := segments documentPath in
    if Nat.even (1 + length relative) then Some (String.concat "/" relative) else None.

(** [collection("invoices").doc(documentPath)] *)
Definition doc (sv : Services) (sdk : Sdk) (documentPath : string) : M string :=
  match documentKey documentPath with
  | Some key => mret key
  | None => throw (libraryError sv sdk (NotADocumentPath documentPath))
  end.

(** [ref.get()]: the snapshot's data, [None] when the document does not exist. *)
Definition docGet (id : string) : M (option InvoiceRecord) := fun p =>
  (Ok (docs p !! id), {| docs := docs p; log := DocGet id :: log p |}).

(** [ref.update(patch)]: the named fields are merged into the stored
    document; the update of a document that does not exist is rejected.
    The patch is given the value that a server timestamp takes. *)
Definition docUpdate (sv : Services) (sdk : Sdk) (id : string)
           (patch : Timestamp -> InvoiceRecord -> InvoiceRecord) : M unit := fun p =>
  match docs p !! id with
  | Some r =>
      (Ok tt, {| docs := <[id := patch (ServerTimestamp (length (log p))) r]> (docs p);
                 log := DocUpdate id :: log p |})
  | None =>
      (Throw (libraryError sv sdk (NoDocumentToUpdate id)),
       {| docs := docs p; log := DocUpdate id :: log p |})
  end.

(* ===================================================================== *)
(** ** The processing body and its two entry points *)
(* ===================================================================== *)

Definition DOCAI_LOCATION : string := "us".
Definition DOCAI_PROCESSOR_ID : string := "de93e913f38aafe3".

(** A string option is truthy when it is a non-empty string. *)
Definition truthyText (s : option string) : option string :=
  match s with
  | Some t => if truthy t then Some t else None
  | None => None
  end.

Definition debugEntity (e : RawEntity) : DebugEntity :=
  {| debugType := type e;
     debugMentionText := mentionText e;
     normalizedText := normalizedValue e ≫= text;
     debugConfidence := confidence e |}.

(** The snapshot that a document-created event carries. *)
Record Snapshot : Type := { ref : string; snapshotData : option InvoiceRecord }.

(** A callable request: the caller's uid, if any, and [data.invoiceId]. *)
Record CallableRequest : Type := { auth : option string; invoiceId : option string }.

Record Ack : Type := { ok : bool }.

Section Operations.

Context (sv : Services).

(** The first update of the processing body. *)
Definition markProcessing (clearError : bool) (now : Timestamp) (r : InvoiceRecord)
  : InvoiceRecord :=
  {| userId := userId r;
     status := Some "processing";
     storagePath := storagePath r;
     contentType := contentType r;
     skipProcessing := skipProcessing r;
     errorMessage := if clearError then None else errorMessage r;
     fields := fields r;
     rawEntities := rawEntities r;
     createdAt := createdAt r;
     updatedAt := Some now;
     extractedAt := extractedAt r;
     finalizedAt := finalizedAt r |}.

(** The update that ends a successful extraction. *)
Definition markExtracted (extracted : InvoiceFields) (raw : list DebugEntity)
           (now : Timestamp) (r : InvoiceRecord) : InvoiceRecord :=
  {| userId := userId r;
     status := Some "needs_review";
     storagePath := storagePath r;
     contentType := contentType r;
     skipProcessing := skipProcessing r;
     errorMessage := errorMessage r;
     fields := extracted;
     rawEntities := raw;
     createdAt := createdAt r;
     updatedAt := Some now;
     extractedAt := Some now;
     finalizedAt := finalizedAt r |}.

(** The update of the [catch] block. *)
Definition markError (err : Thrown) (now : Timestamp) (r : InvoiceRecord) : InvoiceRecord :=
  {| userId := userId r;
     status := Some "error";
     storagePath := storagePath r;
     contentType := contentType r;
     skipProcessing := skipProcessing r;
     errorMessage := Some (describe err);
     fields := fields r;
     rawEntities := rawEntities r;
     createdAt := createdAt r;
     updatedAt := Some now;
     extractedAt := extractedAt r;
     finalizedAt := finalizedAt r |}.

(** The [try] block up to its update: fetch, extract, normalize. *)
Definition extract (data : InvoiceRecord) : M (InvoiceFields * list DebugEntity) :=
  storagePath ← match truthyText (storagePath data) with
                | Some path => mret path
                | None => throw (Error "Error" "Missing storagePath on invoice document.")
                end;
  _ ← logEvent (FileGetMetadata storagePath);
  meta ← answer (getMetadata sv storagePath);
  let mimeType :=
    default "application/pdf" (orElse (truthyText (contentType data)) (truthyText meta)) in
  _ ← logEvent (FileDownload storagePath);
  buf ← answer (download sv storagePath);
  projectId ← match truthyText (GCLOUD_PROJECT sv) with
              | Some project => mret project
              | None => throw (Error "Error" "Missing GCLOUD_PROJECT env var (project id).")
              end;
  _ ← (if truthy DOCAI_PROCESSOR_ID then mret tt
       else throw (Error "Error" "Missing DOCAI_PROCESSOR_ID"));
  let name := "projects/" ++ projectId ++ "/locations/" ++ DOCAI_LOCATION
              ++ "/processors/" ++ DOCAI_PROCESSOR_ID in
  let request :=
    {| processorName := name; content := base64 sv buf; mimeType := mimeType |} in
  _ ← logEvent (ExtractionCall request);
  result ← answer (processDocument sv request);
  let entities := default [] (document result ≫= entities) in
  extracted ← outcome (normalizeInvoice sv entities);
  mret (extracted, map debugEntity (firstn 200 entities)).

Definition processInvoiceDocument (docRef : string) (data : InvoiceRecord)
           (clearError : bool) : M unit :=
  _ ← docUpdate sv Admin docRef (markProcessing clearError);
  tryCatch
    ('(extracted, raw) ← extract data;
     docUpdate sv Admin docRef (markExtracted extracted raw))
    (fun err => docUpdate sv Admin docRef (markError err)).

Definition processInvoiceOnCreateV2 (event : option Snapshot) : M unit :=
  match event with
  | None => mret tt
  | Some snap =>
      match snapshotData snap with
      | None => mret tt
      | Some data =>
          (* Only act on newly created uploads *)
          if negb (bool_decide (status data = Some "uploaded")) || skipProcessing data
          then mret tt
          else processInvoiceDocument (ref snap) data true
      end
  end.

Definition reprocessInvoiceV2 (request : CallableRequest) : M Ack :=
  match truthyText (auth request) with
  | None => throw (HttpsError unauthenticated "Sign in required.")
  | Some uid =>
      let invoiceId := trim (default "" (invoiceId request)) in
      if negb (truthy invoiceId) then throw (HttpsError invalid_argument "Missing invoiceId.")
      else
        invoiceRef ← doc sv Admin invoiceId;
        snap ← docGet invoiceRef;
        match snap with
        | None => throw (HttpsError not_found "Invoice not found.")
        | Some data =>
            if negb (bool_decide (userId data = Some uid))
            then throw (HttpsError permission_denied "Not allowed.")
            else if bool_decide (status data = Some "finalized")
            then throw (HttpsError failed_precondition "Finalized invoices cannot be reprocessed.")
            else if negb (defined (truthyText (storagePath data)))
            then throw (HttpsError failed_precondition "No storage file available for reprocessing.")
            else
              _ ← processInvoiceDocument invoiceRef data true;
              mret {| ok := true |}
        end
  end.

End Operations.

(* ===================================================================== *)
(** ** The review page: save and finalize *)
(* ===================================================================== *)

Inductive SaveStatus : Type := needs_review | finalized.

Definition statusText (s : SaveStatus) : string :=
  match s with needs_review => "needs_review" | finalized => "finalized" end.

(** The state of the page that [save] reads: the signed-in user, the route
    parameter, the last snapshot of the record and the edited inputs. *)
Record ReviewPage : Type := {
  user : option string;
  pageInvoiceId : string;
  inv : option InvoiceRecord;
  supplierNameInput : string;
  supplierAddressInput : string;
  invoiceNumberInput : string;
  purchaseOrderNumberInput : string;
  invoiceDateInput : string;
  dueDateInput : string;
  subtotalInput : string;
  taxInput : string;
  totalInput : string;
  lineItemsInput : list LineItem;
}.

Definition numOrNull (v : string) : option float :=
  if negb (truthy v) then None
  else let n := JsConv.Number v in if JsNumber.isFinite n then Some n else None.

Definition canEdit (page : ReviewPage) : bool :=
  match inv page, user page with
  | Some r, Some uid => bool_decide (userId r = Some uid)
  | _, _ => false
  end.

Definition isFinalized (page : ReviewPage) : bool :=
  bool_decide (inv page ≫= status = Some "finalized").

Section ReviewPageOperations.

Context (sv : Services).

Definition dateInputToTimestamp (v : string) : Result (option Timestamp) :=
  if negb (truthy v) then Ok None
  else
    let iso := v ++ "T00:00:00" in
    match dateTime sv iso with
    | None => Ok None
    | Some time => Some <$> fromDate sv Web (Some time) (LocalDateTime iso)
    end.

(** The fields that [save] writes, the two dates being converted. *)
Definition saved (page : ReviewPage) (status : SaveStatus)
           (invoiceDate dueDate : option Timestamp) (now : Timestamp)
           (r : InvoiceRecord) : InvoiceRecord :=
  {| userId := userId r;
     status := Some (statusText status);
     storagePath := storagePath r;
     contentType := contentType r;
     skipProcessing := skipProcessing r;
     errorMessage := errorMessage r;
     fields :=
       {| supplierName := truthyText (Some (supplierNameInput page));
          supplierAddress := truthyText (Some (supplierAddressInput page));
          invoiceNumber := truthyText (Some (invoiceNumberInput page));
          purchaseOrderNumber := truthyText (Some (purchaseOrderNumberInput page));
          invoiceDate := invoiceDate;
          dueDate := dueDate;
          subtotal := numOrNull (subtotalInput page);
          tax := numOrNull (taxInput page);
          total := numOrNull (totalInput page);
          lineItems := lineItemsInput page |};
     rawEntities := rawEntities r;
     createdAt := createdAt r;
     updatedAt := Some now;
     extractedAt := extractedAt r;
     finalizedAt := match status with finalized => Some now | needs_review => None end |}.

Definition save (page : ReviewPage) (status : SaveStatus) : M unit :=
  if negb (canEdit page) || negb (truthy (pageInvoiceId page)) then mret tt
  else
    (* Hard stop: finalized invoices cannot be edited/finalized again from UI *)
    if isFinalized page then mret tt
    else
      ref ← doc sv Web (pageInvoiceId page);
      invoiceDate ← outcome (dateInputToTimestamp (invoiceDateInput page));
      dueDate ← outcome (dateInputToTimestamp (dueDateInput page));
      docUpdate sv Web ref (saved page status invoiceDate dueDate).

End ReviewPageOperations.

(* ===================================================================== *)
(** ** The review page: editing *)
(* ===================================================================== *)

Module JsArray.

(** [l.filter((x, idx) => p(x, idx))], with [idx] counted from [from]. *)
Fixpoint filterFrom {A : Type} (p : A -> nat -> bool) (from : nat) (l : list A) : list A :=
  match l with
  | [] => []
  | x :: l' =>
      if p x from then x :: filterFrom p (S from) l' else filterFrom p (S from) l'
  end.

Definition filter {A : Type} (p : A -> nat -> bool) (l : list A) : list A :=
  filterFrom p 0 l.

(** [l.map((x, idx) => f(x, idx))]. *)
Definition map {A B : Type} (f : A -> nat -> B) (l : list A) : list B :=
  imap (fun idx x => f x idx) l.

End JsArray.

(** A [Partial<LineItem>]: the fields that the patch names. *)
Record LineItemPatch : Type := {
  descriptionPatch : option (option string);
  quantityPatch : option (option float);
  unitPricePatch : option (option float);
  amountPatch : option (option float);
}.

(** [{ ...x, ...patch }]. *)
Definition patched (x : LineItem) (patch : LineItemPatch) : LineItem :=
  {| description := default (description x) (descriptionPatch patch);
     quantity := default (quantity x) (quantityPatch patch);
     unitPrice := default (unitPrice x) (unitPricePatch patch);
     amount := default (amount x) (amountPatch patch) |}.

(** The page with the fields edited so far and the two flags that lock it. *)
Record Editor : Type := {
  shown : ReviewPage;
  dirty : gset string;
  saving : bool;
  deleting : bool;
}.

Definition readOnly (e : Editor) : bool :=
  isFinalized (shown e) || saving e || deleting e.

Definition markDirty (key : string) (e : Editor) : Editor :=
  {| shown := shown e; dirty := {[ key ]} ∪ dirty e;
     saving := saving e; deleting := deleting e |}.

(** A state setter of the page, run in the editor. *)
Definition onPage (set : ReviewPage -> ReviewPage) (e : Editor) : Editor :=
  {| shown := set (shown e); dirty := dirty e;
     saving := saving e; deleting := deleting e |}.

Definition setInv (r : option InvoiceRecord) (pg : ReviewPage) : ReviewPage :=
  {| user := user pg; pageInvoiceId := pageInvoiceId pg; inv := r;
     supplierNameInput := supplierNameInput pg;
     supplierAddressInput := supplierAddressInput pg;
     invoiceNumberInput := invoiceNumberInput pg;
     purchaseOrderNumberInput := purchaseOrderNumberInput pg;
     invoiceDateInput := invoiceDateInput pg; dueDateInput := dueDateInput pg;
     subtotalInput := subtotalInput pg; taxInput := taxInput pg;
     totalInput := totalInput pg; lineItemsInput := lineItemsInput pg |}.

Definition setSupplierName (v : string) (pg : ReviewPage) : ReviewPage :=
  {| user := user pg; pageInvoiceId := pageInvoiceId pg; inv := inv pg;
     supplierNameInput := v;
     supplierAddressInput := supplierAddressInput pg;
     invoiceNumberInput := invoiceNumberInput pg;
     purchaseOrderNumberInput := purchaseOrderNumberInput pg;
     invoiceDateInput := invoiceDateInput pg; dueDateInput := dueDateInput pg;
     subtotalInput := subtotalInput pg; taxInput := taxInput pg;
     totalInput := totalInput pg; lineItemsInput := lineItemsInput pg |}.

Definition setSupplierAddress (v : string) (pg : ReviewPage) : ReviewPage :=
  {| user := user pg; pageInvoiceId := pageInvoiceId pg; inv := inv pg;
     supplierNameInput := supplierNameInput pg;
     supplierAddressInput := v;
     invoiceNumberInput := invoiceNumberInput pg;
     purchaseOrderNumberInput := purchaseOrderNumberInput pg;
     invoiceDateInput := invoiceDateInput pg; dueDateInput := dueDateInput pg;
     subtotalInput := subtotalInput pg; taxInput := taxInput pg;
     totalInput := totalInput pg; lineItemsInput := lineItemsInput pg |}.

Definition setInvoiceNumber (v : string) (pg : ReviewPage) : ReviewPage :=
  {| user := user pg; pageInvoiceId := pageInvoiceId pg; inv := inv pg;
     supplierNameInput := supplierNameInput pg;
     supplierAddressInput := supplierAddressInput pg;
     invoiceNumberInput := v;
     purchaseOrderNumberInput := purchaseOrderNumberInput pg;
     invoiceDateInput := invoiceDateInput pg; dueDateInput := dueDateInput pg;
     subtotalInput := subtotalInput pg; taxInput := taxInput pg;
     totalInput := totalInput pg; lineItemsInput := lineItemsInput pg |}.

Definition setPurchaseOrderNumber (v : string) (pg : ReviewPage) : ReviewPage :=
  {| user := user pg; pageInvoiceId := pageInvoiceId pg; inv := inv pg;
     supplierNameInput := supplierNameInput pg;
     supplierAddressInput := supplierAddressInput pg;
     invoiceNumberInput := invoiceNumberInput pg;
     purchaseOrderNumberInput := v;
     invoiceDateInput := invoiceDateInput pg; dueDateInput := dueDateInput pg;
     subtotalInput := subtotalInput pg; taxInput := taxInput pg;
     totalInput := totalInput pg; lineItemsInput := lineItemsInput pg |}.

Definition setInvoiceDate (v : string) (pg : ReviewPage) : ReviewPage :=
  {| user := user pg; pageInvoiceId := pageInvoiceId pg; inv := inv pg;
     supplierNameInput := supplierNameInput pg;
     supplierAddressInput := supplierAddressInput pg;
     invoiceNumberInput := invoiceNumberInput pg;
     purchaseOrderNumberInput := purchaseOrderNumberInput pg;
     invoiceDateInput := v; dueDateInput := dueDateInput pg;
     subtotalInput := subtotalInput pg; taxInput := taxInput pg;
     totalInput := totalInput pg; lineItemsInput := lineItemsInput pg |}.

Definition setDueDate (v : string) (pg : ReviewPage) : ReviewPage :=
  {| user := user pg; pageInvoiceId := pageInvoiceId pg; inv := inv pg;
     supplierNameInput := supplierNameInput pg;
     supplierAddressInput := supplierAddressInput pg;
     invoiceNumberInput := invoiceNumberInput pg;
     purchaseOrderNumberInput := purchaseOrderNumberInput pg;
     invoiceDateInput := invoiceDateInput pg; dueDateInput := v;
     subtotalInput := subtotalInput pg; taxInput := taxInput pg;
     totalInput := totalInput pg; lineItemsInput := lineItemsInput pg |}.

Definition setSubtotal (v : string) (pg : ReviewPage) : ReviewPage :=
  {| user := user pg; pageInvoiceId := pageInvoiceId pg; inv := inv pg;
     supplierNameInput := supplierNameInput pg;
     supplierAddressInput := supplierAddressInput pg;
     invoiceNumberInput := invoiceNumberInput pg;
     purchaseOrderNumberInput := purchaseOrderNumberInput pg;
     invoiceDateInput := invoiceDateInput pg; dueDateInput := dueDateInput pg;
     subtotalInput := v; taxInput := taxInput pg;
     totalInput := totalInput pg; lineItemsInput := lineItemsInput pg |}.

Definition setTax (v : string) (pg : ReviewPage) : ReviewPage :=
  {| user := user pg; pageInvoiceId := pageInvoiceId pg; inv := inv pg;
     supplierNameInput := supplierNameInput pg;
     supplierAddressInput := supplierAddressInput pg;
     invoiceNumberInput := invoiceNumberInput pg;
     purchaseOrderNumberInput := purchaseOrderNumberInput pg;
     invoiceDateInput := invoiceDateInput pg; dueDateInput := dueDateInput pg;
     subtotalInput := subtotalInput pg; taxInput := v;
     totalInput := totalInput pg; lineItemsInput := lineItemsInput pg |}.

Definition setTotal (v : string) (pg : ReviewPage) : ReviewPage :=
  {| user := user pg; pageInvoiceId := pageInvoiceId pg; inv := inv pg;
     supplierNameInput := supplierNameInput pg;
     supplierAddressInput := supplierAddressInput pg;
     invoiceNumberInput := invoiceNumberInput pg;
     purchaseOrderNumberInput := purchaseOrderNumberInput pg;
     invoiceDateInput := invoiceDateInput pg; dueDateInput := dueDateInput pg;
     subtotalInput := subtotalInput pg; taxInput := taxInput pg;
     totalInput := v; lineItemsInput := lineItemsInput pg |}.

(** [setLineItems((prev) => next(prev))]. *)
Definition setLineItems (next : list LineItem -> list LineItem) (pg : ReviewPage)
  : ReviewPage :=
  {| user := user pg; pageInvoiceId := pageInvoiceId pg; inv := inv pg;
     supplierNameInput := supplierNameInput pg;
     supplierAddressInput := supplierAddressInput pg;
     invoiceNumberInput := invoiceNumberInput pg;
     purchaseOrderNumberInput := purchaseOrderNumberInput pg;
     invoiceDateInput := invoiceDateInput pg; dueDateInput := dueDateInput pg;
     subtotalInput := subtotalInput pg; taxInput := taxInput pg;
     totalInput := totalInput pg; lineItemsInput := next (lineItemsInput pg) |}.

(** *** The header inputs *)

Inductive HeaderInput : Type :=
| SupplierName | SupplierAddress | InvoiceNumber | PurchaseOrderNumber
| InvoiceDate | DueDate | Subtotal | Tax | Total.

(** The key under which an input is marked as edited. *)
Definition key (f : HeaderInput) : string :=
  match f with
  | SupplierName => "supplierName"
  | SupplierAddress => "supplierAddress"
  | InvoiceNumber => "invoiceNumber"
  | PurchaseOrderNumber => "purchaseOrderNumber"
  | InvoiceDate => "invoiceDate"
  | DueDate => "dueDate"
  | Subtotal => "subtotal"
  | Tax => "tax"
  | Total => "total"
  end.

Definition setter (f : HeaderInput) : string -> ReviewPage -> ReviewPage :=
  match f with
  | SupplierName => setSupplierName
  | SupplierAddress => setSupplierAddress
  | InvoiceNumber => setInvoiceNumber
  | PurchaseOrderNumber => setPurchaseOrderNumber
  | InvoiceDate => setInvoiceDate
  | DueDate => setDueDate
  | Subtotal => setSubtotal
  | Tax => setTax
  | Total => setTotal
  end.

Definition inputOf (f : HeaderInput) : ReviewPage -> string :=
  match f with
  | SupplierName => supplierNameInput
  | SupplierAddress => supplierAddressInput
  | InvoiceNumber => invoiceNumberInput
  | PurchaseOrderNumber => purchaseOrderNumberInput
  | InvoiceDate => invoiceDateInput
  | DueDate => dueDateInput
  | Subtotal => subtotalInput
  | Tax => taxInput
  | Total => totalInput
  end.

(** The [onChange] handler of a header input:
    [(markDirty(key), setValue(v))]. *)
Definition onChange (f : HeaderInput) (v : string) (e : Editor) : Editor :=
  onPage (setter f v) (markDirty (key f) e).

(** *** The line items *)

Definition updateLineItem (i : nat) (patch : LineItemPatch) (e : Editor) : Editor :=
  if readOnly e then e
  else
    onPage (setLineItems (JsArray.map (fun x idx => if Nat.eqb idx i then patched x patch else x)))
           (markDirty "lineItems" e).

Definition removeLineItem (i : nat) (e : Editor) : Editor :=
  if readOnly e then e
  else
    onPage (setLineItems (JsArray.filter (fun _ idx => negb (Nat.eqb idx i))))
           (markDirty "lineItems" e).

Definition addLineItem (e : Editor) : Editor :=
  if readOnly e then e
  else
    onPage (setLineItems (fun prev =>
              (prev ++ [{| description := Some ""; quantity := None;
                           unitPrice := None; amount := None |}])%list))
           (markDirty "lineItems" e).

(** The [onChange] handlers of the inputs of line item [i]: the text of
    the description as it is, and for a number
    [e.target.value ? Number(e.target.value) : null]. *)
Definition typedNumber (v : string) : option float :=
  if truthy v then Some (JsConv.Number v) else None.

Definition onDescriptionChange (i : nat) (v : string) : Editor -> Editor :=
  updateLineItem i {| descriptionPatch := Some (Some v); quantityPatch := None;
                      unitPricePatch := None; amountPatch := None |}.

Definition onQuantityChange (i : nat) (v : string) : Editor -> Editor :=
  updateLineItem i {| descriptionPatch := None; quantityPatch := Some (typedNumber v);
                      unitPricePatch := None; amountPatch := None |}.

Definition onUnitPriceChange (i : nat) (v : string) : Editor -> Editor :=
  updateLineItem i {| descriptionPatch := None; quantityPatch := None;
                      unitPricePatch := Some (typedNumber v); amountPatch := None |}.

Definition onAmountChange (i : nat) (v : string) : Editor -> Editor :=
  updateLineItem i {| descriptionPatch := None; quantityPatch := None;
                      unitPricePatch := None; amountPatch := Some (typedNumber v) |}.

(** *** Snapshots of the record *)

Section Snapshots.

(** The local calendar date of a timestamp as [yyyy-mm-dd], and
    [String(n)] for a number: both are the platform's. *)
Context (localDate : Timestamp -> string) (numberToString : float -> string).

Definition tsToDateInput (ts : option Timestamp) : string :=
  match ts with
  | None => ""
  | Some t => localDate t
  end.

(** [if (!dirty.current.has(key)) set(...)]. *)
Definition unlessDirty (k : string) (set : ReviewPage -> ReviewPage) (e : Editor) : Editor :=
  if bool_decide (k ∈ dirty e) then e else onPage set e.

Definition numberInput (n : option float) : string :=
  match n with
  | Some x => numberToString x
  | None => ""
  end.

(** The listener of the record: [data] is [snap.data()]. *)
Definition onSnapshot (data : option InvoiceRecord) (e : Editor) : Editor :=
  match data with
  | None => e
  | Some data =>
      let e := onPage (setInv (Some data)) e in
      (* Apply extracted values ONLY to fields the user hasn't touched yet. *)
      let e := unlessDirty "supplierName"
                 (setSupplierName (default "" (supplierName (fields data)))) e in
      let e := unlessDirty "supplierAddress"
                 (setSupplierAddress (default "" (supplierAddress (fields data)))) e in
      let e := unlessDirty "invoiceNumber"
                 (setInvoiceNumber (default "" (invoiceNumber (fields data)))) e in
      let e := unlessDirty "purchaseOrderNumber"
                 (setPurchaseOrderNumber (default "" (purchaseOrderNumber (fields data)))) e in
      let e := unlessDirty "invoiceDate"
                 (setInvoiceDate (tsToDateInput (invoiceDate (fields data)))) e in
      let e := unlessDirty "dueDate"
                 (setDueDate (tsToDateInput (dueDate (fields data)))) e in
      let e := unlessDirty "subtotal" (setSubtotal (numberInput (subtotal (fields data)))) e in
      let e := unlessDirty "tax" (setTax (numberInput (tax (fields data)))) e in
      let e := unlessDirty "total" (setTotal (numberInput (total (fields data)))) e in
      (* line items arrive AFTER extraction finishes. *)
      unlessDirty "lineItems" (setLineItems (fun _ => lineItems (fields data))) e
  end.

(** The value that a snapshot of [data] gives to a header input. *)
Definition extracted (f : HeaderInput) (data : InvoiceRecord) : string :=
  match f with
  | SupplierName => default "" (supplierName (fields data))
  | SupplierAddress => default "" (supplierAddress (fields data))
  | InvoiceNumber => default "" (invoiceNumber (fields data))
  | PurchaseOrderNumber => default "" (purchaseOrderNumber (fields data))
  | InvoiceDate => tsToDateInput (invoiceDate (fields data))
  | DueDate => tsToDateInput (dueDate (fields data))
  | Subtotal => numberInput (subtotal (fields data))
  | Tax => numberInput (tax (fields data))
  | Total => numberInput (total (fields data))
  end.

(** The snapshots that arrive one after the other. *)
Definition onSnapshots (snaps : list (option InvoiceRecord)) (e : Editor) : Editor :=
  foldl (fun e data => onSnapshot data e) e snaps.

End Snapshots.

(* ===================================================================== *)
(** ** The upload page *)
(* ===================================================================== *)

(** [s.replaceAll(c, rep)] for a pattern [c] of one character. *)
Fixpoint replaceAllChar (c : ascii) (rep : string) (s : string) : string :=
  match s with
  | EmptyString => EmptyString
  | String d s' =>
      if Ascii.eqb d c then rep ++ replaceAllChar c rep s'
      else String d (replaceAllChar c rep s')
  end.

(** What the page reads of a [File]. *)
Record UploadFile : Type := { fileName : string; fileType : string }.

(** What [startUpload] reads of an item of the queue. *)
Record UploadItem : Type := {
  file : UploadFile;
  itemStoragePath : option string;
  uploaded : bool;
}.

Definition safeName (name : string) : string := replaceAllChar " " "_" name.

(** [`invoices/${user.uid}/${Date.now()}_${safeName}`], with [now] the
    milliseconds that [Date.now()] gives. *)
Definition newStoragePath (uid : string) (now : Z) (name : string) : string :=
  "invoices/" ++ uid ++ "/" ++ JsConv.decimalString now ++ "_" ++ safeName name.

(** The storage path that [startUpload] settles on: the one of the item
    when it has one and its file is already uploaded, a new one otherwise. *)
Definition uploadPath (uid : string) (now : Z) (item : UploadItem) : string :=
  match truthyText (itemStoragePath item) with
  | Some storagePath =>
      if negb (uploaded item) then newStoragePath uid now (fileName (file item))
      else storagePath
  | None => newStoragePath uid now (fileName (file item))
  end.

Definition emptyFields : InvoiceFields :=
  {| supplierName := None; supplierAddress := None;
     invoiceNumber := None; purchaseOrderNumber := None;
     invoiceDate := None; dueDate := None;
     subtotal := None; tax := None; total := None;
     lineItems := [] |}.

(** The document that [createInvoiceDoc] adds, [created] being the value
    that the server timestamps take. *)
Definition createInvoiceDoc (uid : string) (item : UploadItem) (storagePath : string)
           (created : Timestamp) : InvoiceRecord :=
  {| userId := Some uid;
     status := Some "uploaded";
     storagePath := Some storagePath;
     contentType := truthyText (Some (fileType (file item)));
     skipProcessing := false;
     errorMessage := None;
     fields := emptyFields;
     rawEntities := [];
     createdAt := Some created;
     updatedAt := Some created;
     extractedAt := None;
     finalizedAt := None |}.

(** The document of an upload started at [now]. *)
Definition startUpload (uid : string) (now : Z) (item : UploadItem) (created : Timestamp)
  : InvoiceRecord :=
  createInvoiceDoc uid item (uploadPath uid now item) created.

Definition suppliers : list string :=
  ["Acme Supplies"; "Northwind Traders"; "Bluebird Shipping"; "Globex Corp";
   "Sunrise Logistics"].

(** The [i]-th document of [simulateTestUploads]; [amount], [issued] and
    [serial] are the values drawn at random. *)
Definition simulatedDoc (uid : string) (i : nat) (amount : float) (issued : Timestamp)
           (serial : Z) (created : Timestamp) : InvoiceRecord :=
  {| userId := Some uid;
     status := Some "needs_review";
     storagePath := None;
     contentType := Some "application/pdf";
     skipProcessing := true;
     errorMessage := None;
     fields :=
       {| supplierName := suppliers !! (i mod length suppliers)%nat;
          supplierAddress := None;
          invoiceNumber := Some ("SIM-" ++ JsConv.decimalString serial);
          purchaseOrderNumber := None;
          invoiceDate := Some issued;
          dueDate := None;
          subtotal := Some (amount * 0.9)%float;
          tax := Some (amount * 0.1)%float;
          total := Some amount;
          lineItems := [] |};
     rawEntities := [];
     createdAt := Some created;
     updatedAt := Some created;
     extractedAt := None;
     finalizedAt := None |}.

(* ===================================================================== *)
(** ** Deletion of an invoice *)
(* ===================================================================== *)

(** What a deletion removes: a file of object storage or a document. *)
Inductive Removal : Type :=
| FileRemoved (path : string)
| DocRemoved (id : string).

(** The platform together with the removals asked for, latest first. *)
Record Backend : Type := {
  platform : Platform;
  removals : list Removal;
}.

(** Computations that may also remove files and documents. *)
Definition D (A : Type) : Type := Backend -> Result A * Backend.

#[global] Instance D_ret : MRet D := fun A a b => (Ok a, b).

#[global] Instance D_bind : MBind D := fun A B f m b =>
  match m b with
  | (Ok a, b') => f a b'
  | (Throw err, b') => (Throw err, b')
  end.

Definition throwD {A : Type} (err : Thrown) : D A := fun b => (Throw err, b).

(** A computation on the platform, run on a backend. *)
Definition onPlatform {A : Type} (m : M A) : D A := fun b =>
  let '(r, p') := m (platform b) in
  (r, {| platform := p'; removals := removals b |}).

Section Deletion.

(** [file.delete({ ignoreNotFound: true })]: the answer of object storage,
    for which a file that does not exist is no failure. *)
Context (sv : Services) (removeFile : string -> Thrown + unit).

Definition fileDelete (path : string) : D unit := fun b =>
  (match removeFile path with inl err => Throw err | inr _ => Ok tt end,
   {| platform := platform b; removals := FileRemoved path :: removals b |}).

(** [ref.delete()], which succeeds whether the document exists or not. *)
Definition docDelete (id : string) : D unit := fun b =>
  (Ok tt,
   {| platform := {| docs := delete id (docs (platform b)); log := log (platform b) |};
      removals := DocRemoved id :: removals b |}).

Definition deleteInvoiceV2 (request : CallableRequest) : D Ack :=
  match truthyText (auth request) with
  | None => throwD (HttpsError unauthenticated "Sign in required.")
  | Some uid =>
      let invoiceId := trim (default "" (invoiceId request)) in
      if negb (truthy invoiceId) then throwD (HttpsError invalid_argument "Missing invoiceId.")
      else
        invoiceRef ← onPlatform (doc sv Admin invoiceId);
        snap ← onPlatform (docGet invoiceRef);
        match snap with
        | None => throwD (HttpsError not_found "Invoice not found.")
        | Some data =>
            if negb (bool_decide (userId data = Some uid))
            then throwD (HttpsError permission_denied "Not allowed.")
            else
              (* Delete storage file if present *)
              _ ← match truthyText (storagePath data) with
                  | Some storagePath => fileDelete storagePath
                  | None => mret tt
                  end;
              _ ← docDelete invoiceRef;
              mret {| ok := true |}
        end
  end.

End Deletion.

(* ===================================================================== *)
(** ** Characters kept and dropped *)
(* ===================================================================== *)

(** The characters of [s] that satisfy [p], in order. *)
Fixpoint keep (p : ascii -> bool) (s : string) : string :=
  match s with
  | EmptyString => EmptyString
  | String c s' => if p c then String c (keep p s') else keep p s'
  end.

(** A character that [toNumberLoose] keeps: a digit, [.] or [-]. *)
Definition isNumeric (c : ascii) : bool :=
  isDigit c || Ascii.eqb c "." || Ascii.eqb c "-".

(* ===================================================================== *)
(** ** Entities that answer to an alias *)
(* ===================================================================== *)

(** An entity whose type, in lower case, is one of the aliases in lower case. *)
Definition hasAlias (types : list string) (e : RawEntity) : Prop :=
  exists t, In t types /\ toLowerCase (default "" (type e)) = toLowerCase t.

(* ===================================================================== *)
(** ** The structured part of a line item *)
(* ===================================================================== *)

(** The item that [parseLineItem] reads from the properties of a line-item
    entity, before any fallback to the mention text. *)
Definition structuredLineItem (props : list RawEntity) : LineItem :=
  let quantityText := entityText (pickEntity props ["quantity"; "qty"]) in
  {| description :=
       entityText (pickEntity props ["description"; "item_description"; "product_description"; "name"]);
     quantity :=
       match quantityText with
       | Some t => if truthy t then toNumberLoose t else None
       | None => None
       end;
     unitPrice := entityMoneyToNumber (pickEntity props ["unit_price"; "price"; "unit_cost"]);
     amount := entityMoneyToNumber (pickEntity props ["amount"; "line_item_amount"; "total_price"]) |}.

(** An item none of whose fields is filled: no description or an empty
    one, and no number. *)
Definition unfilled (item : LineItem) : bool :=
  negb (truthy (default "" (description item)))
  && negb (defined (quantity item)) && negb (defined (unitPrice item))
  && negb (defined (amount item)).

(* ===================================================================== *)
(** ** Sample data and the wording of the specification *)
(* ===================================================================== *)

(** *** Entities *)

(** An entity that carries nothing but a mention text. *)
Definition textEntity (kind mention : string) : RawEntity :=
  {| type := Some kind; mentionText := Some mention; normalizedValue := None;
     properties := None; confidence := None |}.

(** An entity that carries nothing but a normalized money value. *)
Definition moneyEntity (kind : string) (mv : MoneyValue) : RawEntity :=
  {| type := Some kind; mentionText := None;
     normalizedValue := Some {| text := None; moneyValue := Some mv; dateValue := None |};
     properties := None; confidence := None |}.

(** An entity that carries nothing but a normalized date value. *)
Definition dateEntity (kind : string) (y m d : Z) : RawEntity :=
  {| type := Some kind; mentionText := None;
     normalizedValue :=
       Some {| text := None; moneyValue := None;
               dateValue := Some {| year := Some y; month := Some m; day := Some d |} |};
     properties := None; confidence := None |}.

(** An entity with a text, a mention text and nanos only. *)
Definition nanosOnlyEntity : RawEntity :=
  {| type := Some "total_amount"; mentionText := Some "999.00";
     normalizedValue :=
       Some {| text := Some "12.00";
               moneyValue := Some {| units := Undefined; nanos := Num 500000000 |};
               dateValue := None |};
     properties := None; confidence := None |}.

(** The entities of a small invoice: a supplier, a total as normalized
    money, a tax that is only the text "n/a", a complete and an incomplete
    date, a line item that is only text and one with properties. *)
Definition sampleEntities : list RawEntity :=
  [ textEntity "Supplier_Name" "ACME Corp";
    moneyEntity "total_amount" {| units := Num 20; nanos := Num 500000000 |};
    textEntity "total_tax_amount" "n/a";
    {| type := Some "invoice_date"; mentionText := Some "31 Jan 2024";
       normalizedValue :=
         Some {| text := None; moneyValue := None;
                 dateValue := Some {| year := Some 2024; month := Some 1; day := Some 31 |} |};
       properties := None; confidence := None |};
    {| type := Some "due_date"; mentionText := Some "soon";
       normalizedValue :=
         Some {| text := None; moneyValue := None;
                 dateValue := Some {| year := Some 2024; month := None; day := Some 31 |} |};
       properties := None; confidence := None |};
    textEntity "line_item" "Widget A 2 10.00 20.00";
    {| type := Some "line_item"; mentionText := Some "Gadget 3 x 4.00";
       normalizedValue := None;
       properties :=
         Some [ textEntity "description" "Gadget"; textEntity "qty" "3";
                textEntity "unit_price" "4.00" ];
       confidence := None |} ].

(** *** Mention texts *)

(** What the specification gives for "2 Widget A 10.00 20.00". *)
Definition specifiedWidgetItem : LineItem :=
  {| description := Some "Widget A"; quantity := Some 2%float;
     unitPrice := Some 10%float; amount := Some 20%float |}.

(** The roles of the money matches as the specification words them, over
    all the money-shaped matches of the text: the last two become unit
    price and amount, a single one becomes the amount, and none leaves both
    null. *)
Definition rolesFollowShapedMatches (text : string) : Prop :=
  let mt := trim (replaceAll whitespaceRun " " text) in
  let shaped := matchAll moneyRegex mt in
  let item := parseLineItemFromMentionText text in
  (forall (pre : list (string * nat)) a b, shaped = (pre ++ [a; b])%list ->
     unitPrice item = toNumberLoose (fst a) /\ amount item = toNumberLoose (fst b))
  /\ (forall a, shaped = [a] -> amount item = toNumberLoose (fst a))
  /\ (shaped = [] -> unitPrice item = None /\ amount item = None).

(** A money-shaped text of 312 digits, which converts to infinity. *)
Definition hugeMoney : string := "999" ++ JsString.repeat ",999" 103 ++ ".99".

(** A string of white space only. *)
Fixpoint blank (s : string) : bool :=
  match s with
  | EmptyString => true
  | String c s' => isSpace c && blank s'
  end.

(** *** Platforms and records *)

(** The digits of [s] from [from], [len] of them. *)
Definition digitsAt (s : string) (from len : nat) : option Z :=
  let t := substring from len s in
  if (String.length t =? len)%nat && forallb isDigit (list_ascii_of_string t)
  then Some (JsConv.digitsValue t) else None.

(** A runtime in UTC reading a date of the form [yyyy-mm-ddT00:00:00]. *)
Definition utcDateTime (s : string) : option Z :=
  if (String.length s =? 19)%nat
     && String.eqb (substring 4 1 s) "-" && String.eqb (substring 7 1 s) "-"
     && String.eqb (substring 10 9 s) "T00:00:00"
  then
    y ← digitsAt s 0 4;
    m ← digitsAt s 5 2;
    d ← digitsAt s 8 2;
    if (1 <=? m) && (m <=? 12) && (1 <=? d) && (d <=? 31)
    then JsDate.timeClip (JsDate.makeDay y (m - 1) d * JsDate.msPerDay)
    else None
  else None.

Definition integerText (z : Z) : string :=
  if z <? 0 then "-" ++ JsConv.decimalString (- z) else JsConv.decimalString z.

(** Texts for the errors of the libraries. *)
Definition sampleMessage (sdk : Sdk) (failure : LibraryFailure) : string :=
  match failure with
  | NotADocumentPath path => "Not a document path: " ++ path
  | TimestampOutOfRange (Some seconds) => "Timestamp seconds out of range: " ++ integerText seconds
  | TimestampOutOfRange None => "Timestamp seconds is not a number"
  | NoDocumentToUpdate key => "No document to update: invoices/" ++ key
  end.

(** Platform answers under which the extraction service returns [es]. *)
Definition answering (es : list RawEntity) : Services :=
  {| getMetadata := fun _ => inr (Some "application/pdf");
     download := fun _ => inr "%PDF";
     base64 := fun b => b;
     GCLOUD_PROJECT := Some "demo-project";
     processDocument := fun _ => inr {| document := Some {| entities := Some es |} |};
     localTZA := fun _ => 0;
     dateTime := utcDateTime;
     libraryMessage := sampleMessage |}.

(** Object storage that has lost the file. *)
Definition missingFile : Services :=
  {| getMetadata := fun _ => inr (Some "application/pdf");
     download := fun _ => inl (Error "ApiError" "No such object");
     base64 := fun b => b;
     GCLOUD_PROJECT := Some "demo-project";
     processDocument := fun _ => inr {| document := None |};
     localTZA := fun _ => 0;
     dateTime := utcDateTime;
     libraryMessage := sampleMessage |}.

(** A stored invoice in review, with extracted fields. *)
Definition reviewedInvoice : InvoiceRecord :=
  {| userId := Some "alice";
     status := Some "needs_review";
     storagePath := Some "invoices/alice/1_a.pdf";
     contentType := Some "application/pdf";
     skipProcessing := false;
     errorMessage := None;
     fields :=
       {| supplierName := Some "ACME"; supplierAddress := None;
          invoiceNumber := Some "INV-7"; purchaseOrderNumber := None;
          invoiceDate := Some (LocalMidnight 2024 0 31); dueDate := None;
          subtotal := Some 20%float; tax := Some 0.5%float; total := Some 20.5%float;
          lineItems :=
            [ {| description := Some "Widget A"; quantity := Some 2%float;
                 unitPrice := Some 10%float; amount := Some 20%float |} ] |};
     rawEntities := [];
     createdAt := Some (ServerTimestamp 0);
     updatedAt := Some (ServerTimestamp 3);
     extractedAt := Some (ServerTimestamp 3);
     finalizedAt := None |}.

(** The record that the upload page creates. *)
Definition uploadedInvoice : InvoiceRecord :=
  {| userId := Some "alice";
     status := Some "uploaded";
     storagePath := Some "invoices/alice/1_a.pdf";
     contentType := Some "application/pdf";
     skipProcessing := false;
     errorMessage := None;
     fields :=
       {| supplierName := None; supplierAddress := None;
          invoiceNumber := None; purchaseOrderNumber := None;
          invoiceDate := None; dueDate := None;
          subtotal := None; tax := None; total := None;
          lineItems := [] |};
     rawEntities := [];
     createdAt := Some (ServerTimestamp 0);
     updatedAt := Some (ServerTimestamp 0);
     extractedAt := None;
     finalizedAt := None |}.

(** An invoice whose extraction failed. *)
Definition failedInvoice : InvoiceRecord :=
  {| userId := userId uploadedInvoice;
     status := Some "error";
     storagePath := storagePath uploadedInvoice;
     contentType := contentType uploadedInvoice;
     skipProcessing := false;
     errorMessage := Some "No such object";
     fields := fields uploadedInvoice;
     rawEntities := [];
     createdAt := createdAt uploadedInvoice;
     updatedAt := Some (ServerTimestamp 2);
     extractedAt := None;
     finalizedAt := None |}.

(** A finalized invoice of the user alice. *)
Definition finalizedInvoice : InvoiceRecord :=
  {| userId := userId reviewedInvoice;
     status := Some "finalized";
     storagePath := storagePath reviewedInvoice;
     contentType := contentType reviewedInvoice;
     skipProcessing := false;
     errorMessage := None;
     fields := fields reviewedInvoice;
     rawEntities := [];
     createdAt := createdAt reviewedInvoice;
     updatedAt := Some (ServerTimestamp 5);
     extractedAt := extractedAt reviewedInvoice;
     finalizedAt := Some (ServerTimestamp 5) |}.

(** A platform whose store holds one invoice, and nothing logged yet. *)
Definition onlyInvoice (r : InvoiceRecord) : Platform :=
  {| docs := {[ "inv-1" := r ]}; log := [] |}.

(** The review page of alice on that invoice, with an edited total. *)
Definition editedPage : ReviewPage :=
  {| user := Some "alice";
     pageInvoiceId := "inv-1";
     inv := Some finalizedInvoice;
     supplierNameInput := "ACME";
     supplierAddressInput := "";
     invoiceNumberInput := "INV-7";
     purchaseOrderNumberInput := "";
     invoiceDateInput := "2024-01-31";
     dueDateInput := "";
     subtotalInput := "20";
     taxInput := "0.5";
     totalInput := "99";
     lineItemsInput := [] |}.

(** *** Outcome of the processing body *)

(** The record that the processing body leaves, by the outcome of the
    [try] block: [started] is the record after the first update and [now]
    the time of the last one. *)
Definition settled (outcome : Result (InvoiceFields * list DebugEntity))
           (now : Timestamp) (started : InvoiceRecord) : InvoiceRecord :=
  match outcome with
  | Ok (extracted, raw) => markExtracted extracted raw now started
  | Throw err => markError err now started
  end.

(** The review page of alice on the invoice in review, with the same
    inputs. *)
Definition openPage : ReviewPage := setInv (Some reviewedInvoice) editedPage.

(** An editor on a page, with nothing edited and no operation under way. *)
Definition opened (pg : ReviewPage) : Editor :=
  {| shown := pg; dirty := ∅; saving := false; deleting := false |}.

(** The editor of alice on the invoice in review, showing the widget item. *)
Definition widgetEditor : Editor :=
  opened (setLineItems (fun _ => [specifiedWidgetItem]) openPage).

(** *** Uploads *)

(** A scan chosen on the upload page, not yet uploaded. *)
Definition scannedItem : UploadItem :=
  {| file := {| fileName := "march invoice.pdf"; fileType := "application/pdf" |};
     itemStoragePath := None;
     uploaded := false |}.

(** The document of alice's upload of the scan. *)
Definition scannedInvoice : InvoiceRecord :=
  startUpload "alice" 1700000000000 scannedItem (ServerTimestamp 0).

(** A simulated invoice of alice. *)
Definition simulatedInvoice : InvoiceRecord :=
  simulatedDoc "alice" 6 1234.5%float (LocalDateTime "2024-01-31T10:00:00") 4242
    (ServerTimestamp 0).

(** The fields that the normalization reads from [sampleEntities]. *)
Definition sampleFields : InvoiceFields :=
  {| supplierName := Some "ACME Corp"; supplierAddress := None;
     invoiceNumber := None; purchaseOrderNumber := None;
     invoiceDate := Some (LocalMidnight 2024 0 31); dueDate := None;
     subtotal := None; tax := Some 0%float; total := Some 20.5%float;
     lineItems :=
       [ {| description := Some "Widget A"; quantity := Some 2%float;
            unitPrice := Some 10%float; amount := Some 20%float |};
         {| description := Some "Gadget"; quantity := Some 3%float;
            unitPrice := Some 4%float; amount := None |} ] |}.

(** Collaborators that give the same answers: object storage, the
    extraction service, the environment, the time zone and the texts of
    the Admin SDK. *)
Definition sameAnswers (sv1 sv2 : Services) : Prop :=
  (forall path, getMetadata sv1 path = getMetadata sv2 path)
  /\ (forall path, download sv1 path = download sv2 path)
  /\ (forall buf, base64 sv1 buf = base64 sv2 buf)
  /\ GCLOUD_PROJECT sv1 = GCLOUD_PROJECT sv2
  /\ (forall request, processDocument sv1 request = processDocument sv2 request)
  /\ (forall t, localTZA sv1 t = localTZA sv2 t)
  /\ (forall failure, libraryMessage sv1 Admin failure = libraryMessage sv2 Admin failure).

(** *** The wording of the specification on the lifecycle *)



(** *** Backends *)

(** A backend over a platform, with nothing removed yet. *)
Definition untouched (p : Platform) : Backend := {| platform := p; removals := [] |}.

(** Object storage that removes every file it is asked to. *)
Definition removing (path : string) : Thrown + unit := inr tt.

(** Object storage that refuses to remove a file. *)
Definition refusing (path : string) : Thrown + unit :=
  inl (Error "ApiError" "storage.objects.delete denied").

(* ===================================================================== *)
(** * Properties *)
(* ===================================================================== *)

(** ** The conversions on known values *)

Example Number_empty : JsConv.Number "" = 0%float.
Proof. vm_compute. reflexivity. Qed.

Example Number_money : JsConv.Number "1234.56" = 1234.56%float.
Proof. vm_compute. reflexivity. Qed.

Example Number_dash : JsConv.Number "-" = PrimFloat.nan.
Proof. vm_compute. reflexivity. Qed.

Example Number_two_dots : JsConv.Number "1.2.3" = PrimFloat.nan.
Proof. vm_compute. reflexivity. Qed.

Example Number_exponent : JsConv.Number " 1.5e3 " = 1500%float.
Proof. vm_compute. reflexivity. Qed.

Example Number_overflow : JsConv.Number (JsString.repeat "9" 400) = PrimFloat.infinity.
Proof. vm_compute. reflexivity. Qed.

Example nearest_largest : JsNumber.nearest (2 ^ 1024 - 2 ^ 970 - 1) 1 = 0x1.fffffffffffffp+1023%float.
Proof. vm_compute. reflexivity. Qed.

Example nearest_smallest : JsNumber.nearest 5 (10 ^ 324) = 0x0.0000000000001p-1022%float.
Proof. vm_compute. reflexivity. Qed.

Example round_half_up : JsNumber.round 2.5%float = 3%float.
Proof. vm_compute. reflexivity. Qed.

Example round_half_negative : JsNumber.round (-2.5)%float = (-2)%float.
Proof. vm_compute. reflexivity. Qed.

Example round_below_half : JsNumber.round 0.49999999999999994%float = 0%float.
Proof. vm_compute. reflexivity. Qed.

Example toString_integer : JsConv.toString 1200%float = "1200".
Proof. vm_compute. reflexivity. Qed.

Example toString_beyond_safe :
  JsConv.toString (JsConv.Number "12345678901234567890") = "12345678901234567000".
Proof. vm_compute. reflexivity. Qed.

Example toString_exponent :
  JsConv.toString (JsConv.Number "12345678901234567890123") = "1.2345678901234568e+22".
Proof. vm_compute. reflexivity. Qed.

Example toString_power_of_ten :
  JsConv.toString (JsConv.Number "100000000000000000000000") = "1e+23".
Proof. vm_compute. reflexivity. Qed.

(** ** Options *)

Lemma orElse_Some {A : Type} (x y : option A) (a : A) : x = Some a -> orElse x y = Some a.
Proof. intros ->. reflexivity. Qed.

Lemma orElse_None {A : Type} (y : option A) : orElse None y = y.
Proof. reflexivity. Qed.

Lemma defined_true {A : Type} (x : option A) : defined x = true <-> x <> None.
Proof. destruct x; simpl; split; congruence. Qed.

(** ** Money coercion *)

Lemma entityMoneyToNumber_money (e : RawEntity) (mv : MoneyValue) :
  normalizedValue e ≫= moneyValue = Some mv ->
  isDefined (units mv) || isDefined (nanos mv) = true ->
  entityMoneyToNumber (Some e) =
  Some (JsNumber.ofZ (orZero (units mv)) + JsNumber.ofZ (orZero (nanos mv)) / 1e9)%float.
Proof.
  intros Hmv Hdef. unfold entityMoneyToNumber. rewrite Hmv, Hdef. reflexivity.
Qed.

Lemma entityMoneyToNumber_text (e : RawEntity) :
  (forall mv, normalizedValue e ≫= moneyValue = Some mv ->
              isDefined (units mv) || isDefined (nanos mv) = false) ->
  entityMoneyToNumber (Some e) =
  match entityText (Some e) with
  | Some t => if truthy t then toNumberLoose t else None
  | None => None
  end.
Proof.
  intros Hno. unfold entityMoneyToNumber.
  destruct (normalizedValue e ≫= moneyValue) as [mv|] eqn:Hmv; [|reflexivity].
  rewrite (Hno mv eq_refl). reflexivity.
Qed.

(** C6: a normalized money value with units or nanos defined is coerced to
    [units + nanos / 1e9] (20 units and 500000000 nanos give 20.5); without
    one, every character of the entity's text other than a digit, [.] and
    [-] is removed, the rest is converted to a number, and a result that is
    not finite becomes null, so that the text "$1,234.56" gives 1234.56.
    The text "n/a" is left empty by the removal, the empty string converts
    to 0, and the coercion returns 0 where null is specified. *)
Theorem money_coercion_on_text_without_digits :
  (forall (e : RawEntity) (mv : MoneyValue),
      normalizedValue e ≫= moneyValue = Some mv ->
      isDefined (units mv) || isDefined (nanos mv) = true ->
      entityMoneyToNumber (Some e) =
      Some (JsNumber.ofZ (orZero (units mv))
            + JsNumber.ofZ (orZero (nanos mv)) / 1e9)%float)
  /\ entityMoneyToNumber
       (Some (moneyEntity "total_amount" {| units := Num 20; nanos := Num 500000000 |}))
     = Some 20.5%float
  /\ (forall (e : RawEntity) (t : string),
         normalizedValue e ≫= moneyValue = None ->
         entityText (Some e) = Some t -> truthy t = true ->
         entityMoneyToNumber (Some e) =
         (let n := JsConv.Number (replaceAll nonNumeric "" t) in
          if JsNumber.isFinite n then Some n else None))
  /\ entityMoneyToNumber (Some (textEntity "total_amount" "$1,234.56")) = Some 1234.56%float
  /\ replaceAll nonNumeric "" "n/a" = ""
  /\ entityMoneyToNumber (Some (textEntity "total_amount" "n/a")) = Some 0%float.
Proof.
  split; [exact entityMoneyToNumber_money|].
  split; [vm_compute; reflexivity|].
  split.
  { intros e t Hmv Ht Htruthy. rewrite entityMoneyToNumber_text.
    - rewrite Ht, Htruthy. reflexivity.
    - intros mv Hmv'. congruence. }
  repeat split; vm_compute; reflexivity.
Qed.

(** C10: when a normalized money value has only one of units and nanos
    defined, the missing one counts as 0: nanos 500000000 alone gives 0.5
    and units 7 alone gives 7, whatever text the entity carries.  A
    component that is [null] counts as 0 in the same way. *)
Theorem money_value_missing_component_is_zero (e : RawEntity) (mv : MoneyValue) :
  normalizedValue e ≫= moneyValue = Some mv ->
  (forall n : Z, units mv = Undefined \/ units mv = Null -> nanos mv = Num n ->
     entityMoneyToNumber (Some e) = Some (JsNumber.ofZ 0 + JsNumber.ofZ n / 1e9)%float
     /\ (n = 500000000 -> entityMoneyToNumber (Some e) = Some 0.5%float))
  /\ (forall u : Z, units mv = Num u -> nanos mv = Undefined \/ nanos mv = Null ->
     entityMoneyToNumber (Some e) = Some (JsNumber.ofZ u + JsNumber.ofZ 0 / 1e9)%float
     /\ (u = 7 -> entityMoneyToNumber (Some e) = Some 7%float)).
Proof.
  intros Hmv. split.
  - intros n Hu Hn.
    assert (H : entityMoneyToNumber (Some e)
                = Some (JsNumber.ofZ 0 + JsNumber.ofZ n / 1e9)%float).
    { rewrite (entityMoneyToNumber_money e mv Hmv).
      - rewrite Hn. destruct Hu as [-> | ->]; reflexivity.
      - rewrite Hn. apply orb_true_r. }
    split; [exact H|]. intros ->. rewrite H. vm_compute. reflexivity.
  - intros u Hu Hn.
    assert (H : entityMoneyToNumber (Some e)
                = Some (JsNumber.ofZ u + JsNumber.ofZ 0 / 1e9)%float).
    { rewrite (entityMoneyToNumber_money e mv Hmv).
      - rewrite Hu. destruct Hn as [-> | ->]; reflexivity.
      - rewrite Hu. reflexivity. }
    split; [exact H|]. intros ->. rewrite H. vm_compute. reflexivity.
Qed.

Lemma money_value_missing_component_is_zero_witness :
  entityMoneyToNumber (Some nanosOnlyEntity) = Some 0.5%float.
Proof.
  exact (proj2 (proj1 (money_value_missing_component_is_zero nanosOnlyEntity
                         {| units := Undefined; nanos := Num 500000000 |} eq_refl)
                      500000000 (or_introl eq_refl) eq_refl) eq_refl).
Defined.

(** ** The heuristic parse of a mention text *)

Lemma moneyRoles_two_last (pre : list MoneyMatch) (a b : MoneyMatch) :
  moneyRoles (pre ++ [a; b]) = (Some (value a), Some (value b)).
Proof.
  unfold moneyRoles. rewrite length_app. simpl.
  replace (length pre + 2)%nat with (S (S (length pre))) by lia. simpl.
  replace (length pre - 0)%nat with (length pre) by lia.
  rewrite (lookup_app_r pre [a; b] (length pre)) by lia.
  rewrite (lookup_app_r pre [a; b] (S (length pre))) by lia.
  replace (length pre - length pre)%nat with 0%nat by lia.
  replace (S (length pre) - length pre)%nat with 1%nat by lia.
  reflexivity.
Qed.

Lemma backfill_both_known (q : option float) (u a : float) :
  backfill q (Some u) (Some a) = (Some u, Some a).
Proof. reflexivity. Qed.

Lemma backfill_none_known (q : option float) : backfill q None None = (None, None).
Proof. destruct q; reflexivity. Qed.

(** The result of the parse when the text has something besides white space. *)
Lemma parse_of_text (text : string) :
  let mt := trim (replaceAll whitespaceRun " " text) in
  let moneyMatches := moneyMatchesOf mt in
  let beforeMoney :=
    trim (sliceTo (match moneyMatches with m :: _ => start m | nil => String.length mt end) mt) in
  let quantity := quantityOf beforeMoney in
  let described := descriptionOf beforeMoney quantity in
  let prices := backfill quantity (fst (moneyRoles moneyMatches)) (snd (moneyRoles moneyMatches)) in
  truthy mt = true ->
  parseLineItemFromMentionText text =
  {| description := Some (if truthy described then described else mt);
     quantity := quantity;
     unitPrice := fst prices;
     amount := snd prices |}.
Proof.
  intros mt moneyMatches beforeMoney quantity described prices Hmt.
  unfold parseLineItemFromMentionText. fold mt. rewrite Hmt. simpl.
  fold moneyMatches. destruct (moneyRoles moneyMatches) as [u a] eqn:Hroles.
  fold beforeMoney. fold quantity. fold described.
  subst prices. simpl. destruct (backfill quantity u a) as [u' a'].
  destruct (truthy described) eqn:Hd.
  - rewrite Hd. reflexivity.
  - rewrite Hmt. reflexivity.
Qed.

Lemma parse_of_blank (text : string) :
  truthy (trim (replaceAll whitespaceRun " " text)) = false ->
  parseLineItemFromMentionText text =
  {| description := None; quantity := None; unitPrice := None; amount := None |}.
Proof. intros H. unfold parseLineItemFromMentionText. rewrite H. reflexivity. Qed.

Lemma truthy_false (s : string) : truthy s = false -> s = "".
Proof. destruct s; simpl; congruence. Qed.

(** C8: the backfill never replaces a value that is already there and never
    divides by zero.  The amount becomes [round(quantity * unitPrice)] to 2
    decimals exactly when it is null and quantity and unit price are known
    (3 and 4.00 give 12.00); the unit price becomes [round(amount /
    quantity)] to 2 decimals exactly when it is null, amount and quantity
    are known and the quantity is not zero; with quantity 0 it stays null. *)
Theorem backfill_is_guarded (q u a : option float) :
  let u' := fst (backfill q u a) in
  let a' := snd (backfill q u a) in
  (a <> None -> a' = a)
  /\ (u <> None -> u' = u)
  /\ (forall qv uv, a = None -> q = Some qv -> u = Some uv ->
        a' = Some (round2 (qv * uv)%float))
  /\ (a' <> a ->
        a = None /\ exists qv uv, q = Some qv /\ u = Some uv
                                  /\ a' = Some (round2 (qv * uv)%float))
  /\ (forall qv av, u = None -> q = Some qv -> a = Some av -> (qv =? 0)%float = false ->
        u' = Some (round2 (av / qv)%float))
  /\ (u' <> u ->
        u = None /\ exists qv av, q = Some qv /\ a = Some av /\ (qv =? 0)%float = false
                                  /\ u' = Some (round2 (av / qv)%float))
  /\ (forall qv, q = Some qv -> (qv =? 0)%float = true -> u' = u)
  /\ backfill (Some 3%float) (Some 4%float) None = (Some 4%float, Some 12%float)
  /\ backfill (Some 0%float) None (Some 5%float) = (None, Some 5%float)
  /\ unitPrice (parseLineItemFromMentionText "0 Thing 5.00") = None.
Proof.
  cbv zeta.
  split; [destruct a, q, u; simpl; congruence|].
  split; [destruct a as [av|], q as [qv|], u; simpl; try congruence;
          destruct (qv =? 0)%float; simpl; congruence|].
  split; [intros qv uv -> -> ->; reflexivity|].
  split.
  { destruct a as [av|], q as [qv|], u as [uv|]; simpl; try congruence.
    intros _. split; [reflexivity|]. exists qv, uv. auto. }
  split; [intros qv av -> -> -> Hq; simpl; rewrite Hq; reflexivity|].
  split.
  { destruct a as [av|], q as [qv|], u as [uv|]; simpl; try congruence.
    destruct (qv =? 0)%float eqn:Hq; simpl; [congruence|].
    intros _. split; [reflexivity|]. exists qv, av. auto. }
  split.
  { intros qv -> Hq. destruct a, u; simpl; try rewrite Hq; reflexivity. }
  repeat split; vm_compute; reflexivity.
Qed.

(** The parse of "2 Widget A 10.00 20.00" is not the specified item: the
    quantity 2 leads the text and is not a trailing token. *)
Lemma widget_item_is_not_the_specified_one :
  parseLineItemFromMentionText "2 Widget A 10.00 20.00" <> specifiedWidgetItem.
Proof. vm_compute. intros H. discriminate H. Qed.

(** C5, amended: "2 Widget A 10.00 20.00" is parsed to the description
    "2 Widget A", quantity 2, unit price 10.00 and amount 20.00, because
    only a trailing quantity is removed from the description, as in
    "Widget A 2 10.00 20.00", whose description is "Widget A".  In general
    the description is the text before the first money match, without a
    trailing standalone token equal to the quantity, trimmed, and the whole
    text when that is empty. *)
Theorem description_drops_trailing_quantity_only :
  parseLineItemFromMentionText "2 Widget A 10.00 20.00" =
    {| description := Some "2 Widget A"; quantity := Some 2%float;
       unitPrice := Some 10%float; amount := Some 20%float |}
  /\ parseLineItemFromMentionText "Widget A 2 10.00 20.00" =
    {| description := Some "Widget A"; quantity := Some 2%float;
       unitPrice := Some 10%float; amount := Some 20%float |}
  /\ replaceFirst (trailingQuantity 2%float) "" "2 Widget A" = "2 Widget A"
  /\ replaceFirst (trailingQuantity 2%float) "" "Widget A 2" = "Widget A "
  /\ replaceFirst (trailingQuantity 2%float) "" "Widget A12" = "Widget A12"
  /\ forall text : string,
       let mt := trim (replaceAll whitespaceRun " " text) in
       let moneyMatches := moneyMatchesOf mt in
       let firstMoneyStart :=
         match moneyMatches with m :: _ => start m | nil => String.length mt end in
       let beforeMoney := trim (sliceTo firstMoneyStart mt) in
       let item := parseLineItemFromMentionText text in
       let stripped :=
         match quantity item with
         | Some q => trim (replaceFirst (trailingQuantity q) "" beforeMoney)
         | None => beforeMoney
         end in
       (truthy mt = true ->
        description item = Some (if truthy stripped then stripped else mt))
       /\ (truthy mt = false -> description item = None).
Proof.
  do 5 (split; [vm_compute; reflexivity|]).
  intros text mt moneyMatches firstMoneyStart beforeMoney item stripped. split.
  - intros Hmt. subst stripped item. rewrite (parse_of_text text Hmt). reflexivity.
  - intros Hmt. subst item. rewrite (parse_of_blank text Hmt). reflexivity.
Qed.

(** With three money-shaped matches of which the last does not convert to
    a finite number, the first two take the roles. *)
Lemma roles_skip_a_match_that_is_not_finite :
  ~ rolesFollowShapedMatches ("1.00 2.00 " ++ hugeMoney).
Proof.
  intros [H _].
  specialize (H [("1.00", 0%nat)] ("2.00", 5%nat) (hugeMoney, 10%nat)).
  assert (Hs : matchAll moneyRegex (trim (replaceAll whitespaceRun " " ("1.00 2.00 " ++ hugeMoney)))
               = ([("1.00", 0%nat)] ++ [("2.00", 5%nat); (hugeMoney, 10%nat)])%list)
    by (vm_compute; reflexivity).
  destruct (H Hs) as [Hu _].
  vm_compute in Hu. discriminate Hu.
Qed.

(** C7, amended: over the money matches whose text converts to a finite
    number (a match that does not is skipped), for every text: when there
    are at least 2, the second-to-last is the unit price and the last the
    amount; when there is exactly 1, it is the amount and no match is the
    unit price, which is null unless it is derived from amount and a
    non-zero quantity ("Shipping fee 15.00" gives the description
    "Shipping fee", no quantity, no unit price and the amount 15.00); when
    there is none, unit price and amount are both null. *)
Theorem money_roles_of_recorded_matches (text : string) :
  let mt := trim (replaceAll whitespaceRun " " text) in
  let moneyMatches := moneyMatchesOf mt in
  let item := parseLineItemFromMentionText text in
  (forall (pre : list MoneyMatch) a b, moneyMatches = (pre ++ [a; b])%list ->
     unitPrice item = Some (value a) /\ amount item = Some (value b))
  /\ (forall a, moneyMatches = [a] ->
        amount item = Some (value a)
        /\ moneyRoles moneyMatches = (None, Some (value a))
        /\ (unitPrice item = None
            \/ exists q, quantity item = Some q /\ (q =? 0)%float = false
                         /\ unitPrice item = Some (round2 (value a / q)%float))
        /\ (quantity item = None -> unitPrice item = None))
  /\ (moneyMatches = [] -> unitPrice item = None /\ amount item = None)
  /\ parseLineItemFromMentionText "Shipping fee 15.00" =
     {| description := Some "Shipping fee"; quantity := None;
        unitPrice := None; amount := Some 15%float |}.
Proof.
  intros mt moneyMatches item.
  assert (Hblank : truthy mt = false -> moneyMatches = []).
  { intros Hmt. subst moneyMatches. rewrite (truthy_false mt Hmt). reflexivity. }
  destruct (truthy mt) eqn:Hmt.
  - pose proof (parse_of_text text Hmt) as Hparse. cbv zeta in Hparse.
    fold mt in Hparse. fold moneyMatches in Hparse. fold item in Hparse.
    split; [|split; [|split]].
    + intros pre a b Hms. rewrite Hparse. simpl.
      rewrite Hms, moneyRoles_two_last. simpl. auto.
    + intros a Hms. rewrite Hparse. simpl. rewrite Hms. simpl.
      match goal with |- context [quantityOf ?s] => destruct (quantityOf s) as [q|] end;
        simpl.
      * destruct (q =? 0)%float eqn:Hq; simpl.
        -- repeat split; auto.
        -- repeat split; try discriminate. right. exists q. auto.
      * repeat split; auto.
    + intros Hms. rewrite Hparse. cbn [unitPrice amount]. rewrite Hms.
      change (moneyRoles []) with (@None float, @None float). cbn [fst snd].
      rewrite backfill_none_known. auto.
    + vm_compute. reflexivity.
  - pose proof (parse_of_blank text Hmt) as Hparse. fold item in Hparse.
    rewrite (Hblank eq_refl).
    split; [|split; [|split]].
    + intros pre a b Hms. destruct pre; discriminate Hms.
    + intros a Hms. discriminate Hms.
    + intros _. rewrite Hparse. auto.
    + vm_compute. reflexivity.
Qed.

(** ** Normalization *)

Lemma pickEntity_none (es : list RawEntity) (types : list string) :
  Forall (fun e => ~ In (typeName e) (map toLowerCase types)) es ->
  pickEntity es types = None.
Proof.
  intros Hall. unfold pickEntity.
  induction Hall as [|e es He _ IH]; [reflexivity|]. simpl.
  destruct (existsb (String.eqb (typeName e)) (map toLowerCase types)) eqn:Hex; [|exact IH].
  exfalso. apply He. apply existsb_exists in Hex as [t [Hin Heq]].
  apply String.eqb_eq in Heq. subst t. exact Hin.
Qed.

Lemma pickEntity_some (es : list RawEntity) (types : list string) (e : RawEntity) :
  pickEntity es types = Some e ->
  In e es /\ In (typeName e) (map toLowerCase types).
Proof.
  unfold pickEntity. intros H. apply find_some in H as [Hin Hex]. split; [exact Hin|].
  apply existsb_exists in Hex as [t [Ht Heq]]. apply String.eqb_eq in Heq. subst t. exact Ht.
Qed.

Lemma length_parseLineItems (es : list RawEntity) :
  length (parseLineItems es) = length (List.filter isLineItem es).
Proof. unfold parseLineItems. apply length_map. Qed.

(** Unfolding of the monad of the operations. *)
Ltac unfold_monad :=
  unfold mbind, M_bind, mret, M_ret, answer, logEvent, throw, tryCatch, docGet, docUpdate in *.

(** The [try] block, when the collaborators answer, ends as the
    normalization of the entities does. *)
Lemma extract_answers (sv : Services) (data : InvoiceRecord) (p : Platform)
      (path : string) (meta : option string) (buf project : string) (es : list RawEntity) :
  truthyText (storagePath data) = Some path ->
  getMetadata sv path = inr meta ->
  download sv path = inr buf ->
  truthyText (GCLOUD_PROJECT sv) = Some project ->
  (forall request, processDocument sv request
                   = inr {| document := Some {| entities := Some es |} |}) ->
  fst (extract sv data p)
  = (fun extracted => (extracted, map debugEntity (firstn 200 es))) <$> normalizeInvoice sv es.
Proof.
  intros Hpath Hmeta Hbuf Hproject Hdoc. unfold extract. unfold_monad.
  rewrite Hpath. simpl. rewrite Hmeta. simpl. rewrite Hbuf, Hproject. simpl.
  rewrite Hdoc. simpl. unfold outcome.
  destruct (normalizeInvoice sv es); reflexivity.
Qed.

(** The conversion of a date, by what the entity carries. *)
Lemma entityDateToTimestamp_cases (sv : Services) (e : RawEntity) :
  (normalizedValue e ≫= dateValue = None /\ entityDateToTimestamp sv (Some e) = Ok None)
  \/ (exists dv, normalizedValue e ≫= dateValue = Some dv
                 /\ (nonZero (year dv) = None \/ nonZero (month dv) = None
                     \/ nonZero (day dv) = None)
                 /\ entityDateToTimestamp sv (Some e) = Ok None)
  \/ (exists dv y m d, normalizedValue e ≫= dateValue = Some dv
                       /\ nonZero (year dv) = Some y /\ nonZero (month dv) = Some m
                       /\ nonZero (day dv) = Some d
                       /\ entityDateToTimestamp sv (Some e)
                          = Some <$> fromDate sv Admin (JsDate.construct (localTZA sv) y (m - 1) d)
                                       (LocalMidnight y (m - 1) d)).
Proof.
  unfold entityDateToTimestamp.
  destruct (normalizedValue e ≫= dateValue) as [dv|]; [|left; auto].
  destruct (nonZero (year dv)) as [y|] eqn:Hy; [|right; left; exists dv; auto].
  destruct (nonZero (month dv)) as [m|] eqn:Hm; [|right; left; exists dv; auto].
  destruct (nonZero (day dv)) as [d|] eqn:Hd; [|right; left; exists dv; auto 6].
  right. right. exists dv, y, m, d. auto 6.
Qed.

(** What [fromDate] accepts. *)
Lemma fromDate_cases (sv : Services) (sdk : Sdk) (time : option Z) (made : Timestamp) :
  (exists ms, time = Some ms /\ MIN_SECONDS <= ms / 1000 <= MAX_SECONDS
              /\ fromDate sv sdk time made = Ok made)
  \/ ((time = None \/ exists ms, time = Some ms
                                 /\ (ms / 1000 < MIN_SECONDS \/ MAX_SECONDS < ms / 1000))
      /\ fromDate sv sdk time made
         = Throw (libraryError sv sdk (TimestampOutOfRange ((fun ms => ms / 1000) <$> time)))).
Proof.
  unfold fromDate. destruct time as [ms|]; [|right; auto].
  destruct (ms / 1000 <? MIN_SECONDS) eqn:Hlo; simpl.
  - right. split; [|reflexivity]. right. exists ms. split; [reflexivity|]. lia.
  - destruct (MAX_SECONDS <? ms / 1000) eqn:Hhi.
    + right. split; [|reflexivity]. right. exists ms. split; [reflexivity|]. lia.
    + left. exists ms. split; [reflexivity|]. split; [lia|reflexivity].
Qed.

(** The normalization throws exactly what the conversion of one of its
    two dates throws, the invoice date first. *)
Lemma normalizeInvoice_cases (sv : Services) (es : list RawEntity) :
  let first := entityDateToTimestamp sv (pickEntity es ["invoice_date"; "date"]) in
  let second := entityDateToTimestamp sv (pickEntity es ["due_date"]) in
  match first, second with
  | Ok issued, Ok due =>
      exists extracted,
        normalizeInvoice sv es = Ok extracted
        /\ invoiceDate extracted = issued /\ dueDate extracted = due
        /\ supplierName extracted
           = entityText (pickEntity es ["supplier_name"; "supplier"; "vendor_name"; "vendor"])
        /\ supplierAddress extracted
           = entityText (pickEntity es ["supplier_address"; "vendor_address"; "address"])
        /\ invoiceNumber extracted
           = entityText (pickEntity es ["invoice_id"; "invoice_number"; "invoice_no"])
        /\ purchaseOrderNumber extracted
           = entityText (pickEntity es ["purchase_order"; "purchase_order_number";
                                        "po_number"; "po"])
        /\ subtotal extracted
           = entityMoneyToNumber (pickEntity es ["subtotal_amount"; "subtotal"])
        /\ tax extracted
           = entityMoneyToNumber (pickEntity es ["total_tax_amount"; "tax_amount"; "tax"])
        /\ total extracted
           = entityMoneyToNumber (pickEntity es ["total_amount"; "invoice_total";
                                                "amount_due"; "total"])
        /\ lineItems extracted = parseLineItems es
  | Throw err, _ => normalizeInvoice sv es = Throw err
  | Ok _, Throw err => normalizeInvoice sv es = Throw err
  end.
Proof.
  cbv zeta. unfold normalizeInvoice. cbv zeta.
  destruct (entityDateToTimestamp sv (pickEntity es ["invoice_date"; "date"])) as [issued|err];
    [|reflexivity].
  destruct (entityDateToTimestamp sv (pickEntity es ["due_date"])) as [due|err];
    [|reflexivity].
  eexists. split; [reflexivity|]. simpl. repeat split; reflexivity.
Qed.

(** A date that throws is a complete date that [fromDate] rejects. *)
Lemma entityDateToTimestamp_throws (sv : Services) (e : option RawEntity) (err : Thrown) :
  entityDateToTimestamp sv e = Throw err ->
  exists e' dv y m d,
    e = Some e'
    /\ normalizedValue e' ≫= dateValue = Some dv
    /\ nonZero (year dv) = Some y /\ nonZero (month dv) = Some m /\ nonZero (day dv) = Some d
    /\ (let time := JsDate.construct (localTZA sv) y (m - 1) d in
        (time = None \/ exists ms, time = Some ms
                                   /\ (ms / 1000 < MIN_SECONDS \/ MAX_SECONDS < ms / 1000))
        /\ err = libraryError sv Admin (TimestampOutOfRange ((fun ms => ms / 1000) <$> time))).
Proof.
  destruct e as [e'|]; [|discriminate].
  destruct (entityDateToTimestamp_cases sv e')
    as [[_ ->]|[[dv [_ [_ ->]]]|[dv [y [m [d (Hdv & Hy & Hm & Hd & ->)]]]]]];
    [discriminate|discriminate|].
  intros Hthrow. exists e', dv, y, m, d. repeat (split; [assumption || reflexivity|]).
  cbv zeta.
  destruct (fromDate_cases sv Admin (JsDate.construct (localTZA sv) y (m - 1) d)
              (LocalMidnight y (m - 1) d)) as [[ms (_ & _ & Hok)]|[Hrange Hrej]].
  - rewrite Hok in Hthrow. discriminate.
  - rewrite Hrej in Hthrow. injection Hthrow as <-. split; [exact Hrange|reflexivity].
Qed.

(** A complete date in range converts to local midnight of its day. *)
Lemma entityDateToTimestamp_in_range (sv : Services) (e : RawEntity) (dv : DateValue)
      (y m d ms : Z) :
  normalizedValue e ≫= dateValue = Some dv ->
  nonZero (year dv) = Some y -> nonZero (month dv) = Some m -> nonZero (day dv) = Some d ->
  JsDate.construct (localTZA sv) y (m - 1) d = Some ms ->
  MIN_SECONDS <= ms / 1000 <= MAX_SECONDS ->
  entityDateToTimestamp sv (Some e) = Ok (Some (LocalMidnight y (m - 1) d)).
Proof.
  intros Hdv Hy Hm Hd Hms Hrange. unfold entityDateToTimestamp.
  rewrite Hdv, Hy, Hm, Hd. cbv zeta. rewrite Hms. unfold fromDate.
  assert ((ms / 1000 <? MIN_SECONDS) = false) as -> by lia.
  assert ((MAX_SECONDS <? ms / 1000) = false) as -> by lia.
  reflexivity.
Qed.

(** C9: the normalization does not return for every list of entities.
    When the collaborators answer, the [try] block of the processing body
    ends as the normalization does, and the normalization throws exactly
    when the entity of the invoice date or of the due date carries a
    complete date that the timestamp of the store cannot hold (local
    midnight of that day before year 1 or after year 9999, or no date of
    JavaScript at all); what it throws is the error of the library.
    Otherwise it returns: a field whose aliases no entity carries is null,
    and so is the text, the money or the date of an entity that lacks it; a
    complete date in range is local midnight of its day; every line-item
    entity gives one line item, with null fields when it has neither
    properties nor mention text.  An entity whose money is only a text
    without digits is not coerced to null but to 0. *)
Theorem normalization_throws_on_a_date_out_of_range (sv : Services) (es : list RawEntity) :
  (forall (data : InvoiceRecord) (p : Platform)
          (path : string) (meta : option string) (buf project : string),
      truthyText (storagePath data) = Some path ->
      getMetadata sv path = inr meta ->
      download sv path = inr buf ->
      truthyText (GCLOUD_PROJECT sv) = Some project ->
      (forall request, processDocument sv request
                       = inr {| document := Some {| entities := Some es |} |}) ->
      fst (extract sv data p)
      = (fun extracted => (extracted, map debugEntity (firstn 200 es)))
          <$> normalizeInvoice sv es)
  /\ (forall err, normalizeInvoice sv es = Throw err ->
        exists e dv y m d,
          (pickEntity es ["invoice_date"; "date"] = Some e \/ pickEntity es ["due_date"] = Some e)
          /\ normalizedValue e ≫= dateValue = Some dv
          /\ nonZero (year dv) = Some y /\ nonZero (month dv) = Some m
          /\ nonZero (day dv) = Some d
          /\ (let time := JsDate.construct (localTZA sv) y (m - 1) d in
              (time = None \/ exists ms, time = Some ms
                                         /\ (ms / 1000 < MIN_SECONDS \/ MAX_SECONDS < ms / 1000))
              /\ err = libraryError sv Admin
                         (TimestampOutOfRange ((fun ms => ms / 1000) <$> time))))
  /\ (forall e dv y m d,
        pickEntity es ["invoice_date"; "date"] = Some e ->
        normalizedValue e ≫= dateValue = Some dv ->
        nonZero (year dv) = Some y -> nonZero (month dv) = Some m ->
        nonZero (day dv) = Some d ->
        let time := JsDate.construct (localTZA sv) y (m - 1) d in
        (time = None \/ exists ms, time = Some ms
                                   /\ (ms / 1000 < MIN_SECONDS \/ MAX_SECONDS < ms / 1000)) ->
        normalizeInvoice sv es
        = Throw (libraryError sv Admin (TimestampOutOfRange ((fun ms => ms / 1000) <$> time))))
  /\ (forall extracted, normalizeInvoice sv es = Ok extracted ->
        lineItems extracted = parseLineItems es
        /\ length (lineItems extracted) = length (List.filter isLineItem es)
        /\ Ok (invoiceDate extracted)
           = entityDateToTimestamp sv (pickEntity es ["invoice_date"; "date"])
        /\ Ok (dueDate extracted) = entityDateToTimestamp sv (pickEntity es ["due_date"]))
  /\ (forall types : list string,
        Forall (fun e => ~ In (typeName e) (map toLowerCase types)) es ->
        entityText (pickEntity es types) = None
        /\ entityMoneyToNumber (pickEntity es types) = None
        /\ entityDateToTimestamp sv (pickEntity es types) = Ok None)
  /\ (forall (types : list string) (e : RawEntity),
        pickEntity es types = Some e ->
        (normalizedValue e ≫= text = None -> mentionText e = None ->
         entityText (pickEntity es types) = None)
        /\ (normalizedValue e ≫= moneyValue = None ->
            normalizedValue e ≫= text = None -> mentionText e = None ->
            entityMoneyToNumber (pickEntity es types) = None)
        /\ (normalizedValue e ≫= dateValue = None ->
            entityDateToTimestamp sv (pickEntity es types) = Ok None)
        /\ (forall dv, normalizedValue e ≫= dateValue = Some dv ->
              nonZero (year dv) = None \/ nonZero (month dv) = None \/ nonZero (day dv) = None ->
              entityDateToTimestamp sv (pickEntity es types) = Ok None)
        /\ (forall dv y m d ms, normalizedValue e ≫= dateValue = Some dv ->
              nonZero (year dv) = Some y -> nonZero (month dv) = Some m ->
              nonZero (day dv) = Some d ->
              JsDate.construct (localTZA sv) y (m - 1) d = Some ms ->
              MIN_SECONDS <= ms / 1000 <= MAX_SECONDS ->
              entityDateToTimestamp sv (pickEntity es types)
              = Ok (Some (LocalMidnight y (m - 1) d))))
  /\ (forall li : RawEntity,
        In li es -> isLineItem li = true ->
        default [] (properties li) = [] -> mentionText li = None ->
        In {| description := None; quantity := None; unitPrice := None; amount := None |}
           (parseLineItems es))
  /\ total <$> normalizeInvoice (answering []) [textEntity "total_amount" "n/a"]
     = Ok (Some 0%float)
  /\ normalizeInvoice (answering []) [dateEntity "invoice_date" 10000 1 1]
     = Throw (Error "Error" (sampleMessage Admin (TimestampOutOfRange (Some 253402300800)))).
Proof.
  pose proof (normalizeInvoice_cases sv es) as Hcases. cbv zeta in Hcases.
  split; [intros; eapply extract_answers; eassumption|].
  split.
  { intros err Hthrow.
    destruct (entityDateToTimestamp sv (pickEntity es ["invoice_date"; "date"]))
      as [issued|err1] eqn:Hissued.
    - destruct (entityDateToTimestamp sv (pickEntity es ["due_date"])) as [due|err2] eqn:Hdue.
      + destruct Hcases as [extracted [Hok _]]. congruence.
      + assert (err2 = err) as -> by congruence.
        destruct (entityDateToTimestamp_throws sv _ err Hdue)
          as [e [dv [y [m [d (He & Hrest)]]]]].
        exists e, dv, y, m, d. split; [right; exact He|exact Hrest].
    - assert (err1 = err) as -> by congruence.
      destruct (entityDateToTimestamp_throws sv _ err Hissued)
        as [e [dv [y [m [d (He & Hrest)]]]]].
      exists e, dv, y, m, d. split; [left; exact He|exact Hrest]. }
  split.
  { intros e dv y m d He Hdv Hy Hm Hd time Hrange. subst time.
    assert (Hthrow : entityDateToTimestamp sv (pickEntity es ["invoice_date"; "date"])
                     = Throw (libraryError sv Admin
                                (TimestampOutOfRange
                                   ((fun ms => ms / 1000)
                                      <$> JsDate.construct (localTZA sv) y (m - 1) d)))).
    { rewrite He. unfold entityDateToTimestamp. rewrite Hdv, Hy, Hm, Hd. cbv zeta.
      destruct (fromDate_cases sv Admin (JsDate.construct (localTZA sv) y (m - 1) d)
                  (LocalMidnight y (m - 1) d)) as [[ms (Hms & Hin & _)]|[_ ->]];
        [|reflexivity].
      exfalso. destruct Hrange as [Hnone|[ms' [Hms' Hout]]]; [congruence|].
      assert (ms' = ms) as -> by congruence. lia. }
    rewrite Hthrow in Hcases. exact Hcases. }
  split.
  { intros extracted Hok.
    destruct (entityDateToTimestamp sv (pickEntity es ["invoice_date"; "date"]))
      as [issued|err1]; [|congruence].
    destruct (entityDateToTimestamp sv (pickEntity es ["due_date"])) as [due|err2];
      [|congruence].
    destruct Hcases as [extracted' (Hok' & Hi & Hd & _ & _ & _ & _ & _ & _ & _ & Hitems)].
    assert (extracted' = extracted) as -> by congruence.
    rewrite Hitems, Hi, Hd. split; [reflexivity|].
    split; [apply length_parseLineItems|]. split; reflexivity. }
  split.
  { intros types Hall. rewrite (pickEntity_none es types Hall). auto. }
  split.
  { intros types e ->. split; [|split; [|split; [|split]]].
    - intros Ht Hm. simpl. rewrite Ht. exact Hm.
    - intros Hmv Ht Hm. unfold entityMoneyToNumber. rewrite Hmv. simpl. rewrite Ht, Hm.
      reflexivity.
    - intros Hd. simpl. rewrite Hd. reflexivity.
    - intros dv Hd Hzero. simpl. rewrite Hd.
      destruct Hzero as [H|[H|H]]; rewrite H;
        repeat match goal with |- context [match ?x with _ => _ end] => destruct x end;
        reflexivity.
    - intros dv y m d ms. apply entityDateToTimestamp_in_range. }
  split.
  { intros li Hin Hli Hprops Hmt. unfold parseLineItems.
    apply in_map_iff. exists li. split.
    - unfold parseLineItem. rewrite Hprops, Hmt. reflexivity.
    - apply filter_In. auto. }
  split; vm_compute; reflexivity.
Qed.

Example normalization_of_sample :
  normalizeInvoice (answering []) sampleEntities = Ok sampleFields.
Proof. vm_compute. reflexivity. Qed.

(** The time values of local midnight in UTC and one hour east of it. *)
Example construct_in_utc :
  JsDate.construct (fun _ => 0) 2024 0 31 = Some 1706659200000
  /\ JsDate.construct (fun _ => 0) 2024 1 29 = Some 1709164800000
  /\ JsDate.construct (fun _ => 0) 2023 1 29 = Some 1677628800000
  /\ JsDate.construct (fun _ => 0) 1970 0 1 = Some 0
  /\ JsDate.construct (fun _ => 0) 24 0 31 = Some (-1449100800000)
  /\ JsDate.construct (fun _ => 0) 100 0 1 = Some (-59011459200000)
  /\ JsDate.construct (fun _ => 0) (-1) 0 1 = Some (-62198755200000)
  /\ JsDate.construct (fun _ => 0) 9999 11 31 = Some 253402214400000
  /\ JsDate.construct (fun _ => 0) 10000 0 1 = Some 253402300800000
  /\ JsDate.construct (fun _ => 3600000) 10000 0 1 = Some 253402297200000
  /\ JsDate.construct (fun _ => 0) 300000 0 1 = None.
Proof. vm_compute. repeat split. Qed.

(** ** The processing body *)

Lemma docUpdate_existing (sv : Services) (sdk : Sdk) (id : string)
      (patch : Timestamp -> InvoiceRecord -> InvoiceRecord) (p : Platform) (r : InvoiceRecord) :
  docs p !! id = Some r ->
  docUpdate sv sdk id patch p =
  (Ok tt, {| docs := <[id := patch (ServerTimestamp (length (log p))) r]> (docs p);
             log := DocUpdate id :: log p |}).
Proof. intros H. unfold docUpdate. rewrite H. reflexivity. Qed.

Section Lifecycle.

Context (sv : Services).

(** The [try] block up to its update writes nothing to the store. *)
Lemma extract_keeps_docs (data : InvoiceRecord) (p : Platform) :
  docs (snd (extract sv data p)) = docs p.
Proof.
  unfold extract. unfold_monad.
  destruct (truthyText (storagePath data)) as [path|]; [|reflexivity]. simpl.
  destruct (getMetadata sv path) as [err|meta]; [reflexivity|]. simpl.
  destruct (download sv path) as [err|buf]; [reflexivity|]. simpl.
  destruct (truthyText (GCLOUD_PROJECT sv)) as [project|]; [|reflexivity]. simpl.
  match goal with |- context [processDocument sv ?req] =>
    destruct (processDocument sv req) as [err|result] end; [reflexivity|]. simpl.
  unfold outcome.
  match goal with |- context [normalizeInvoice sv ?es] =>
    destruct (normalizeInvoice sv es) end; reflexivity.
Qed.

(** What the [try] block throws, by the step that fails. *)
Lemma extract_failures (data : InvoiceRecord) (p : Platform) :
  (truthyText (storagePath data) = None ->
   fst (extract sv data p) = Throw (Error "Error" "Missing storagePath on invoice document."))
  /\ (forall path err,
        truthyText (storagePath data) = Some path -> getMetadata sv path = inl err ->
        fst (extract sv data p) = Throw err)
  /\ (forall path meta err,
        truthyText (storagePath data) = Some path -> getMetadata sv path = inr meta ->
        download sv path = inl err ->
        fst (extract sv data p) = Throw err)
  /\ (forall path meta buf,
        truthyText (storagePath data) = Some path -> getMetadata sv path = inr meta ->
        download sv path = inr buf -> truthyText (GCLOUD_PROJECT sv) = None ->
        fst (extract sv data p)
        = Throw (Error "Error" "Missing GCLOUD_PROJECT env var (project id)."))
  /\ (forall path meta buf project err,
        truthyText (storagePath data) = Some path -> getMetadata sv path = inr meta ->
        download sv path = inr buf -> truthyText (GCLOUD_PROJECT sv) = Some project ->
        (forall request, processDocument sv request = inl err) ->
        fst (extract sv data p) = Throw err)
  /\ (forall path meta buf project es err,
        truthyText (storagePath data) = Some path -> getMetadata sv path = inr meta ->
        download sv path = inr buf -> truthyText (GCLOUD_PROJECT sv) = Some project ->
        (forall request, processDocument sv request
                         = inr {| document := Some {| entities := Some es |} |}) ->
        normalizeInvoice sv es = Throw err ->
        fst (extract sv data p) = Throw err)
  /\ (forall path meta buf project es extracted,
        truthyText (storagePath data) = Some path -> getMetadata sv path = inr meta ->
        download sv path = inr buf -> truthyText (GCLOUD_PROJECT sv) = Some project ->
        (forall request, processDocument sv request
                         = inr {| document := Some {| entities := Some es |} |}) ->
        normalizeInvoice sv es = Ok extracted ->
        fst (extract sv data p) = Ok (extracted, map debugEntity (firstn 200 es))).
Proof.
  split; [|split; [|split; [|split; [|split; [|split]]]]].
  - unfold extract. unfold_monad. intros ->. reflexivity.
  - unfold extract. unfold_monad. intros path err -> Hm. simpl. rewrite Hm. reflexivity.
  - unfold extract. unfold_monad. intros path meta err -> Hm Hd. simpl. rewrite Hm. simpl.
    rewrite Hd. reflexivity.
  - unfold extract. unfold_monad. intros path meta buf -> Hm Hd Hp. simpl. rewrite Hm. simpl.
    rewrite Hd, Hp. reflexivity.
  - unfold extract. unfold_monad. intros path meta buf project err -> Hm Hd Hp He. simpl.
    rewrite Hm. simpl. rewrite Hd, Hp. simpl. rewrite He. reflexivity.
  - intros path meta buf project es err Hpath Hm Hd Hp Hes Hn.
    rewrite (extract_answers sv data p path meta buf project es Hpath Hm Hd Hp Hes), Hn.
    reflexivity.
  - intros path meta buf project es extracted Hpath Hm Hd Hp Hes Hn.
    rewrite (extract_answers sv data p path meta buf project es Hpath Hm Hd Hp Hes), Hn.
    reflexivity.
Qed.

Lemma processInvoiceDocument_settles (id : string) (data r : InvoiceRecord)
      (clearError : bool) (p : Platform) :
  docs p !! id = Some r ->
  let begun := snd (docUpdate sv Admin id (markProcessing clearError) p) in
  let started := markProcessing clearError (ServerTimestamp (length (log p))) r in
  let tried := extract sv data begun in
  processInvoiceDocument sv id data clearError p =
  (Ok tt,
   {| docs := <[id := settled (fst tried) (ServerTimestamp (length (log (snd tried)))) started]>
                (docs p);
      log := DocUpdate id :: log (snd tried) |}).
Proof.
  intros Hr. cbv zeta. rewrite (docUpdate_existing sv Admin id _ p r Hr). cbn [snd].
  set (started := markProcessing clearError (ServerTimestamp (length (log p))) r).
  set (begun := {| docs := <[id := started]> (docs p); log := DocUpdate id :: log p |}).
  unfold processInvoiceDocument, tryCatch. unfold mbind, M_bind.
  rewrite (docUpdate_existing sv Admin id _ p r Hr). fold started. fold begun.
  pose proof (extract_keeps_docs data begun) as Hdocs.
  destruct (extract sv data begun) as [[[extracted raw]|err] p1]; simpl in *.
  - rewrite (docUpdate_existing sv Admin id _ p1 started).
    + rewrite Hdocs. rewrite insert_insert_eq. reflexivity.
    + rewrite Hdocs. apply lookup_insert_eq.
  - rewrite (docUpdate_existing sv Admin id _ p1 started).
    + rewrite Hdocs. rewrite insert_insert_eq. reflexivity.
    + rewrite Hdocs. apply lookup_insert_eq.
Qed.

End Lifecycle.

(** C2: whenever document fetch, extraction call or normalization fails,
    the processing body stores status "error" and the description of the
    failure as error message (the message of the error, or its name when
    the message is empty) and leaves every invoice field as it was;
    whatever the outcome, the body returns and the record is not left in
    status "processing".  The normalization fails when a date is out of
    the range of the store. *)
Theorem processing_failure_is_recorded (sv : Services) (id : string)
        (data r : InvoiceRecord) (clearError : bool) (p : Platform) :
  docs p !! id = Some r ->
  let begun := snd (docUpdate sv Admin id (markProcessing clearError) p) in
  let outcome := fst (extract sv data begun) in
  (exists p' r',
      processInvoiceDocument sv id data clearError p = (Ok tt, p')
      /\ docs p' !! id = Some r'
      /\ status r' <> Some "processing"
      /\ (forall err, outcome = Throw err ->
            status r' = Some "error" /\ fields r' = fields r)
      /\ (forall name message, outcome = Throw (Error name message) ->
            errorMessage r' = Some (if truthy message then message else name))
      /\ (forall code message, outcome = Throw (HttpsError code message) ->
            errorMessage r' = Some (if truthy message then message else "Error"))
      /\ (forall extracted raw, outcome = Ok (extracted, raw) ->
            status r' = Some "needs_review" /\ fields r' = extracted)
      /\ (forall other, other <> id -> docs p' !! other = docs p !! other))
  /\ (truthyText (storagePath data) = None ->
      outcome = Throw (Error "Error" "Missing storagePath on invoice document."))
  /\ (forall path err,
        truthyText (storagePath data) = Some path -> getMetadata sv path = inl err ->
        outcome = Throw err)
  /\ (forall path meta err,
        truthyText (storagePath data) = Some path -> getMetadata sv path = inr meta ->
        download sv path = inl err ->
        outcome = Throw err)
  /\ (forall path meta buf,
        truthyText (storagePath data) = Some path -> getMetadata sv path = inr meta ->
        download sv path = inr buf -> truthyText (GCLOUD_PROJECT sv) = None ->
        outcome = Throw (Error "Error" "Missing GCLOUD_PROJECT env var (project id)."))
  /\ (forall path meta buf project err,
        truthyText (storagePath data) = Some path -> getMetadata sv path = inr meta ->
        download sv path = inr buf -> truthyText (GCLOUD_PROJECT sv) = Some project ->
        (forall request, processDocument sv request = inl err) ->
        outcome = Throw err)
  /\ (forall path meta buf project es err,
        truthyText (storagePath data) = Some path -> getMetadata sv path = inr meta ->
        download sv path = inr buf -> truthyText (GCLOUD_PROJECT sv) = Some project ->
        (forall request, processDocument sv request
                         = inr {| document := Some {| entities := Some es |} |}) ->
        normalizeInvoice sv es = Throw err ->
        outcome = Throw err)
  /\ (forall path meta buf project es extracted,
        truthyText (storagePath data) = Some path -> getMetadata sv path = inr meta ->
        download sv path = inr buf -> truthyText (GCLOUD_PROJECT sv) = Some project ->
        (forall request, processDocument sv request
                         = inr {| document := Some {| entities := Some es |} |}) ->
        normalizeInvoice sv es = Ok extracted ->
        outcome = Ok (extracted, map debugEntity (firstn 200 es))).
Proof.
  intros Hr begun outcome. split; [|apply extract_failures].
  pose proof (processInvoiceDocument_settles sv id data r clearError p Hr) as Hrun.
  cbv zeta in Hrun. fold begun in Hrun.
  eexists. eexists. split; [exact Hrun|]. cbn [docs].
  split; [apply lookup_insert_eq|].
  fold outcome. split; [|split; [|split; [|split; [|split]]]].
  - destruct outcome as [[extracted raw]|err]; simpl; discriminate.
  - intros err ->. simpl. auto.
  - intros name message ->. reflexivity.
  - intros code message ->. reflexivity.
  - intros extracted raw ->. simpl. auto.
  - intros other Hne. apply lookup_insert_ne. congruence.
Qed.

Lemma processing_failure_is_recorded_witness :
  exists p' r',
    processInvoiceDocument missingFile "inv-1" reviewedInvoice true (onlyInvoice reviewedInvoice)
    = (Ok tt, p')
    /\ docs p' !! "inv-1" = Some r'
    /\ status r' = Some "error"
    /\ errorMessage r' = Some "No such object"
    /\ fields r' = fields reviewedInvoice.
Proof.
  assert (Hr : docs (onlyInvoice reviewedInvoice) !! "inv-1" = Some reviewedInvoice)
    by (vm_compute; reflexivity).
  destruct (processing_failure_is_recorded missingFile "inv-1" reviewedInvoice reviewedInvoice
              true (onlyInvoice reviewedInvoice) Hr)
    as [[p' [r' (Hrun & Hr' & _ & Herr & Hmessage & _)]] _].
  assert (Hout : fst (extract missingFile reviewedInvoice
                        (snd (docUpdate missingFile Admin "inv-1" (markProcessing true)
                                (onlyInvoice reviewedInvoice))))
                 = Throw (Error "ApiError" "No such object")) by (vm_compute; reflexivity).
  exists p', r'. split; [exact Hrun|]. split; [exact Hr'|].
  destruct (Herr _ Hout) as [Hstatus Hfields].
  split; [exact Hstatus|]. split; [exact (Hmessage _ _ Hout)|exact Hfields].
Defined.

(** ** The entry points *)

(** Case analysis on a decided guard of the code. *)
Tactic Notation "guard" constr(P) "as" ident(H) :=
  destruct (bool_decide P) eqn:H;
  [apply bool_decide_eq_true_1 in H | apply bool_decide_eq_false_1 in H].

(** C4: a document-created event starts the processing body only when the
    status of the record is exactly "uploaded" and the skip-processing flag
    is not set; for every other status, "needs_review" among them, the
    handler returns without a write to the store and without a call to
    storage or to the extraction service. *)
Theorem create_event_processes_only_uploads (sv : Services) (event : option Snapshot)
        (p : Platform) :
  (event = None -> processInvoiceOnCreateV2 sv event p = (Ok tt, p))
  /\ (forall snap, event = Some snap -> snapshotData snap = None ->
        processInvoiceOnCreateV2 sv event p = (Ok tt, p))
  /\ (forall snap data, event = Some snap -> snapshotData snap = Some data ->
        (status data = Some "uploaded" -> skipProcessing data = false ->
         processInvoiceOnCreateV2 sv event p = processInvoiceDocument sv (ref snap) data true p)
        /\ (status data <> Some "uploaded" \/ skipProcessing data = true ->
            processInvoiceOnCreateV2 sv event p = (Ok tt, p))
        /\ (status data = Some "needs_review" ->
            processInvoiceOnCreateV2 sv event p = (Ok tt, p))
        /\ (processInvoiceOnCreateV2 sv event p <> (Ok tt, p) ->
            status data = Some "uploaded" /\ skipProcessing data = false)).
Proof.
  split; [intros ->; reflexivity|].
  split; [intros snap -> Hd; simpl; rewrite Hd; reflexivity|].
  intros snap data -> Hd. simpl. rewrite Hd.
  assert (Hskip : status data <> Some "uploaded" \/ skipProcessing data = true ->
                  (if negb (bool_decide (status data = Some "uploaded")) || skipProcessing data
                   then mret tt else processInvoiceDocument sv (ref snap) data true) p
                  = (Ok tt, p)).
  { intros [Hs|Hs].
    - rewrite (bool_decide_eq_false_2 _ Hs). reflexivity.
    - rewrite Hs, orb_true_r. reflexivity. }
  split; [|split; [|split]].
  - intros Hs Hk. rewrite (bool_decide_eq_true_2 _ Hs), Hk. reflexivity.
  - exact Hskip.
  - intros Hs. apply Hskip. left. rewrite Hs. discriminate.
  - intros Hrun. destruct (decide (status data = Some "uploaded")) as [Hs|Hs].
    + split; [exact Hs|]. destruct (skipProcessing data) eqn:Hk; [|reflexivity].
      exfalso. apply Hrun. apply Hskip. right. reflexivity.
    + exfalso. apply Hrun. apply Hskip. left. exact Hs.
Qed.

Lemma trim_blank (s : string) : blank s = true -> trim s = "".
Proof.
  unfold trim. induction s as [|c s IH]; [reflexivity|]. simpl.
  intros H. apply andb_true_iff in H as [Hc Hs]. rewrite Hc. exact (IH Hs).
Qed.

(** A path that names a document is not empty. *)
Lemma documentKey_truthy (path key : string) : documentKey path = Some key -> truthy path = true.
Proof. destruct path; [discriminate|reflexivity]. Qed.

(** The request once it is authenticated and the record is read. *)
Lemma reprocess_of_stored_record (sv : Services) (request : CallableRequest) (p : Platform)
      (uid key : string) (data : InvoiceRecord) :
  let fetched := {| docs := docs p; log := DocGet key :: log p |} in
  truthyText (auth request) = Some uid ->
  documentKey (trim (default "" (invoiceId request))) = Some key ->
  docs p !! key = Some data ->
  reprocessInvoiceV2 sv request p =
  (if negb (bool_decide (userId data = Some uid))
   then throw (HttpsError permission_denied "Not allowed.")
   else if bool_decide (status data = Some "finalized")
   then throw (HttpsError failed_precondition "Finalized invoices cannot be reprocessed.")
   else if negb (defined (truthyText (storagePath data)))
   then throw (HttpsError failed_precondition "No storage file available for reprocessing.")
   else _ ← processInvoiceDocument sv key data true; mret {| ok := true |}) fetched.
Proof.
  intros fetched Hauth Hkey Hsome. unfold reprocessInvoiceV2. rewrite Hauth.
  cbv zeta. rewrite (documentKey_truthy _ _ Hkey). simpl.
  unfold mbind at 1, M_bind at 1, doc. rewrite Hkey.
  unfold mret at 1, M_ret at 1. unfold mbind at 1, M_bind at 1, docGet.
  rewrite Hsome. reflexivity.
Qed.

(** The request for an id under which nothing is read. *)
Lemma reprocess_without_record (sv : Services) (request : CallableRequest) (p : Platform)
      (uid : string) :
  let id := trim (default "" (invoiceId request)) in
  truthyText (auth request) = Some uid ->
  (truthy id = false ->
   reprocessInvoiceV2 sv request p
   = (Throw (HttpsError invalid_argument "Missing invoiceId."), p))
  /\ (truthy id = true -> documentKey id = None ->
      reprocessInvoiceV2 sv request p
      = (Throw (libraryError sv Admin (NotADocumentPath id)), p))
  /\ (forall key, documentKey id = Some key -> docs p !! key = None ->
      reprocessInvoiceV2 sv request p
      = (Throw (HttpsError not_found "Invoice not found."),
         {| docs := docs p; log := DocGet key :: log p |})).
Proof.
  intros id Hauth. unfold reprocessInvoiceV2. rewrite Hauth. fold id. cbv zeta.
  split; [|split].
  - intros ->. reflexivity.
  - intros -> Hkey. simpl. unfold mbind, M_bind, doc. rewrite Hkey. reflexivity.
  - intros key Hkey Hnone. rewrite (documentKey_truthy _ _ Hkey). simpl.
    unfold mbind at 1, M_bind at 1, doc. rewrite Hkey.
    unfold mret at 1, M_ret at 1. unfold mbind, M_bind, docGet. rewrite Hnone. reflexivity.
Qed.



(** ** The finalized state *)

Lemma save_of_finalized (sv : Services) (page : ReviewPage) (status : SaveStatus)
      (p : Platform) :
  isFinalized page = true -> save sv page status p = (Ok tt, p).
Proof.
  intros Hf. unfold save. rewrite Hf.
  destruct (negb (canEdit page) || negb (truthy (pageInvoiceId page))); reflexivity.
Qed.





(** ** The operations on a stored invoice *)

Example reprocess_of_reviewed_invoice :
  let request := {| auth := Some "alice"; invoiceId := Some "inv-1" |} in
  let run := reprocessInvoiceV2 (answering sampleEntities) request (onlyInvoice reviewedInvoice) in
  fst run = Ok {| ok := true |}
  /\ (status <$> docs (snd run) !! "inv-1") = Some (Some "needs_review")
  /\ Ok <$> (fields <$> docs (snd run) !! "inv-1")
     = Some (normalizeInvoice (answering sampleEntities) sampleEntities)
  /\ length (log (snd run)) = 6%nat.
Proof. vm_compute. auto. Qed.

Example reprocess_by_another_user :
  reprocessInvoiceV2 (answering sampleEntities)
    {| auth := Some "bob"; invoiceId := Some "inv-1" |} (onlyInvoice reviewedInvoice)
  = (Throw (HttpsError permission_denied "Not allowed."),
     {| docs := docs (onlyInvoice reviewedInvoice); log := [DocGet "inv-1"] |}).
Proof. vm_compute. reflexivity. Qed.

(** A slash at either end of the id is allowed by the library. *)
Example reprocess_by_a_path_with_slashes :
  reprocessInvoiceV2 (answering sampleEntities)
    {| auth := Some "bob"; invoiceId := Some " /inv-1/ " |} (onlyInvoice reviewedInvoice)
  = (Throw (HttpsError permission_denied "Not allowed."),
     {| docs := docs (onlyInvoice reviewedInvoice); log := [DocGet "inv-1"] |}).
Proof. vm_compute. reflexivity. Qed.

Example create_event_of_reviewed_invoice :
  processInvoiceOnCreateV2 (answering sampleEntities)
    (Some {| ref := "inv-1"; snapshotData := Some reviewedInvoice |})
    (onlyInvoice reviewedInvoice)
  = (Ok tt, onlyInvoice reviewedInvoice).
Proof. vm_compute. reflexivity. Qed.

Example create_event_of_upload :
  let run := processInvoiceOnCreateV2 (answering sampleEntities)
               (Some {| ref := "inv-1"; snapshotData := Some uploadedInvoice |})
               (onlyInvoice uploadedInvoice) in
  fst run = Ok tt
  /\ (status <$> docs (snd run) !! "inv-1") = Some (Some "needs_review")
  /\ (extractedAt <$> docs (snd run) !! "inv-1") = Some (Some (ServerTimestamp 4))
  /\ Ok <$> (fields <$> docs (snd run) !! "inv-1")
     = Some (normalizeInvoice (answering sampleEntities) sampleEntities).
Proof. vm_compute. auto. Qed.

Example create_event_when_storage_fails :
  let run := processInvoiceOnCreateV2 missingFile
               (Some {| ref := "inv-1"; snapshotData := Some uploadedInvoice |})
               (onlyInvoice uploadedInvoice) in
  fst run = Ok tt
  /\ (status <$> docs (snd run) !! "inv-1") = Some (Some "error")
  /\ (errorMessage <$> docs (snd run) !! "inv-1") = Some (Some "No such object")
  /\ (fields <$> docs (snd run) !! "inv-1") = Some (fields uploadedInvoice).
Proof. vm_compute. auto. Qed.

(** An extraction that returns a date of year 10000 ends in status
    "error": the normalization throws inside the [try] block. *)
Example create_event_with_a_date_out_of_range :
  let run := processInvoiceOnCreateV2 (answering [dateEntity "due_date" 10000 1 1])
               (Some {| ref := "inv-1"; snapshotData := Some uploadedInvoice |})
               (onlyInvoice uploadedInvoice) in
  fst run = Ok tt
  /\ (status <$> docs (snd run) !! "inv-1") = Some (Some "error")
  /\ (errorMessage <$> docs (snd run) !! "inv-1")
     = Some (Some "Timestamp seconds out of range: 253402300800")
  /\ (fields <$> docs (snd run) !! "inv-1") = Some (fields uploadedInvoice).
Proof. vm_compute. auto. Qed.

(* ===================================================================== *)
(** * Further properties of the code *)
(* ===================================================================== *)

(** ** Strings *)

Lemma append_cons (c : ascii) (s t : string) : String c s ++ t = String c (s ++ t).
Proof. reflexivity. Qed.

Lemma append_empty_l (t : string) : "" ++ t = t.
Proof. reflexivity. Qed.

Lemma append_empty_r (s : string) : s ++ "" = s.
Proof.
  induction s as [|c s IH]; [reflexivity|]. rewrite append_cons, IH. reflexivity.
Qed.

Lemma append_assoc (a b c : string) : (a ++ b) ++ c = a ++ b ++ c.
Proof.
  induction a as [|x a IH]; [reflexivity|]. rewrite !append_cons, IH. reflexivity.
Qed.

Lemma length_append (a b : string) :
  String.length (a ++ b) = (String.length a + String.length b)%nat.
Proof.
  induction a as [|x a IH]; [reflexivity|]. rewrite append_cons. simpl. rewrite IH.
  reflexivity.
Qed.

Lemma substring_skip (a b : string) (n : nat) :
  substring (String.length a) n (a ++ b) = substring 0 n b.
Proof.
  induction a as [|x a IH]; [reflexivity|]. rewrite append_cons. simpl. exact IH.
Qed.

Lemma substring_prefix (m t : string) : substring 0 (String.length m) (m ++ t) = m.
Proof.
  induction m as [|x m IH].
  - rewrite append_empty_l. destruct t; reflexivity.
  - rewrite append_cons. simpl. rewrite IH. reflexivity.
Qed.

Lemma keep_append (p : ascii -> bool) (a b : string) :
  keep p (a ++ b) = keep p a ++ keep p b.
Proof.
  induction a as [|x a IH]; [reflexivity|]. rewrite append_cons. simpl.
  destruct (p x); rewrite IH; reflexivity.
Qed.

Lemma keep_keep (p : ascii -> bool) (s : string) : keep p (keep p s) = keep p s.
Proof.
  induction s as [|x s IH]; simpl; [reflexivity|].
  destruct (p x) eqn:Hx; simpl; [rewrite Hx, IH; reflexivity|exact IH].
Qed.

(** The global replacement of a character class by nothing keeps the
    other characters: the matcher finds every character of the class, one
    match each. *)
Lemma splice_class (p : ascii -> bool) (t a m : string) (prev : option ascii) :
  splice (scan (Chr p) prev t (String.length (a ++ m)) 0) "" (a ++ m ++ t) (String.length a)
  = m ++ keep (fun c => negb (p c)) t.
Proof.
  revert a m prev. induction t as [|c t IH]; intros a m prev.
  - cbn [scan]. unfold matchAt. cbn [run splice keep]. unfold sliceFrom.
    rewrite substring_skip, !append_empty_r.
    replace (String.length (a ++ m) - String.length a)%nat with (String.length m)
      by (rewrite length_append; lia).
    rewrite <- (append_empty_r m) at 2. apply substring_prefix.
  - cbn [scan]. unfold matchAt. cbn [run]. destruct (p c) eqn:Hc.
    + cbn [splice keep]. rewrite Hc. cbn [negb].
      replace (S (String.length (a ++ m)) - String.length (a ++ m) - 1)%nat with 0%nat by lia.
      replace (String.length (a ++ m) - String.length a)%nat with (String.length m)
        by (rewrite length_append; lia).
      rewrite substring_skip, substring_prefix, append_empty_l.
      specialize (IH (a ++ m ++ String c "") "" (Some c)).
      rewrite !append_empty_l in IH. rewrite append_empty_r in IH.
      replace (String.length (a ++ m ++ String c "")) with (S (String.length (a ++ m))) in IH
        by (rewrite !length_append; simpl; lia).
      replace ((a ++ m ++ String c "") ++ t) with (a ++ m ++ String c t) in IH
        by (rewrite !append_assoc; reflexivity).
      rewrite IH. reflexivity.
    + cbn [keep]. rewrite Hc. cbn [negb].
      specialize (IH a (m ++ String c "") (Some c)).
      replace (String.length (a ++ m ++ String c "")) with (S (String.length (a ++ m))) in IH
        by (rewrite !length_append; simpl; lia).
      replace (a ++ (m ++ String c "") ++ t) with (a ++ m ++ String c t) in IH
        by (rewrite !append_assoc; reflexivity).
      rewrite IH. rewrite append_assoc. reflexivity.
Qed.

Lemma replaceAll_class (p : ascii -> bool) (s : string) :
  replaceAll (Chr p) "" s = keep (fun c => negb (p c)) s.
Proof.
  unfold replaceAll, matches. exact (splice_class p s "" "" None).
Qed.

Lemma keep_ext (p q : ascii -> bool) (s : string) :
  (forall c, p c = q c) -> keep p s = keep q s.
Proof.
  intros H. induction s as [|x s IH]; simpl; [reflexivity|]. rewrite H, IH. reflexivity.
Qed.

Lemma cleaned_is_numeric_part (s : string) : replaceAll nonNumeric "" s = keep isNumeric s.
Proof.
  unfold nonNumeric. rewrite replaceAll_class. apply keep_ext.
  intros c. unfold isNumeric. apply negb_involutive.
Qed.

(** ** Loose number parsing *)

(** X1: [toNumberLoose] reads the digits, dots and dashes of a text and
    nothing else: two texts with the same such characters in the same
    order give the same result, and a result is always finite. *)
Theorem toNumberLoose_reads_numeric_characters_only (s1 s2 : string) :
  keep isNumeric s1 = keep isNumeric s2 ->
  toNumberLoose s1 = toNumberLoose s2
  /\ toNumberLoose s1 = toNumberLoose (keep isNumeric s1)
  /\ (forall n, toNumberLoose s1 = Some n -> JsNumber.isFinite n = true).
Proof.
  intros Hsame. unfold toNumberLoose. rewrite !cleaned_is_numeric_part, keep_keep, Hsame.
  split; [reflexivity|]. split; [reflexivity|].
  intros n. destruct (JsNumber.isFinite (JsConv.Number (keep isNumeric s2))) eqn:Hfin;
    [|discriminate].
  intros [= <-]. exact Hfin.
Qed.

Lemma toNumberLoose_reads_numeric_characters_only_witness :
  toNumberLoose "$1,234.56" = toNumberLoose "USD 1234.56 (net)".
Proof.
  apply (toNumberLoose_reads_numeric_characters_only "$1,234.56" "USD 1234.56 (net)").
  vm_compute. reflexivity.
Defined.

(** X2: a text without any digit, dot or dash is read as 0 by
    [toNumberLoose], not as null, and so is the money of an entity that has
    no normalized money value and such a text. *)
Theorem text_without_numeric_characters_is_zero (s : string) :
  keep isNumeric s = "" ->
  toNumberLoose s = Some 0%float
  /\ (forall e : RawEntity,
        normalizedValue e ≫= moneyValue = None ->
        entityText (Some e) = Some s -> truthy s = true ->
        entityMoneyToNumber (Some e) = Some 0%float).
Proof.
  intros Hnone.
  assert (H0 : toNumberLoose s = Some 0%float).
  { unfold toNumberLoose. rewrite cleaned_is_numeric_part, Hnone. vm_compute. reflexivity. }
  split; [exact H0|].
  intros e Hmv Ht Htruthy. rewrite entityMoneyToNumber_text.
  - rewrite Ht, Htruthy. exact H0.
  - intros mv Hmv'. congruence.
Qed.

Lemma text_without_numeric_characters_is_zero_witness :
  toNumberLoose "to be confirmed" = Some 0%float.
Proof.
  apply (text_without_numeric_characters_is_zero "to be confirmed"). vm_compute. reflexivity.
Defined.

(** ** Entity selection *)

Lemma hasAlias_existsb (types : list string) (e : RawEntity) :
  existsb (String.eqb (typeName e)) (map toLowerCase types) = true <-> hasAlias types e.
Proof.
  unfold hasAlias, typeName. rewrite existsb_exists. split.
  - intros [l [Hin Heq]]. apply String.eqb_eq in Heq. apply in_map_iff in Hin as [t [Ht Hin]].
    exists t. split; [exact Hin|]. congruence.
  - intros [t [Hin Heq]]. exists (toLowerCase t). split.
    + apply in_map_iff. exists t. auto.
    + apply String.eqb_eq. exact Heq.
Qed.

Lemma pickEntity_app (es1 es2 : list RawEntity) (types : list string) :
  pickEntity (es1 ++ es2)%list types = orElse (pickEntity es1 types) (pickEntity es2 types).
Proof.
  unfold pickEntity. induction es1 as [|e es1 IH]; [reflexivity|]. simpl.
  destruct (existsb (String.eqb (typeName e)) (map toLowerCase types)); [reflexivity|exact IH].
Qed.

(** X3: [pickEntity] returns the first entity, in input order, whose type
    equals one of the aliases up to case, and nothing when there is none;
    over two lists in a row the first list has precedence. *)
Theorem pickEntity_first_match_wins (es : list RawEntity) (types : list string) :
  (forall e, pickEntity es types = Some e <->
     exists pre post, es = (pre ++ e :: post)%list
                      /\ hasAlias types e
                      /\ Forall (fun x => ~ hasAlias types x) pre)
  /\ (pickEntity es types = None <-> Forall (fun x => ~ hasAlias types x) es)
  /\ (forall more, pickEntity (es ++ more)%list types
                   = orElse (pickEntity es types) (pickEntity more types)).
Proof.
  split; [|split; [|intros more; apply pickEntity_app]].
  - intros e. split.
    + unfold pickEntity. induction es as [|x es IH]; [discriminate|]. simpl.
      destruct (existsb (String.eqb (typeName x)) (map toLowerCase types)) eqn:Hx.
      * intros [= <-]. exists [], es. split; [reflexivity|].
        split; [apply hasAlias_existsb; exact Hx|constructor].
      * intros Hfind. destruct (IH Hfind) as [pre [post [-> [He Hpre]]]].
        exists (x :: pre), post. split; [reflexivity|]. split; [exact He|].
        constructor; [|exact Hpre]. intros Hx'. apply hasAlias_existsb in Hx'. congruence.
    + intros [pre [post [-> [He Hpre]]]]. rewrite pickEntity_app.
      assert (Hnone : pickEntity pre types = None).
      { unfold pickEntity. induction Hpre as [|x pre Hx _ IH]; [reflexivity|]. simpl.
        destruct (existsb (String.eqb (typeName x)) (map toLowerCase types)) eqn:Hx';
          [|exact IH].
        exfalso. apply Hx. apply hasAlias_existsb. exact Hx'. }
      rewrite Hnone. simpl. unfold pickEntity. simpl.
      apply hasAlias_existsb in He. rewrite He. reflexivity.
  - split.
    + unfold pickEntity. induction es as [|x es IH]; [constructor|]. simpl.
      destruct (existsb (String.eqb (typeName x)) (map toLowerCase types)) eqn:Hx;
        [discriminate|].
      intros Hfind. constructor; [|exact (IH Hfind)].
      intros Hx'. apply hasAlias_existsb in Hx'. congruence.
    + intros Hall. unfold pickEntity. induction Hall as [|x es Hx _ IH]; [reflexivity|].
      simpl. destruct (existsb (String.eqb (typeName x)) (map toLowerCase types)) eqn:Hx';
        [|exact IH].
      exfalso. apply Hx. apply hasAlias_existsb. exact Hx'.
Qed.

(** ** Dates *)

Lemma nonZero_Some (z : option Z) (v : Z) : nonZero z = Some v <-> z = Some v /\ v <> 0.
Proof.
  destruct z as [[|x|x]|]; simpl; split;
    try (intros [= <-]; split; [reflexivity|discriminate]);
    try discriminate; intros [[= <-] H]; try reflexivity; contradiction.
Qed.

(** X4: the date of an entity is read from its normalized date value only,
    and only when year, month and day are all present and not zero.  It is
    then local midnight of that day, the month counted from 0 and a year
    from 1 to 99 counted from 1900, when the timestamp of the store can
    hold it; when it cannot (the seconds since the epoch are below
    -62135596800 or above 253402300799, or the date is no date at all) the
    conversion throws the error of the library.  Without a complete date
    the result is null.  The text and the mention text of the entity are
    not consulted. *)
Theorem entityDateToTimestamp_needs_all_components (sv : Services) (e : RawEntity) :
  let complete dv y m d :=
    normalizedValue e ≫= dateValue = Some dv
    /\ year dv = Some y /\ month dv = Some m /\ day dv = Some d
    /\ y <> 0 /\ m <> 0 /\ d <> 0 in
  let time y m d := JsDate.construct (localTZA sv) y (m - 1) d in
  (forall ts, entityDateToTimestamp sv (Some e) = Ok (Some ts) <->
     exists dv y m d ms,
       complete dv y m d
       /\ time y m d = Some ms /\ MIN_SECONDS <= ms / 1000 <= MAX_SECONDS
       /\ ts = LocalMidnight y (m - 1) d)
  /\ (forall err, entityDateToTimestamp sv (Some e) = Throw err <->
        exists dv y m d,
          complete dv y m d
          /\ (time y m d = None
              \/ exists ms, time y m d = Some ms
                            /\ (ms / 1000 < MIN_SECONDS \/ MAX_SECONDS < ms / 1000))
          /\ err = Error "Error"
                     (libraryMessage sv Admin
                        (TimestampOutOfRange ((fun ms => ms / 1000) <$> time y m d))))
  /\ (entityDateToTimestamp sv (Some e) = Ok None <->
        forall dv y m d, ~ complete dv y m d)
  /\ entityDateToTimestamp sv None = Ok None.
Proof.
  intros complete time.
  assert (Hcomplete : forall dv y m d,
             normalizedValue e ≫= dateValue = Some dv ->
             (nonZero (year dv) = Some y /\ nonZero (month dv) = Some m
              /\ nonZero (day dv) = Some d) <-> complete dv y m d).
  { intros dv y m d Hdv. unfold complete. rewrite !nonZero_Some. tauto. }
  assert (Hunique : forall dv y m d dv' y' m' d',
             complete dv y m d -> complete dv' y' m' d' ->
             dv' = dv /\ y' = y /\ m' = m /\ d' = d).
  { unfold complete. intros dv y m d dv' y' m' d'
      (Hdv & Hy & Hm & Hd & _) (Hdv' & Hy' & Hm' & Hd' & _).
    assert (dv' = dv) as -> by congruence. repeat split; congruence. }
  destruct (entityDateToTimestamp_cases sv e)
    as [[Hnone Hrun]|[[dv [Hdv [Hzero Hrun]]]|[dv [y [m [d (Hdv & Hy & Hm & Hd & Hrun)]]]]]].
  - (* no date value *)
    assert (Hno : forall dv y m d, ~ complete dv y m d).
    { intros dv y m d (Hdv & _). congruence. }
    rewrite Hrun. split; [|split; [|split; [|reflexivity]]].
    + intros ts. split; [discriminate|].
      intros [dv [y [m [d [ms (Hc & _)]]]]]. exfalso. exact (Hno _ _ _ _ Hc).
    + intros err. split; [discriminate|].
      intros [dv [y [m [d (Hc & _)]]]]. exfalso. exact (Hno _ _ _ _ Hc).
    + split; [intros _; exact Hno|reflexivity].
  - (* a component is missing or zero *)
    assert (Hno : forall dv' y m d, ~ complete dv' y m d).
    { intros dv' y m d Hc. assert (dv' = dv) as -> by (destruct Hc as (H & _); congruence).
      apply (Hcomplete dv y m d Hdv) in Hc as (Hy & Hm & Hd).
      destruct Hzero as [H|[H|H]]; congruence. }
    rewrite Hrun. split; [|split; [|split; [|reflexivity]]].
    + intros ts. split; [discriminate|].
      intros [dv' [y [m [d [ms (Hc & _)]]]]]. exfalso. exact (Hno _ _ _ _ Hc).
    + intros err. split; [discriminate|].
      intros [dv' [y [m [d (Hc & _)]]]]. exfalso. exact (Hno _ _ _ _ Hc).
    + split; [intros _; exact Hno|reflexivity].
  - (* a complete date *)
    assert (Hc : complete dv y m d) by (apply (Hcomplete dv y m d Hdv); auto).
    rewrite Hrun. fold (time y m d).
    destruct (fromDate_cases sv Admin (time y m d) (LocalMidnight y (m - 1) d))
      as [[ms (Hms & Hin & ->)]|[Hout ->]]; simpl.
    + split; [|split; [|split; [|reflexivity]]].
      * intros ts. split.
        -- intros [= <-]. exists dv, y, m, d, ms. auto.
        -- intros [dv' [y' [m' [d' [ms' (Hc' & _ & _ & ->)]]]]].
           destruct (Hunique _ _ _ _ _ _ _ _ Hc Hc') as (_ & -> & -> & ->). reflexivity.
      * intros err. split; [discriminate|].
        intros [dv' [y' [m' [d' (Hc' & Hout & _)]]]]. exfalso.
        destruct (Hunique _ _ _ _ _ _ _ _ Hc Hc') as (_ & -> & -> & ->).
        destruct Hout as [Hnone|[ms' [Hms' Hout]]]; [congruence|].
        assert (ms' = ms) as -> by congruence. lia.
      * split; [discriminate|]. intros Hno. exfalso. exact (Hno _ _ _ _ Hc).
    + split; [|split; [|split; [|reflexivity]]].
      * intros ts. split; [discriminate|].
        intros [dv' [y' [m' [d' [ms' (Hc' & Hms' & Hin & _)]]]]]. exfalso.
        destruct (Hunique _ _ _ _ _ _ _ _ Hc Hc') as (_ & -> & -> & ->).
        destruct Hout as [Hnone|[ms [Hms Hout]]]; [congruence|].
        assert (ms' = ms) as -> by congruence. lia.
      * intros err. split.
        -- intros [= <-]. exists dv, y, m, d. split; [exact Hc|]. split; [exact Hout|reflexivity].
        -- intros [dv' [y' [m' [d' (Hc' & _ & ->)]]]].
           destruct (Hunique _ _ _ _ _ _ _ _ Hc Hc') as (_ & -> & -> & ->). reflexivity.
      * split; [discriminate|]. intros Hno. exfalso. exact (Hno _ _ _ _ Hc).
Qed.

(** In UTC the first day of year 10000 is one second past the range, the
    last day of 9999 is in it, and a year below 100 is a year of the
    twentieth century. *)
Example dates_at_the_end_of_the_range :
  entityDateToTimestamp (answering []) (Some (dateEntity "due_date" 10000 1 1))
  = Throw (Error "Error" "Timestamp seconds out of range: 253402300800")
  /\ entityDateToTimestamp (answering []) (Some (dateEntity "due_date" 9999 12 31))
     = Ok (Some (LocalMidnight 9999 11 31))
  /\ entityDateToTimestamp (answering []) (Some (dateEntity "due_date" (-1) 1 1))
     = Throw (Error "Error" "Timestamp seconds out of range: -62198755200")
  /\ entityDateToTimestamp (answering []) (Some (dateEntity "due_date" 24 1 31))
     = Ok (Some (LocalMidnight 24 0 31))
  /\ entityDateToTimestamp (answering []) (Some (dateEntity "due_date" 2024 0 31))
     = Ok None.
Proof. vm_compute. repeat split. Qed.

(** ** Line items *)

Lemma parseLineItem_unfold (li : RawEntity) :
  let props := default [] (properties li) in
  let item := structuredLineItem props in
  let mt := default "" (mentionText li) in
  parseLineItem li =
  if ((length props =? 0)%nat || unfilled item && truthy mt) && truthy mt then
    let fb := parseLineItemFromMentionText mt in
    {| description := orElse (description item) (description fb);
       quantity := orElse (quantity item) (quantity fb);
       unitPrice := orElse (unitPrice item) (unitPrice fb);
       amount := orElse (amount item) (amount fb) |}
  else item.
Proof. reflexivity. Qed.

Lemma unfilled_false (item : LineItem) :
  truthy (default "" (description item)) = true
  \/ quantity item <> None \/ unitPrice item <> None \/ amount item <> None ->
  unfilled item = false.
Proof.
  unfold unfilled. intros [H|[H|[H|H]]].
  - rewrite H. reflexivity.
  - apply defined_true in H. rewrite H. rewrite !andb_false_r. reflexivity.
  - apply defined_true in H. rewrite H. rewrite !andb_false_r. reflexivity.
  - apply defined_true in H. rewrite H. rewrite !andb_false_r. reflexivity.
Qed.

Lemma length_zero_eqb {A : Type} (l : list A) : (length l =? 0)%nat = true <-> l = [].
Proof. destruct l; simpl; split; congruence. Qed.

(** X5: when the properties of a line-item entity give a non-empty
    description or any number, the line item is exactly what the
    properties give and the mention text is not used; and in every case a
    field that the properties give is in the result as it is. *)
Theorem structured_line_item_fields_win (li : RawEntity) :
  let item := structuredLineItem (default [] (properties li)) in
  (default [] (properties li) <> [] ->
   truthy (default "" (description item)) = true
   \/ quantity item <> None \/ unitPrice item <> None \/ amount item <> None ->
   parseLineItem li = item)
  /\ (forall d, description item = Some d -> description (parseLineItem li) = Some d)
  /\ (forall q, quantity item = Some q -> quantity (parseLineItem li) = Some q)
  /\ (forall u, unitPrice item = Some u -> unitPrice (parseLineItem li) = Some u)
  /\ (forall a, amount item = Some a -> amount (parseLineItem li) = Some a).
Proof.
  intros item. pose proof (parseLineItem_unfold li) as Hparse. cbv zeta in Hparse.
  fold item in Hparse. split.
  - intros Hprops Hfilled. rewrite Hparse.
    rewrite (unfilled_false item Hfilled).
    destruct (length (default [] (properties li)) =? 0)%nat eqn:Hlen.
    + apply length_zero_eqb in Hlen. contradiction.
    + reflexivity.
  - rewrite Hparse.
    destruct (((length (default [] (properties li)) =? 0)%nat
               || unfilled item && truthy (default "" (mentionText li)))
              && truthy (default "" (mentionText li)));
      cbn [description quantity unitPrice amount]; (split; [|split; [|split]]).
    all: intros x Hx; rewrite Hx; reflexivity.
Qed.

(** X6: a line-item entity without properties is parsed from its mention
    text alone; with neither properties nor mention text every field is
    null; and when properties exist but give nothing, the numbers come from
    the mention text while a description that the properties give as the
    empty string stays the empty string. *)
Theorem line_item_falls_back_to_mention_text (li : RawEntity) :
  let props := default [] (properties li) in
  let item := structuredLineItem props in
  let mt := default "" (mentionText li) in
  let fb := parseLineItemFromMentionText mt in
  (props = [] -> truthy mt = true -> parseLineItem li = fb)
  /\ (props = [] -> truthy mt = false ->
      parseLineItem li
      = {| description := None; quantity := None; unitPrice := None; amount := None |})
  /\ (unfilled item = true -> truthy mt = true ->
      quantity (parseLineItem li) = quantity fb
      /\ unitPrice (parseLineItem li) = unitPrice fb
      /\ amount (parseLineItem li) = amount fb
      /\ (description item = None -> description (parseLineItem li) = description fb)
      /\ (description item = Some "" -> description (parseLineItem li) = Some ""))
  /\ (unfilled item = true -> truthy mt = false -> parseLineItem li = item).
Proof.
  intros props item mt fb. pose proof (parseLineItem_unfold li) as Hparse.
  cbv zeta in Hparse. fold props item mt fb in Hparse.
  split; [|split; [|split]].
  - intros Hprops Hmt. rewrite Hparse, Hmt. subst item. rewrite Hprops. simpl.
    destruct fb; reflexivity.
  - intros Hprops Hmt. rewrite Hparse, Hmt. subst item. rewrite Hprops.
    rewrite andb_false_r. reflexivity.
  - clearbody item fb. intros Hun Hmt. rewrite Hparse, Hun, Hmt, orb_true_r. simpl.
    unfold unfilled in Hun.
    destruct (quantity item), (unitPrice item), (amount item);
      simpl in Hun; rewrite ?andb_false_r in Hun; try discriminate.
    repeat split; try (intros ->); reflexivity.
  - intros Hun Hmt. rewrite Hparse, Hmt, andb_false_r. reflexivity.
Qed.

Lemma parseLineItems_app (es1 es2 : list RawEntity) :
  parseLineItems (es1 ++ es2)%list = (parseLineItems es1 ++ parseLineItems es2)%list.
Proof. unfold parseLineItems. rewrite List.filter_app, List.map_app. reflexivity. Qed.

(** X7: the line items are those of the entities of type "line_item" (up
    to case), one each in the order of the entities and each parsed on its
    own: other entities add nothing, and the line items of two lists in a
    row are those of the first followed by those of the second. *)
Theorem line_items_follow_the_entities (es more : list RawEntity) (e : RawEntity) :
  parseLineItems (es ++ more)%list = (parseLineItems es ++ parseLineItems more)%list
  /\ (toLowerCase (default "" (type e)) = "line_item" ->
      parseLineItems (es ++ e :: more)%list
      = (parseLineItems es ++ parseLineItem e :: parseLineItems more)%list)
  /\ (toLowerCase (default "" (type e)) <> "line_item" ->
      parseLineItems (es ++ e :: more)%list = parseLineItems (es ++ more)%list)
  /\ (length (parseLineItems es) <= length es)%nat.
Proof.
  split; [apply parseLineItems_app|]. split; [|split].
  - intros He. rewrite parseLineItems_app. f_equal.
    unfold parseLineItems. simpl. unfold isLineItem at 1, typeName. rewrite He. reflexivity.
  - intros He. rewrite !parseLineItems_app. f_equal.
    unfold parseLineItems. simpl. unfold isLineItem at 1, typeName.
    destruct (String.eqb_spec (toLowerCase (default "" (type e))) "line_item");
      [contradiction|reflexivity].
  - rewrite length_parseLineItems. apply List.filter_length_le.
Qed.

(** ** The heuristic parse: description and numbers *)

(** X8: the heuristic parse of a text that is more than white space always
    has a description, and it is not empty; for a text of white space only
    (or the empty text) every field is null. *)
Theorem heuristic_description_is_never_empty (text : string) :
  let mt := trim (replaceAll whitespaceRun " " text) in
  let item := parseLineItemFromMentionText text in
  (truthy mt = true -> exists d, description item = Some d /\ truthy d = true)
  /\ (truthy mt = false ->
      item = {| description := None; quantity := None; unitPrice := None; amount := None |}).
Proof.
  intros mt item. split.
  - intros Hmt. subst item. rewrite (parse_of_text text Hmt). cbn [description].
    eexists. split; [reflexivity|].
    match goal with |- context [if truthy ?d then _ else _] => destruct (truthy d) eqn:Hd end;
      [exact Hd|exact Hmt].
  - intros Hmt. exact (parse_of_blank text Hmt).
Qed.

Lemma collectMoney_finite (found : list (string * nat)) :
  Forall (fun m => JsNumber.isFinite (value m) = true) (collectMoney found).
Proof.
  induction found as [|[raw index] found IH]; simpl; [constructor|].
  destruct (toNumberLoose raw) as [v|] eqn:Hv; [|exact IH].
  constructor; [|exact IH]. simpl.
  unfold toNumberLoose in Hv.
  destruct (JsNumber.isFinite (JsConv.Number (replaceAll nonNumeric "" raw))) eqn:Hfin;
    [|discriminate].
  injection Hv as <-. exact Hfin.
Qed.

Lemma moneyRoles_last (ms : list MoneyMatch) :
  snd (moneyRoles ms) = value <$> last ms
  /\ (snd (moneyRoles ms) = None -> fst (moneyRoles ms) = None).
Proof.
  unfold moneyRoles. rewrite last_lookup.
  destruct ms as [|a [|b ms]]; simpl; [auto|auto|].
  replace (length ms - 0)%nat with (length ms) by lia. split; [reflexivity|].
  intros Hnone. exfalso.
  destruct (lookup_lt_is_Some_2 (b :: ms) (length ms)) as [x Hx]; [simpl; lia|].
  rewrite Hx in Hnone. discriminate.
Qed.

(** X9: in the heuristic parse the amount is the value of the last money
    match recorded in the text, or null when there is none: it is never
    computed from quantity and unit price, because a unit price is only
    ever recorded together with an amount.  An amount and a quantity read
    from the text are finite numbers. *)
Theorem heuristic_amount_is_the_last_money_match (text : string) :
  let mt := trim (replaceAll whitespaceRun " " text) in
  let item := parseLineItemFromMentionText text in
  amount item = value <$> last (moneyMatchesOf mt)
  /\ (forall a, amount item = Some a -> JsNumber.isFinite a = true)
  /\ (forall q, quantity item = Some q -> JsNumber.isFinite q = true).
Proof.
  intros mt item.
  assert (Hamount : amount item = value <$> last (moneyMatchesOf mt)).
  { destruct (truthy mt) eqn:Hmt.
    - subst item. rewrite (parse_of_text text Hmt). cbn [amount]. fold mt.
      destruct (moneyRoles_last (moneyMatchesOf mt)) as [Hlast Hboth].
      destruct (moneyRoles (moneyMatchesOf mt)) as [u a] eqn:Hroles. simpl in *.
      rewrite <- Hlast.
      match goal with |- context [quantityOf ?s] => destruct (quantityOf s) as [q|] end;
        destruct a as [a|]; try rewrite (Hboth eq_refl); try destruct u; reflexivity.
    - subst item. rewrite (parse_of_blank text Hmt). rewrite (truthy_false mt Hmt).
      reflexivity. }
  split; [exact Hamount|]. split.
  - intros a Ha. rewrite Hamount in Ha.
    destruct (last (moneyMatchesOf mt)) as [m|] eqn:Hlast; [|discriminate].
    injection Ha as <-.
    pose proof (collectMoney_finite (matchAll moneyRegex mt)) as Hall.
    rewrite Forall_forall in Hall. apply Hall.
    rewrite last_lookup in Hlast.
    eapply list_elem_of_lookup_2. exact Hlast.
  - intros q Hq. destruct (truthy mt) eqn:Hmt.
    + subst item. rewrite (parse_of_text text Hmt) in Hq. cbn [quantity] in Hq.
      unfold quantityOf in Hq.
      destruct (last (matchAll qtyRegex _)) as [[raw index]|]; [|discriminate].
      destruct (JsNumber.isFinite (JsConv.Number raw)) eqn:Hfin; [|discriminate].
      injection Hq as <-. exact Hfin.
    + subst item. rewrite (parse_of_blank text Hmt) in Hq. discriminate.
Qed.

(** ** The processing body: outcome, invariants and calls *)

Section Processing.

Context (sv : Services).

(** The outcome of the [try] block depends on the record only through its
    storage path and content type, and not on the store or the log. *)
Lemma extract_outcome_depends_on_file_only (d1 d2 : InvoiceRecord) (p1 p2 : Platform) :
  truthyText (storagePath d1) = truthyText (storagePath d2) ->
  truthyText (contentType d1) = truthyText (contentType d2) ->
  fst (extract sv d1 p1) = fst (extract sv d2 p2).
Proof.
  intros Hpath Htype. unfold extract. unfold_monad. rewrite Hpath, Htype.
  destruct (truthyText (storagePath d2)) as [path|]; [|reflexivity]. simpl.
  destruct (getMetadata sv path) as [err|meta]; [reflexivity|]. simpl.
  destruct (download sv path) as [err|buf]; [reflexivity|]. simpl.
  destruct (truthyText (GCLOUD_PROJECT sv)) as [project|]; [|reflexivity]. simpl.
  match goal with |- context [processDocument sv ?req] =>
    destruct (processDocument sv req) as [err|result] end; [reflexivity|]. simpl.
  unfold outcome.
  match goal with |- context [normalizeInvoice sv ?es] =>
    destruct (normalizeInvoice sv es) end; reflexivity.
Qed.

(** The calls that the [try] block makes, latest first. *)
Lemma extract_calls (data : InvoiceRecord) (p : Platform) :
  let p' := snd (extract sv data p) in
  (truthyText (storagePath data) = None /\ log p' = log p)
  \/ (exists path,
        truthyText (storagePath data) = Some path
        /\ ((exists err, getMetadata sv path = inl err
                         /\ log p' = FileGetMetadata path :: log p)
            \/ (exists meta,
                  getMetadata sv path = inr meta
                  /\ ((exists err, download sv path = inl err
                                   /\ log p' = FileDownload path :: FileGetMetadata path :: log p)
                      \/ (exists buf,
                            download sv path = inr buf
                            /\ ((truthyText (GCLOUD_PROJECT sv) = None
                                 /\ log p' = FileDownload path :: FileGetMetadata path :: log p)
                                \/ (exists project,
                                      truthyText (GCLOUD_PROJECT sv) = Some project
                                      /\ log p' =
                                         ExtractionCall
                                           {| processorName :=
                                                "projects/" ++ project ++ "/locations/"
                                                ++ DOCAI_LOCATION ++ "/processors/"
                                                ++ DOCAI_PROCESSOR_ID;
                                              content := base64 sv buf;
                                              mimeType :=
                                                default "application/pdf"
                                                  (orElse (truthyText (contentType data))
                                                          (truthyText meta)) |}
                                         :: FileDownload path :: FileGetMetadata path
                                         :: log p))))))).
Proof.
  cbv zeta. unfold extract. unfold_monad.
  destruct (truthyText (storagePath data)) as [path|]; [|left; auto]. right.
  exists path. split; [reflexivity|]. simpl.
  destruct (getMetadata sv path) as [err|meta]; [left; eauto|]. right.
  exists meta. split; [reflexivity|]. simpl.
  destruct (download sv path) as [err|buf]; [left; eauto|]. right.
  exists buf. split; [reflexivity|]. simpl.
  destruct (truthyText (GCLOUD_PROJECT sv)) as [project|]; [|left; auto]. right.
  exists project. split; [reflexivity|]. simpl.
  match goal with |- context [processDocument sv ?req] =>
    destruct (processDocument sv req) as [err|result] end; [reflexivity|]. simpl.
  unfold outcome.
  match goal with |- context [normalizeInvoice sv ?es] =>
    destruct (normalizeInvoice sv es) end; reflexivity.
Qed.

End Processing.

(** X10: when fetch and extraction succeed and the normalization of the
    entities returns (no date is out of the range of the store), the
    processing body leaves the record in status "needs_review" with the
    normalized fields, clears an error message left by an earlier failure
    (both callers ask for it), stamps [extractedAt] and [updatedAt] with
    the same server time, and stores a debug copy of at most the first 200
    entities. *)
Theorem processing_success_clears_the_error (sv : Services) (id : string)
        (data r : InvoiceRecord) (p : Platform)
        (path : string) (meta : option string) (buf project : string) (es : list RawEntity)
        (extracted : InvoiceFields) :
  docs p !! id = Some r ->
  truthyText (storagePath data) = Some path ->
  getMetadata sv path = inr meta ->
  download sv path = inr buf ->
  truthyText (GCLOUD_PROJECT sv) = Some project ->
  (forall request, processDocument sv request
                   = inr {| document := Some {| entities := Some es |} |}) ->
  normalizeInvoice sv es = Ok extracted ->
  exists p' r',
    processInvoiceDocument sv id data true p = (Ok tt, p')
    /\ docs p' !! id = Some r'
    /\ status r' = Some "needs_review"
    /\ errorMessage r' = None
    /\ fields r' = extracted
    /\ extractedAt r' = updatedAt r'
    /\ (exists n, updatedAt r' = Some (ServerTimestamp n))
    /\ rawEntities r' = map debugEntity (firstn 200 es)
    /\ length (rawEntities r') = Nat.min 200 (length es).
Proof.
  intros Hr Hpath Hmeta Hbuf Hproject Hdoc Hnormal.
  pose proof (processInvoiceDocument_settles sv id data r true p Hr) as Hrun.
  cbv zeta in Hrun.
  match type of Hrun with context [extract sv data ?b] =>
    pose proof (extract_answers sv data b path meta buf project es
                  Hpath Hmeta Hbuf Hproject Hdoc) as Hout end.
  rewrite Hnormal in Hout. simpl in Hout.
  rewrite Hout in Hrun. eexists. eexists. split; [exact Hrun|]. cbn [docs].
  split; [apply lookup_insert_eq|]. cbn [settled markExtracted status errorMessage fields
    extractedAt updatedAt rawEntities markProcessing].
  do 4 (split; [reflexivity|]). split; [eexists; reflexivity|]. split; [reflexivity|].
  rewrite length_map, length_take. reflexivity.
Qed.

Lemma processing_success_clears_the_error_witness :
  exists p' r',
    processInvoiceDocument (answering sampleEntities) "inv-1" failedInvoice true
      (onlyInvoice failedInvoice)
    = (Ok tt, p')
    /\ docs p' !! "inv-1" = Some r'
    /\ status r' = Some "needs_review"
    /\ errorMessage r' = None
    /\ fields r' = sampleFields.
Proof.
  assert (Hr : docs (onlyInvoice failedInvoice) !! "inv-1" = Some failedInvoice)
    by (vm_compute; reflexivity).
  assert (Hn : normalizeInvoice (answering sampleEntities) sampleEntities = Ok sampleFields)
    by (vm_compute; reflexivity).
  destruct (processing_success_clears_the_error (answering sampleEntities) "inv-1"
              failedInvoice failedInvoice (onlyInvoice failedInvoice)
              "invoices/alice/1_a.pdf" (Some "application/pdf") "%PDF" "demo-project"
              sampleEntities sampleFields Hr eq_refl eq_refl eq_refl eq_refl
              (fun _ => eq_refl) Hn)
    as [p' [r' (Hrun & Hr' & Hs & He & Hf & _)]].
  exists p', r'. auto.
Defined.

Lemma settled_keeps_identity (outcome : Result (InvoiceFields * list DebugEntity))
      (now started : Timestamp) (clearError : bool) (r : InvoiceRecord) :
  let r' := settled outcome now (markProcessing clearError started r) in
  userId r' = userId r /\ storagePath r' = storagePath r /\ contentType r' = contentType r
  /\ skipProcessing r' = skipProcessing r /\ createdAt r' = createdAt r
  /\ finalizedAt r' = finalizedAt r.
Proof. destruct outcome as [[extracted raw]|err]; simpl; auto 10. Qed.

(** X11: whatever its outcome, the processing body changes one document
    only and keeps who owns it, where its file is, its content type, its
    skip flag and its creation and finalization times; it creates and
    deletes no document. *)
Theorem processing_keeps_identity (sv : Services) (id : string)
        (data r : InvoiceRecord) (clearError : bool) (p : Platform) :
  docs p !! id = Some r ->
  exists p' r',
    processInvoiceDocument sv id data clearError p = (Ok tt, p')
    /\ docs p' !! id = Some r'
    /\ userId r' = userId r /\ storagePath r' = storagePath r
    /\ contentType r' = contentType r /\ skipProcessing r' = skipProcessing r
    /\ createdAt r' = createdAt r /\ finalizedAt r' = finalizedAt r
    /\ (forall other, other <> id -> docs p' !! other = docs p !! other)
    /\ dom (docs p') = dom (docs p).
Proof.
  intros Hr.
  pose proof (processInvoiceDocument_settles sv id data r clearError p Hr) as Hrun.
  cbv zeta in Hrun. eexists. eexists. split; [exact Hrun|]. cbn [docs].
  split; [apply lookup_insert_eq|].
  match goal with |- context [settled ?o ?n (markProcessing ?c ?t r)] =>
    destruct (settled_keeps_identity o n t c r) as (H1 & H2 & H3 & H4 & H5 & H6) end.
  do 6 (split; [assumption|]). split.
  - intros other Hne. apply lookup_insert_ne. congruence.
  - apply dom_insert_lookup_L. rewrite Hr. eauto.
Qed.

Lemma processing_keeps_identity_witness :
  exists p' r',
    processInvoiceDocument missingFile "inv-1" reviewedInvoice true (onlyInvoice reviewedInvoice)
    = (Ok tt, p')
    /\ docs p' !! "inv-1" = Some r'
    /\ userId r' = Some "alice"
    /\ storagePath r' = Some "invoices/alice/1_a.pdf"
    /\ dom (docs p') = dom (docs (onlyInvoice reviewedInvoice)).
Proof.
  assert (Hr : docs (onlyInvoice reviewedInvoice) !! "inv-1" = Some reviewedInvoice)
    by (vm_compute; reflexivity).
  destruct (processing_keeps_identity missingFile "inv-1" reviewedInvoice reviewedInvoice true
              (onlyInvoice reviewedInvoice) Hr)
    as [p' [r' (Hrun & Hr' & Hu & Hs & _ & _ & _ & _ & _ & Hdom)]].
  exists p', r'. auto.
Defined.

(** X12: the processing body writes the record twice and never reads it;
    between the two writes it calls, in this order, the file's metadata,
    the file's download and the extraction service, stopping at the first
    one that fails: no call at all without a storage path, no download
    when the metadata fails, and no extraction call, which is made at most
    once, unless both reads of the file succeeded and the project id is
    set. *)
Theorem processing_calls_in_order (sv : Services) (id : string)
        (data r : InvoiceRecord) (clearError : bool) (p : Platform) :
  docs p !! id = Some r ->
  exists p' calls,
    processInvoiceDocument sv id data clearError p = (Ok tt, p')
    /\ log p' = (DocUpdate id :: calls ++ DocUpdate id :: log p)%list
    /\ (truthyText (storagePath data) = None -> calls = [])
    /\ (forall path, truthyText (storagePath data) = Some path ->
          (forall err, getMetadata sv path = inl err -> calls = [FileGetMetadata path])
          /\ (forall meta err, getMetadata sv path = inr meta -> download sv path = inl err ->
                calls = [FileDownload path; FileGetMetadata path])
          /\ (forall meta buf, getMetadata sv path = inr meta -> download sv path = inr buf ->
                truthyText (GCLOUD_PROJECT sv) = None ->
                calls = [FileDownload path; FileGetMetadata path])
          /\ (forall meta buf project,
                getMetadata sv path = inr meta -> download sv path = inr buf ->
                truthyText (GCLOUD_PROJECT sv) = Some project ->
                exists request,
                  calls = [ExtractionCall request; FileDownload path; FileGetMetadata path]
                  /\ content request = base64 sv buf
                  /\ mimeType request =
                     default "application/pdf"
                       (orElse (truthyText (contentType data)) (truthyText meta))))
    /\ (length (List.filter (fun ev => match ev with ExtractionCall _ => true | _ => false end)
                            calls) <= 1)%nat
    /\ Forall (fun ev => match ev with DocGet _ | DocUpdate _ => False | _ => True end) calls.
Proof.
  intros Hr.
  pose proof (processInvoiceDocument_settles sv id data r clearError p Hr) as Hrun.
  cbv zeta in Hrun. rewrite (docUpdate_existing sv Admin id _ p r Hr) in Hrun.
  cbn [snd] in Hrun.
  match type of Hrun with context [extract sv data ?b] =>
    set (begun := b) in *; pose proof (extract_calls sv data begun) as Hcalls end.
  cbv zeta in Hcalls.
  assert (Hlog : log begun = DocUpdate id :: log p) by reflexivity.
  rewrite Hlog in Hcalls.
  destruct Hcalls as [[Hpath Hl]|[path [Hpath
    [[err [Hm Hl]]|[meta [Hm [[err [Hd Hl]]|[buf [Hd [[Hg Hl]|[project [Hg Hl]]]]]]]]]]]].
  - eexists. exists []. split; [exact Hrun|]. cbn [log]. rewrite Hl.
    split; [reflexivity|]. split; [reflexivity|].
    split; [intros path' Hp; congruence|]. split; [simpl; lia|constructor].
  - eexists. exists [FileGetMetadata path]. split; [exact Hrun|]. cbn [log]. rewrite Hl.
    split; [reflexivity|]. split; [congruence|]. split.
    + intros path' Hp. assert (path' = path) by congruence. subst path'.
      repeat split; intros; congruence.
    + split; [simpl; lia|repeat constructor].
  - eexists. exists [FileDownload path; FileGetMetadata path]. split; [exact Hrun|]. cbn [log].
    rewrite Hl. split; [reflexivity|]. split; [congruence|]. split.
    + intros path' Hp. assert (path' = path) by congruence. subst path'.
      repeat split; intros; congruence.
    + split; [simpl; lia|repeat constructor].
  - eexists. exists [FileDownload path; FileGetMetadata path]. split; [exact Hrun|]. cbn [log].
    rewrite Hl. split; [reflexivity|]. split; [congruence|]. split.
    + intros path' Hp. assert (path' = path) by congruence. subst path'.
      repeat split; intros; congruence.
    + split; [simpl; lia|repeat constructor].
  - eexists.
    exists [ExtractionCall
              {| processorName :=
                   "projects/" ++ project ++ "/locations/" ++ DOCAI_LOCATION
                   ++ "/processors/" ++ DOCAI_PROCESSOR_ID;
                 content := base64 sv buf;
                 mimeType :=
                   default "application/pdf"
                     (orElse (truthyText (contentType data)) (truthyText meta)) |};
            FileDownload path; FileGetMetadata path].
    split; [exact Hrun|]. cbn [log]. rewrite Hl.
    split; [reflexivity|]. split; [congruence|]. split.
    + intros path' Hp. assert (path' = path) by congruence. subst path'.
      split; [intros; congruence|]. split; [intros; congruence|].
      split; [intros; congruence|].
      intros meta' buf' project' Hm' Hd' Hg'.
      assert (meta' = meta) by congruence. assert (buf' = buf) by congruence. subst.
      eexists. split; [reflexivity|]. split; reflexivity.
    + split; [simpl; lia|repeat constructor].
Qed.

Lemma processing_calls_in_order_witness :
  exists p' calls,
    processInvoiceDocument missingFile "inv-1" reviewedInvoice true (onlyInvoice reviewedInvoice)
    = (Ok tt, p')
    /\ log p' = (DocUpdate "inv-1" :: calls ++ [DocUpdate "inv-1"])%list
    /\ calls = [FileDownload "invoices/alice/1_a.pdf";
                FileGetMetadata "invoices/alice/1_a.pdf"].
Proof.
  assert (Hr : docs (onlyInvoice reviewedInvoice) !! "inv-1" = Some reviewedInvoice)
    by (vm_compute; reflexivity).
  destruct (processing_calls_in_order missingFile "inv-1" reviewedInvoice reviewedInvoice true
              (onlyInvoice reviewedInvoice) Hr)
    as [p' [calls (Hrun & Hlog & _ & Hcalls & _)]].
  exists p', calls. split; [exact Hrun|]. split; [exact Hlog|].
  destruct (Hcalls "invoices/alice/1_a.pdf" eq_refl) as (_ & Hd & _).
  exact (Hd (Some "application/pdf") (Error "ApiError" "No such object") eq_refl eq_refl).
Defined.

(** ** Reprocessing twice, and events that arrive late *)

(** A reprocess request that passes the guards, with the store it leaves. *)
Lemma reprocess_runs (sv : Services) (request : CallableRequest) (p : Platform)
      (uid key : string) (data : InvoiceRecord) :
  let fetched := {| docs := docs p; log := DocGet key :: log p |} in
  let started := markProcessing true (ServerTimestamp (length (log fetched))) data in
  let tried := extract sv data (snd (docUpdate sv Admin key (markProcessing true) fetched)) in
  truthyText (auth request) = Some uid ->
  documentKey (trim (default "" (invoiceId request))) = Some key ->
  docs p !! key = Some data ->
  userId data = Some uid ->
  status data <> Some "finalized" ->
  truthyText (storagePath data) <> None ->
  reprocessInvoiceV2 sv request p =
  (Ok {| ok := true |},
   {| docs := <[key := settled (fst tried) (ServerTimestamp (length (log (snd tried)))) started]>
                (docs p);
      log := DocUpdate key :: log (snd tried) |}).
Proof.
  intros fetched started tried Hauth Hkey Hsome Howner Hstatus Hpath.
  rewrite (reprocess_of_stored_record sv request p uid key data Hauth Hkey Hsome).
  fold fetched.
  guard (userId data = Some uid) as H; [|contradiction]. simpl.
  guard (status data = Some "finalized") as Hf; [contradiction|].
  destruct (truthyText (storagePath data)) as [path|] eqn:Hp; [|contradiction]. simpl.
  pose proof (processInvoiceDocument_settles sv key data data true fetched Hsome) as Hrun.
  cbv zeta in Hrun. unfold mbind, M_bind. rewrite Hrun. reflexivity.
Qed.

(** Collaborators that answer alike convert dates alike. *)
Lemma sameAnswers_normalizeInvoice (sv1 sv2 : Services) (es : list RawEntity) :
  sameAnswers sv1 sv2 -> normalizeInvoice sv1 es = normalizeInvoice sv2 es.
Proof.
  intros (_ & _ & _ & _ & _ & Htz & Hmsg).
  assert (Hdate : forall e, entityDateToTimestamp sv1 e = entityDateToTimestamp sv2 e).
  { intros [e|]; [|reflexivity]. unfold entityDateToTimestamp.
    destruct (normalizedValue e ≫= dateValue) as [dv|]; [|reflexivity].
    destruct (nonZero (year dv)) as [y|]; [|reflexivity].
    destruct (nonZero (month dv)) as [m|]; [|reflexivity].
    destruct (nonZero (day dv)) as [d|]; [|reflexivity]. cbv zeta.
    unfold JsDate.construct. cbv zeta. rewrite Htz.
    unfold fromDate, libraryError.
    destruct (JsDate.timeClip _) as [ms|]; rewrite ?Hmsg; reflexivity. }
  unfold normalizeInvoice. cbv zeta. rewrite !Hdate. reflexivity.
Qed.

(** Collaborators that answer alike give the [try] block one outcome. *)
Lemma sameAnswers_extract (sv1 sv2 : Services) (d1 d2 : InvoiceRecord) (p1 p2 : Platform) :
  sameAnswers sv1 sv2 ->
  truthyText (storagePath d1) = truthyText (storagePath d2) ->
  truthyText (contentType d1) = truthyText (contentType d2) ->
  fst (extract sv1 d1 p1) = fst (extract sv2 d2 p2).
Proof.
  intros Hsame Hpath Htype.
  pose proof (fun es => sameAnswers_normalizeInvoice sv1 sv2 es Hsame) as Hnormal.
  destruct Hsame as (Hmeta & Hdown & Hbase & Hproject & Hdoc & _ & _).
  unfold extract. unfold_monad. rewrite Hpath, Htype.
  destruct (truthyText (storagePath d2)) as [path|]; [|reflexivity]. simpl.
  rewrite Hmeta. destruct (getMetadata sv2 path) as [err|meta]; [reflexivity|]. simpl.
  rewrite Hdown. destruct (download sv2 path) as [err|buf]; [reflexivity|]. simpl.
  rewrite Hproject.
  destruct (truthyText (GCLOUD_PROJECT sv2)) as [project|]; [|reflexivity]. simpl.
  rewrite Hbase, Hdoc.
  match goal with |- context [processDocument sv2 ?req] =>
    destruct (processDocument sv2 req) as [err|result] end; [reflexivity|]. simpl.
  unfold outcome.
  match goal with |- context [normalizeInvoice sv1 ?es] =>
    rewrite (Hnormal es); destruct (normalizeInvoice sv2 es) end; reflexivity.
Qed.

(** X13: reprocessing is idempotent when the collaborators answer the
    second request as they answered the first: when the owner reprocesses
    a record twice in a row, and object storage, the extraction service
    and the runtime give the same answers both times, the second run is
    accepted and leaves the same status, error message, invoice fields and
    debug entities as the first; only the time stamps move. *)
Theorem reprocess_twice_is_reprocess_once (sv1 sv2 : Services) (request : CallableRequest)
        (p : Platform) (uid key : string) (data : InvoiceRecord) :
  truthyText (auth request) = Some uid ->
  documentKey (trim (default "" (invoiceId request))) = Some key ->
  docs p !! key = Some data ->
  userId data = Some uid ->
  status data <> Some "finalized" ->
  truthyText (storagePath data) <> None ->
  sameAnswers sv2 sv1 ->
  exists p1 p2 r1 r2,
    reprocessInvoiceV2 sv1 request p = (Ok {| ok := true |}, p1)
    /\ reprocessInvoiceV2 sv2 request p1 = (Ok {| ok := true |}, p2)
    /\ docs p1 !! key = Some r1 /\ docs p2 !! key = Some r2
    /\ status r2 = status r1
    /\ errorMessage r2 = errorMessage r1
    /\ fields r2 = fields r1
    /\ rawEntities r2 = rawEntities r1.
Proof.
  intros Hauth Hkey Hsome Howner Hstatus Hpath Hsame.
  pose proof (reprocess_runs sv1 request p uid key data Hauth Hkey Hsome Howner Hstatus Hpath)
    as Hrun1.
  cbv zeta in Hrun1.
  match type of Hrun1 with context [<[key := ?x]> (docs p)] => set (r1 := x) in * end.
  match type of Hrun1 with _ = (_, ?q) => set (p1 := q) in * end.
  assert (Hr1 : docs p1 !! key = Some r1) by apply lookup_insert_eq.
  assert (Hkeep : userId r1 = userId data /\ storagePath r1 = storagePath data
                  /\ contentType r1 = contentType data /\ status r1 <> Some "finalized").
  { subst r1. match goal with |- context [settled ?o ?n _] => destruct o as [[f raw]|err] end;
      simpl; repeat split; discriminate. }
  destruct Hkeep as (Hu1 & Hs1 & Hc1 & Hf1).
  assert (Howner1 : userId r1 = Some uid) by congruence.
  assert (Hpath1 : truthyText (storagePath r1) <> None) by (rewrite Hs1; exact Hpath).
  pose proof (reprocess_runs sv2 request p1 uid key r1 Hauth Hkey Hr1 Howner1 Hf1 Hpath1)
    as Hrun2.
  cbv zeta in Hrun2.
  match type of Hrun2 with context [<[key := ?x]> (docs p1)] => set (r2 := x) in * end.
  match type of Hrun2 with _ = (_, ?q) => set (p2 := q) in * end.
  exists p1, p2, r1, r2. split; [exact Hrun1|]. split; [exact Hrun2|].
  split; [exact Hr1|]. split; [apply lookup_insert_eq|].
  assert (Hout : forall q1 q2, fst (extract sv2 r1 q1) = fst (extract sv1 data q2)).
  { intros q1 q2. apply sameAnswers_extract; [exact Hsame|congruence|congruence]. }
  subst r2. rewrite Hout with (q2 := snd (docUpdate sv1 Admin key (markProcessing true)
                         {| docs := docs p; log := DocGet key :: log p |})).
  subst r1.
  match goal with |- context [settled ?o _ _] => destruct o as [[f raw]|err] end;
    cbn [settled markExtracted markError markProcessing status errorMessage fields rawEntities];
    auto.
Qed.

Lemma sameAnswers_refl (sv : Services) : sameAnswers sv sv.
Proof. repeat split. Qed.

(** The reviewed invoice reprocessed by its owner, twice. *)
Lemma reprocess_twice_is_reprocess_once_witness :
  exists p1 p2 r1 r2,
    reprocessInvoiceV2 (answering sampleEntities)
      {| auth := Some "alice"; invoiceId := Some "inv-1" |} (onlyInvoice reviewedInvoice)
    = (Ok {| ok := true |}, p1)
    /\ reprocessInvoiceV2 (answering sampleEntities)
         {| auth := Some "alice"; invoiceId := Some "inv-1" |} p1
       = (Ok {| ok := true |}, p2)
    /\ docs p1 !! "inv-1" = Some r1 /\ docs p2 !! "inv-1" = Some r2
    /\ status r2 = status r1 /\ fields r2 = fields r1.
Proof.
  assert (Hr : docs (onlyInvoice reviewedInvoice) !! "inv-1" = Some reviewedInvoice)
    by (vm_compute; reflexivity).
  assert (Hstatus : status reviewedInvoice <> Some "finalized") by (simpl; discriminate).
  assert (Hpath : truthyText (storagePath reviewedInvoice) <> None) by (simpl; discriminate).
  destruct (reprocess_twice_is_reprocess_once (answering sampleEntities)
              (answering sampleEntities)
              {| auth := Some "alice"; invoiceId := Some "inv-1" |}
              (onlyInvoice reviewedInvoice) "alice" "inv-1" reviewedInvoice
              eq_refl eq_refl Hr eq_refl Hstatus Hpath (sameAnswers_refl _))
    as [p1 [p2 [r1 [r2 (H1 & H2 & H3 & H4 & H5 & _ & H6 & _)]]]].
  exists p1, p2, r1, r2. auto 10.
Defined.

(** When the file is lost between the two requests the second run does
    not repeat the first: the record goes from "needs_review" to "error". *)
Example reprocess_after_the_file_is_lost :
  let request := {| auth := Some "alice"; invoiceId := Some "inv-1" |} in
  let p1 := snd (reprocessInvoiceV2 (answering sampleEntities) request
                   (onlyInvoice reviewedInvoice)) in
  let p2 := snd (reprocessInvoiceV2 missingFile request p1) in
  (status <$> docs p1 !! "inv-1") = Some (Some "needs_review")
  /\ (status <$> docs p2 !! "inv-1") = Some (Some "error").
Proof. vm_compute. auto. Qed.

(** X14: the handler of the document-created event decides on the snapshot
    that the event carries, not on the stored record: an event whose
    snapshot has status "uploaded" runs the processing body on the stored
    record whatever its status has become in the meantime, and leaves it in
    "needs_review" or "error"; when the record no longer exists the first
    write is rejected, the handler throws and the store is as before. *)
Theorem create_event_acts_on_its_snapshot (sv : Services) (snap : Snapshot)
        (data : InvoiceRecord) (p : Platform) :
  snapshotData snap = Some data ->
  status data = Some "uploaded" ->
  skipProcessing data = false ->
  (forall r, docs p !! ref snap = Some r ->
     exists p' r',
       processInvoiceOnCreateV2 sv (Some snap) p = (Ok tt, p')
       /\ docs p' !! ref snap = Some r'
       /\ (status r' = Some "needs_review" \/ status r' = Some "error")
       /\ finalizedAt r' = finalizedAt r)
  /\ (docs p !! ref snap = None ->
      exists err p',
        processInvoiceOnCreateV2 sv (Some snap) p = (Throw err, p')
        /\ docs p' = docs p).
Proof.
  intros Hdata Hstatus Hskip.
  assert (Hrun : processInvoiceOnCreateV2 sv (Some snap) p
                 = processInvoiceDocument sv (ref snap) data true p).
  { simpl. rewrite Hdata, Hskip.
    guard (status data = Some "uploaded") as H; [reflexivity|contradiction]. }
  rewrite Hrun. split.
  - intros r Hr.
    pose proof (processInvoiceDocument_settles sv (ref snap) data r true p Hr) as Hset.
    cbv zeta in Hset. eexists. eexists. split; [exact Hset|]. cbn [docs].
    split; [apply lookup_insert_eq|].
    match goal with |- context [settled ?o _ _] => destruct o as [[f raw]|err] end;
      simpl; auto.
  - intros Hnone. unfold processInvoiceDocument, mbind, M_bind, docUpdate. rewrite Hnone.
    eexists. eexists. split; reflexivity.
Qed.

(** An event for the upload of an invoice that has been finalized since. *)
Lemma create_event_acts_on_its_snapshot_witness :
  exists p' r',
    processInvoiceOnCreateV2 (answering sampleEntities)
      (Some {| ref := "inv-1"; snapshotData := Some uploadedInvoice |})
      (onlyInvoice finalizedInvoice)
    = (Ok tt, p')
    /\ docs p' !! "inv-1" = Some r'
    /\ (status r' = Some "needs_review" \/ status r' = Some "error").
Proof.
  destruct (create_event_acts_on_its_snapshot (answering sampleEntities)
              {| ref := "inv-1"; snapshotData := Some uploadedInvoice |} uploadedInvoice
              (onlyInvoice finalizedInvoice) eq_refl eq_refl eq_refl) as [Hstored _].
  destruct (Hstored finalizedInvoice) as [p' [r' (Hrun & Hr & Hs & _)]].
  - vm_compute. reflexivity.
  - exists p', r'. auto.
Defined.

(** ** Deletion *)

Section DeletionProperties.

Context (sv : Services) (removeFile : string -> Thrown + unit).

(** The request once it is authenticated and the record is read. *)
Lemma delete_of_stored_record (request : CallableRequest) (b : Backend)
      (uid key : string) (data : InvoiceRecord) :
  let fetched :=
    {| platform := {| docs := docs (platform b); log := DocGet key :: log (platform b) |};
       removals := removals b |} in
  truthyText (auth request) = Some uid ->
  documentKey (trim (default "" (invoiceId request))) = Some key ->
  docs (platform b) !! key = Some data ->
  deleteInvoiceV2 sv removeFile request b =
  (if negb (bool_decide (userId data = Some uid))
   then throwD (HttpsError permission_denied "Not allowed.")
   else
     _ ← match truthyText (storagePath data) with
         | Some storagePath => fileDelete removeFile storagePath
         | None => mret tt
         end;
     _ ← docDelete key;
     mret {| ok := true |}) fetched.
Proof.
  intros fetched Hauth Hkey Hsome. unfold deleteInvoiceV2. rewrite Hauth.
  cbv zeta. rewrite (documentKey_truthy _ _ Hkey). simpl.
  unfold mbind at 1, D_bind at 1, onPlatform, doc. rewrite Hkey.
  unfold mret at 1, M_ret at 1. cbv beta iota.
  unfold mbind at 1, D_bind at 1, docGet. simpl. rewrite Hsome. reflexivity.
Qed.

(** The request for an id under which nothing is read. *)
Lemma delete_without_record (request : CallableRequest) (b : Backend) (uid : string) :
  let id := trim (default "" (invoiceId request)) in
  truthyText (auth request) = Some uid ->
  (truthy id = false ->
   deleteInvoiceV2 sv removeFile request b
   = (Throw (HttpsError invalid_argument "Missing invoiceId."), b))
  /\ (truthy id = true -> documentKey id = None ->
      exists b', deleteInvoiceV2 sv removeFile request b
                 = (Throw (libraryError sv Admin (NotADocumentPath id)), b')
                 /\ platform b' = platform b /\ removals b' = removals b)
  /\ (forall key, documentKey id = Some key -> docs (platform b) !! key = None ->
      deleteInvoiceV2 sv removeFile request b
      = (Throw (HttpsError not_found "Invoice not found."),
         {| platform := {| docs := docs (platform b);
                           log := DocGet key :: log (platform b) |};
            removals := removals b |})).
Proof.
  intros id Hauth. unfold deleteInvoiceV2. rewrite Hauth. fold id. cbv zeta.
  split; [|split].
  - intros ->. reflexivity.
  - intros -> Hkey. simpl. unfold mbind, D_bind, onPlatform, doc. rewrite Hkey. simpl.
    eexists. split; [reflexivity|]. split; [destruct b as [[] ?]|]; reflexivity.
  - intros key Hkey Hnone. rewrite (documentKey_truthy _ _ Hkey). simpl.
    unfold mbind at 1, D_bind at 1, onPlatform, doc. rewrite Hkey.
    unfold mret at 1, M_ret at 1. cbv beta iota.
    unfold mbind, D_bind, docGet. simpl. rewrite Hnone. reflexivity.
Qed.

End DeletionProperties.

(** X15: a delete request removes nothing unless it comes from the owner of
    an existing record: without identity it fails with Unauthenticated,
    with a missing or blank id with InvalidArgument, with an id that is
    not the path of a document of the collection with the error with
    which the library rejects the path, for an id without record with
    NotFound, and for a record of another user with PermissionDenied, and
    in each case the store is as before and no file or document removal
    has been asked for. *)
Theorem delete_needs_the_owner (sv : Services) (removeFile : string -> Thrown + unit)
        (request : CallableRequest) (b : Backend) :
  let id := trim (default "" (invoiceId request)) in
  (truthyText (auth request) = None
   \/ documentKey id = None
   \/ (exists key, documentKey id = Some key /\ docs (platform b) !! key = None)
   \/ (exists key data, documentKey id = Some key /\ docs (platform b) !! key = Some data
                        /\ truthyText (auth request) <> userId data)) ->
  exists err b',
    deleteInvoiceV2 sv removeFile request b = (Throw err, b')
    /\ docs (platform b') = docs (platform b)
    /\ removals b' = removals b
    /\ (truthyText (auth request) = None ->
        err = HttpsError unauthenticated "Sign in required.")
    /\ (truthyText (auth request) <> None -> truthy id = false ->
        err = HttpsError invalid_argument "Missing invoiceId.")
    /\ (truthyText (auth request) <> None -> truthy id = true -> documentKey id = None ->
        err = Error "Error" (libraryMessage sv Admin (NotADocumentPath id)))
    /\ (forall key, truthyText (auth request) <> None -> documentKey id = Some key ->
          docs (platform b) !! key = None ->
          err = HttpsError not_found "Invoice not found.")
    /\ (forall key, truthyText (auth request) <> None -> documentKey id = Some key ->
          docs (platform b) !! key <> None ->
          err = HttpsError permission_denied "Not allowed.").
Proof.
  intros id Hcases.
  destruct (truthyText (auth request)) as [uid|] eqn:Hauth.
  - destruct (delete_without_record sv removeFile request b uid Hauth)
      as (Hblank & Hpath & Hnone).
    fold id in Hblank, Hpath, Hnone.
    destruct (documentKey id) as [key|] eqn:Hkey.
    + pose proof (documentKey_truthy _ _ Hkey) as Hid.
      destruct (docs (platform b) !! key) as [data|] eqn:Hsome.
      * rewrite (delete_of_stored_record sv removeFile request b uid key data Hauth Hkey Hsome).
        destruct Hcases as [H|[H|[[key' [Hk H]]|[key' [data' (Hk & Hd & Howner)]]]]];
          try discriminate; try congruence.
        assert (key' = key) as -> by congruence.
        assert (data' = data) as -> by congruence.
        guard (userId data = Some uid) as Hu; [congruence|]. simpl.
        do 2 eexists. split; [reflexivity|]. simpl.
        repeat split; try reflexivity; intros; congruence.
      * rewrite (Hnone key eq_refl Hsome).
        do 2 eexists. split; [reflexivity|]. simpl.
        repeat split; try reflexivity; intros; congruence.
    + destruct (truthy id) eqn:Hid.
      * destruct (Hpath eq_refl eq_refl) as [b' (Hrun & Hp & Hr)]. rewrite Hrun.
        do 2 eexists. split; [reflexivity|]. rewrite Hp.
        repeat split; try reflexivity; try assumption; intros; congruence.
      * rewrite (Hblank eq_refl).
        do 2 eexists. split; [reflexivity|].
        repeat split; try reflexivity; intros; congruence.
  - unfold deleteInvoiceV2. rewrite Hauth.
    do 2 eexists. split; [reflexivity|].
    repeat split; try reflexivity; intros; congruence.
Qed.

Lemma delete_needs_the_owner_witness :
  exists err b',
    deleteInvoiceV2 (answering []) removing {| auth := Some "bob"; invoiceId := Some "inv-1" |}
      (untouched (onlyInvoice finalizedInvoice))
    = (Throw err, b')
    /\ docs (platform b') = docs (onlyInvoice finalizedInvoice)
    /\ removals b' = []
    /\ err = HttpsError permission_denied "Not allowed.".
Proof.
  destruct (delete_needs_the_owner (answering []) removing
              {| auth := Some "bob"; invoiceId := Some "inv-1" |}
              (untouched (onlyInvoice finalizedInvoice)))
    as [err [b' (Hrun & Hdocs & Hrem & _ & _ & _ & _ & Hcode)]].
  - right. right. right. exists "inv-1", finalizedInvoice.
    split; [reflexivity|]. split; [vm_compute; reflexivity|].
    simpl. discriminate.
  - exists err, b'. split; [exact Hrun|]. split; [exact Hdocs|].
    split; [exact Hrem|]. apply (Hcode "inv-1").
    + simpl. discriminate.
    + reflexivity.
    + vm_compute. discriminate.
Defined.

(** A delete request for the path [a/b] is rejected by the library. *)
Example delete_of_a_path_that_is_no_document :
  deleteInvoiceV2 (answering []) removing {| auth := Some "alice"; invoiceId := Some "a/b" |}
    (untouched (onlyInvoice reviewedInvoice))
  = (Throw (Error "Error" "Not a document path: a/b"),
     untouched (onlyInvoice reviewedInvoice)).
Proof. vm_compute. reflexivity. Qed.

(** X16: a delete request of the owner first asks object storage to remove
    the file, when the record has a storage path, and then removes the
    record, whatever its status; if the removal of the file fails the
    request throws that failure and the record is kept.  Other records are
    never touched. *)
Theorem delete_removes_the_file_then_the_record
        (sv : Services) (removeFile : string -> Thrown + unit)
        (request : CallableRequest) (b : Backend) (uid id : string) (data : InvoiceRecord) :
  truthyText (auth request) = Some uid ->
  documentKey (trim (default "" (invoiceId request))) = Some id ->
  docs (platform b) !! id = Some data ->
  userId data = Some uid ->
  exists result b',
    deleteInvoiceV2 sv removeFile request b = (result, b')
    /\ (forall other, other <> id ->
          docs (platform b') !! other = docs (platform b) !! other)
    /\ (truthyText (storagePath data) = None ->
        result = Ok {| ok := true |}
        /\ docs (platform b') !! id = None
        /\ removals b' = DocRemoved id :: removals b)
    /\ (forall path, truthyText (storagePath data) = Some path ->
          (removeFile path = inr tt ->
           result = Ok {| ok := true |}
           /\ docs (platform b') !! id = None
           /\ removals b' = DocRemoved id :: FileRemoved path :: removals b)
          /\ (forall err, removeFile path = inl err ->
                result = Throw err
                /\ docs (platform b') !! id = Some data
                /\ removals b' = FileRemoved path :: removals b)).
Proof.
  intros Hauth Hkey Hsome Howner.
  rewrite (delete_of_stored_record sv removeFile request b uid id data Hauth Hkey Hsome).
  guard (userId data = Some uid) as Hu; [|contradiction]. simpl.
  unfold mbind, D_bind, fileDelete, docDelete, mret, D_ret.
  destruct (truthyText (storagePath data)) as [path|] eqn:Hpath.
  - destruct (removeFile path) as [err|[]] eqn:Hremove; simpl.
    + do 2 eexists. split; [reflexivity|]. simpl. split; [reflexivity|].
      split; [discriminate|]. intros path' [= <-]. rewrite Hremove.
      split; [discriminate|]. intros err' [= <-]. auto.
    + do 2 eexists. split; [reflexivity|]. simpl.
      split; [intros other Hne; apply lookup_delete_ne; congruence|].
      split; [discriminate|]. intros path' [= <-]. rewrite Hremove.
      split; [|discriminate]. intros _. split; [reflexivity|].
      split; [apply lookup_delete_eq|reflexivity].
  - simpl. do 2 eexists. split; [reflexivity|]. simpl.
    split; [intros other Hne; apply lookup_delete_ne; congruence|].
    split; [|discriminate]. intros _. split; [reflexivity|].
    split; [apply lookup_delete_eq|reflexivity].
Qed.

Lemma delete_removes_the_file_then_the_record_witness :
  exists result b',
    deleteInvoiceV2 (answering []) refusing {| auth := Some "alice"; invoiceId := Some "inv-1" |}
      (untouched (onlyInvoice finalizedInvoice))
    = (result, b')
    /\ result = Throw (Error "ApiError" "storage.objects.delete denied")
    /\ docs (platform b') !! "inv-1" = Some finalizedInvoice.
Proof.
  assert (Hr : docs (onlyInvoice finalizedInvoice) !! "inv-1" = Some finalizedInvoice)
    by (vm_compute; reflexivity).
  destruct (delete_removes_the_file_then_the_record (answering []) refusing
              {| auth := Some "alice"; invoiceId := Some "inv-1" |}
              (untouched (onlyInvoice finalizedInvoice)) "alice" "inv-1" finalizedInvoice
              eq_refl eq_refl Hr eq_refl)
    as [result [b' (Hrun & _ & _ & Hpath)]].
  exists result, b'. split; [exact Hrun|].
  destruct (Hpath "invoices/alice/1_a.pdf" eq_refl) as [_ Hfail].
  destruct (Hfail (Error "ApiError" "storage.objects.delete denied") eq_refl) as (H1 & H2 & _).
  auto.
Defined.

(** X17: once the owner's delete request has succeeded, the invoice is gone
    for the other operations: a reprocess request for it fails with
    NotFound, and so does a second delete request. *)
Theorem deleted_invoice_is_not_found (sv : Services) (removeFile : string -> Thrown + unit)
        (request : CallableRequest) (b b' : Backend) :
  deleteInvoiceV2 sv removeFile request b = (Ok {| ok := true |}, b') ->
  exists key,
    documentKey (trim (default "" (invoiceId request))) = Some key
    /\ reprocessInvoiceV2 sv request (platform b')
       = (Throw (HttpsError not_found "Invoice not found."),
          {| docs := docs (platform b'); log := DocGet key :: log (platform b') |})
    /\ (exists b'', deleteInvoiceV2 sv removeFile request b'
                    = (Throw (HttpsError not_found "Invoice not found."), b'')
                    /\ docs (platform b'') = docs (platform b')
                    /\ removals b'' = removals b').
Proof.
  intros Hdone. set (id := trim (default "" (invoiceId request))) in *.
  destruct (truthyText (auth request)) as [uid|] eqn:Hauth;
    [|unfold deleteInvoiceV2 in Hdone; rewrite Hauth in Hdone; discriminate].
  destruct (delete_without_record sv removeFile request b uid Hauth)
    as (Hblank & Hpath & Hnone).
  fold id in Hblank, Hpath, Hnone.
  destruct (documentKey id) as [key|] eqn:Hkey.
  2:{ exfalso. destruct (truthy id) eqn:Hid.
      - destruct (Hpath eq_refl eq_refl) as [b0 (Hrun & _)]. congruence.
      - rewrite (Hblank eq_refl) in Hdone. discriminate. }
  exists key. split; [reflexivity|].
  assert (Hgone : docs (platform b') !! key = None).
  { destruct (docs (platform b) !! key) as [data|] eqn:Hsome.
    - rewrite (delete_of_stored_record sv removeFile request b uid key data Hauth Hkey Hsome)
        in Hdone.
      destruct (negb (bool_decide (userId data = Some uid))); [discriminate|].
      unfold mbind, D_bind, fileDelete, docDelete, mret, D_ret in Hdone.
      destruct (truthyText (storagePath data)) as [path|].
      + destruct (removeFile path) as [err|[]]; [discriminate|].
        injection Hdone as <-. simpl. apply lookup_delete_eq.
      + injection Hdone as <-. simpl. apply lookup_delete_eq.
    - rewrite (Hnone key eq_refl Hsome) in Hdone. discriminate. }
  split.
  - destruct (reprocess_without_record sv request (platform b') uid Hauth) as (_ & _ & Hr).
    apply Hr; assumption.
  - destruct (delete_without_record sv removeFile request b' uid Hauth) as (_ & _ & Hd).
    fold id in Hd. rewrite (Hd key Hkey Hgone). eexists. split; [reflexivity|]. auto.
Qed.

Lemma deleted_invoice_is_not_found_witness :
  reprocessInvoiceV2 (answering sampleEntities)
    {| auth := Some "alice"; invoiceId := Some "inv-1" |}
    (platform (snd (deleteInvoiceV2 (answering sampleEntities) removing
                      {| auth := Some "alice"; invoiceId := Some "inv-1" |}
                      (untouched (onlyInvoice reviewedInvoice)))))
  = (Throw (HttpsError not_found "Invoice not found."),
     {| docs := ∅; log := [DocGet "inv-1"; DocGet "inv-1"] |}).
Proof.
  destruct (deleted_invoice_is_not_found (answering sampleEntities) removing
              {| auth := Some "alice"; invoiceId := Some "inv-1" |}
              (untouched (onlyInvoice reviewedInvoice))
              (snd (deleteInvoiceV2 (answering sampleEntities) removing
                      {| auth := Some "alice"; invoiceId := Some "inv-1" |}
                      (untouched (onlyInvoice reviewedInvoice)))))
    as [key [Hkey [Hreprocess _]]].
  - vm_compute. reflexivity.
  - rewrite Hreprocess. vm_compute in Hkey. injection Hkey as <-.
    vm_compute. reflexivity.
Defined.

(** ** Saving from the review page *)

(** The outcomes of [save]: it returns without a write, it throws before
    the write, or it is the update of the document of the page. *)
Lemma save_cases (sv : Services) (page : ReviewPage) (status : SaveStatus) (p : Platform) :
  save sv page status p = (Ok tt, p)
  \/ (exists err, save sv page status p = (Throw err, p))
  \/ (exists key issued due,
        documentKey (pageInvoiceId page) = Some key
        /\ dateInputToTimestamp sv (invoiceDateInput page) = Ok issued
        /\ dateInputToTimestamp sv (dueDateInput page) = Ok due
        /\ save sv page status p = docUpdate sv Web key (saved page status issued due) p).
Proof.
  unfold save.
  destruct (negb (canEdit page) || negb (truthy (pageInvoiceId page))); [left; reflexivity|].
  destruct (isFinalized page); [left; reflexivity|]. right.
  unfold mbind, M_bind, doc, outcome.
  destruct (documentKey (pageInvoiceId page)) as [key|]; [|left; eexists; reflexivity].
  unfold mret at 1, M_ret at 1.
  destruct (dateInputToTimestamp sv (invoiceDateInput page)) as [issued|err];
    [|left; eexists; reflexivity].
  destruct (dateInputToTimestamp sv (dueDateInput page)) as [due|err];
    [|left; eexists; reflexivity].
  right. exists key, issued, due. auto.
Qed.

(** What [save] does once its guards pass. *)
Lemma save_of_open_record (sv : Services) (page : ReviewPage) (status : SaveStatus)
      (p : Platform) (key : string) :
  canEdit page = true ->
  isFinalized page = false ->
  documentKey (pageInvoiceId page) = Some key ->
  save sv page status p =
  match dateInputToTimestamp sv (invoiceDateInput page),
        dateInputToTimestamp sv (dueDateInput page) with
  | Ok issued, Ok due => docUpdate sv Web key (saved page status issued due) p
  | Throw err, _ => (Throw err, p)
  | Ok _, Throw err => (Throw err, p)
  end.
Proof.
  intros Hc Hf Hkey. unfold save.
  rewrite Hc, (documentKey_truthy _ _ Hkey), Hf. simpl.
  unfold mbind, M_bind, doc, outcome. rewrite Hkey.
  unfold mret at 1, M_ret at 1.
  destruct (dateInputToTimestamp sv (invoiceDateInput page)) as [issued|err]; [|reflexivity].
  destruct (dateInputToTimestamp sv (dueDateInput page)) as [due|err]; reflexivity.
Qed.

(** A [save] of the owner that returns has written the record. *)
Lemma save_returns (sv : Services) (page : ReviewPage) (status : SaveStatus)
      (p p' : Platform) :
  canEdit page = true ->
  truthy (pageInvoiceId page) = true ->
  isFinalized page = false ->
  save sv page status p = (Ok tt, p') ->
  exists key issued due r,
    documentKey (pageInvoiceId page) = Some key
    /\ dateInputToTimestamp sv (invoiceDateInput page) = Ok issued
    /\ dateInputToTimestamp sv (dueDateInput page) = Ok due
    /\ docs p !! key = Some r
    /\ p' = {| docs := <[key := saved page status issued due
                                   (ServerTimestamp (length (log p))) r]> (docs p);
               log := DocUpdate key :: log p |}.
Proof.
  intros Hc Hid Hf Hsave. unfold save in Hsave. rewrite Hc, Hid, Hf in Hsave.
  simpl in Hsave. unfold mbind, M_bind, doc, outcome in Hsave.
  destruct (documentKey (pageInvoiceId page)) as [key|]; [|discriminate].
  unfold mret at 1, M_ret at 1 in Hsave.
  destruct (dateInputToTimestamp sv (invoiceDateInput page)) as [issued|err]; [|discriminate].
  destruct (dateInputToTimestamp sv (dueDateInput page)) as [due|err]; [|discriminate].
  unfold docUpdate in Hsave.
  destruct (docs p !! key) as [r|] eqn:Hr; [|discriminate].
  exists key, issued, due, r. injection Hsave as <-. auto.
Qed.

Lemma numOrNull_finite (v : string) (x : float) :
  numOrNull v = Some x -> JsNumber.isFinite x = true.
Proof.
  unfold numOrNull. destruct (negb (truthy v)); [discriminate|].
  destruct (JsNumber.isFinite (JsConv.Number v)) eqn:Hfin; [|discriminate].
  intros [= <-]. exact Hfin.
Qed.

(** The conversion of a date input, by what the input holds. *)
Lemma dateInputToTimestamp_cases (sv : Services) (v : string) :
  let iso := v ++ "T00:00:00" in
  (truthy v = false -> dateInputToTimestamp sv v = Ok None)
  /\ (truthy v = true -> dateTime sv iso = None -> dateInputToTimestamp sv v = Ok None)
  /\ (forall time, truthy v = true -> dateTime sv iso = Some time ->
        (MIN_SECONDS <= time / 1000 <= MAX_SECONDS ->
         dateInputToTimestamp sv v = Ok (Some (LocalDateTime iso)))
        /\ (time / 1000 < MIN_SECONDS \/ MAX_SECONDS < time / 1000 ->
            dateInputToTimestamp sv v
            = Throw (Error "FirebaseError"
                       (libraryMessage sv Web (TimestampOutOfRange (Some (time / 1000))))))).
Proof.
  cbv zeta. unfold dateInputToTimestamp. split; [intros ->; reflexivity|].
  split; [intros -> ->; reflexivity|].
  intros time -> ->. simpl. unfold fromDate. split.
  - intros Hin.
    assert ((time / 1000 <? MIN_SECONDS) = false) as -> by lia.
    assert ((MAX_SECONDS <? time / 1000) = false) as -> by lia. reflexivity.
  - intros Hout.
    destruct (time / 1000 <? MIN_SECONDS) eqn:Hlo; [reflexivity|].
    assert ((MAX_SECONDS <? time / 1000) = true) as -> by lia. reflexivity.
Qed.

(** X18: whatever the page holds, [save] creates no document and removes
    none, leaves every document but the one that the id of the page names
    as it is, and in that one keeps the owner, the storage path, the
    content type, the skip mark, the creation and extraction times, the raw
    entities and the error message. *)
Theorem save_keeps_ownership_and_file (sv : Services) (page : ReviewPage)
        (status : SaveStatus) (p : Platform) :
  let p' := snd (save sv page status p) in
  (forall id, docs p !! id = None -> docs p' !! id = None)
  /\ (forall id r, docs p !! id = Some r ->
        exists r', docs p' !! id = Some r'
                   /\ userId r' = userId r
                   /\ storagePath r' = storagePath r
                   /\ contentType r' = contentType r
                   /\ skipProcessing r' = skipProcessing r
                   /\ createdAt r' = createdAt r
                   /\ extractedAt r' = extractedAt r
                   /\ rawEntities r' = rawEntities r
                   /\ errorMessage r' = errorMessage r
                   /\ (documentKey (pageInvoiceId page) <> Some id -> r' = r)).
Proof.
  intros p'. subst p'.
  destruct (save_cases sv page status p)
    as [-> |[[err ->]|[key [issued [due (Hkey & _ & _ & ->)]]]]].
  - split; [auto|]. intros id r Hr. exists r. repeat split; auto.
  - split; [auto|]. intros id r Hr. exists r. repeat split; auto.
  - unfold docUpdate. destruct (docs p !! key) as [r0|] eqn:Hr0; simpl.
    + split.
      * intros id Hnone. rewrite lookup_insert_ne; [exact Hnone|congruence].
      * intros id r Hr. destruct (decide (id = key)) as [->|Hne].
        -- rewrite lookup_insert_eq. eexists. split; [reflexivity|].
           assert (r0 = r) as -> by congruence. simpl.
           repeat split; try reflexivity. intros Hdiff. contradiction.
        -- rewrite lookup_insert_ne by congruence. exists r. repeat split; auto.
    + split; [auto|]. intros id r Hr. exists r. repeat split; auto.
Qed.

(** X19: when the owner saves a record that the page does not show as
    finalized, under an id that names a stored document, and the two date
    inputs convert, the stored record takes the status asked for, the time
    of the write as update time, the same time as finalization time when
    it is finalized and none otherwise, the converted dates and the line
    items of the page; a header text that is empty is stored as null, and
    every amount stored is a finite number or null.  When a date input
    does not convert (a date out of the range of the store) [save] throws
    the error of the library and writes nothing. *)
Theorem save_of_owner_writes_the_inputs (sv : Services) (page : ReviewPage)
        (asked : SaveStatus) (p : Platform) (key : string) (r : InvoiceRecord) :
  canEdit page = true ->
  isFinalized page = false ->
  documentKey (pageInvoiceId page) = Some key ->
  docs p !! key = Some r ->
  (forall issued due,
     dateInputToTimestamp sv (invoiceDateInput page) = Ok issued ->
     dateInputToTimestamp sv (dueDateInput page) = Ok due ->
     exists r',
       let now := ServerTimestamp (length (log p)) in
       save sv page asked p
       = (Ok tt, {| docs := <[key := r']> (docs p); log := DocUpdate key :: log p |})
       /\ status r' = Some (statusText asked)
       /\ updatedAt r' = Some now
       /\ finalizedAt r' = match asked with finalized => Some now | needs_review => None end
       /\ invoiceDate (fields r') = issued /\ dueDate (fields r') = due
       /\ lineItems (fields r') = lineItemsInput page
       /\ (supplierName (fields r') = None <-> supplierNameInput page = "")
       /\ (invoiceNumber (fields r') = None <-> invoiceNumberInput page = "")
       /\ (forall x, subtotal (fields r') = Some x \/ tax (fields r') = Some x
                     \/ total (fields r') = Some x -> JsNumber.isFinite x = true))
  /\ (forall err,
        dateInputToTimestamp sv (invoiceDateInput page) = Throw err
        \/ ((exists issued, dateInputToTimestamp sv (invoiceDateInput page) = Ok issued)
            /\ dateInputToTimestamp sv (dueDateInput page) = Throw err) ->
        save sv page asked p = (Throw err, p)).
Proof.
  intros Hc Hf Hkey Hr. rewrite (save_of_open_record sv page asked p key Hc Hf Hkey).
  split.
  - intros issued due -> ->. rewrite (docUpdate_existing _ _ _ _ p r Hr). eexists. cbv zeta.
    split; [reflexivity|]. simpl.
    split; [reflexivity|]. split; [reflexivity|].
    split; [destruct asked; reflexivity|].
    do 3 (split; [reflexivity|]).
    split; [|split].
    + destruct (supplierNameInput page); simpl; split; intros; congruence.
    + destruct (invoiceNumberInput page); simpl; split; intros; congruence.
    + intros x [H|[H|H]]; exact (numOrNull_finite _ x H).
  - intros err [-> |([issued ->] & ->)]; reflexivity.
Qed.

Lemma save_of_owner_writes_the_inputs_witness :
  exists r',
    save (answering []) openPage finalized (onlyInvoice reviewedInvoice)
    = (Ok tt, {| docs := <["inv-1" := r']> (docs (onlyInvoice reviewedInvoice));
                 log := [DocUpdate "inv-1"] |})
    /\ status r' = Some "finalized"
    /\ finalizedAt r' = Some (ServerTimestamp 0)
    /\ invoiceDate (fields r') = Some (LocalDateTime "2024-01-31T00:00:00").
Proof.
  assert (Hr : docs (onlyInvoice reviewedInvoice) !! "inv-1" = Some reviewedInvoice)
    by (vm_compute; reflexivity).
  destruct (save_of_owner_writes_the_inputs (answering []) openPage finalized
              (onlyInvoice reviewedInvoice) "inv-1" reviewedInvoice eq_refl eq_refl eq_refl Hr)
    as [Hwrite _].
  destruct (Hwrite (Some (LocalDateTime "2024-01-31T00:00:00")) None)
    as [r' (Hsave & Hstatus & _ & Hfinal & Hissued & _)];
    [vm_compute; reflexivity|vm_compute; reflexivity|].
  exists r'. auto.
Defined.

(** A date input of year 0 parses, but the store cannot hold it: [save]
    throws and the record is as before. *)
Example save_with_a_date_out_of_range :
  save (answering []) (setInvoiceDate "0000-01-01" openPage) needs_review
    (onlyInvoice reviewedInvoice)
  = (Throw (Error "FirebaseError" "Timestamp seconds out of range: -62167219200"),
     onlyInvoice reviewedInvoice).
Proof. vm_compute. reflexivity. Qed.

(** X20: finalizing from the page is one way: once a save of the owner
    that asks for "finalized" has returned, a reprocess request of the
    owner for the record fails with FailedPrecondition, and a page that
    shows the stored record saves nothing, whatever status it asks for. *)
Theorem finalizing_is_one_way (sv : Services) (page : ReviewPage) (p p' : Platform)
        (uid : string) (request : CallableRequest) :
  canEdit page = true ->
  truthy (pageInvoiceId page) = true ->
  isFinalized page = false ->
  save sv page finalized p = (Ok tt, p') ->
  exists key r',
    documentKey (pageInvoiceId page) = Some key
    /\ docs p' !! key = Some r'
    /\ status r' = Some "finalized"
    /\ (exists now, finalizedAt r' = Some now /\ updatedAt r' = Some now)
    /\ (truthyText (auth request) = Some uid -> userId r' = Some uid ->
        documentKey (trim (default "" (invoiceId request))) = Some key ->
        reprocessInvoiceV2 sv request p'
        = (Throw (HttpsError failed_precondition "Finalized invoices cannot be reprocessed."),
           {| docs := docs p'; log := DocGet key :: log p' |}))
    /\ (forall (page' : ReviewPage) (asked : SaveStatus),
          inv page' = docs p' !! key -> save sv page' asked p' = (Ok tt, p')).
Proof.
  intros Hc Hid Hf Hsave.
  destruct (save_returns sv page finalized p p' Hc Hid Hf Hsave)
    as [key [issued [due [r (Hkey & _ & _ & Hr & ->)]]]].
  eexists key, _. split; [exact Hkey|]. simpl.
  split; [apply lookup_insert_eq|]. simpl. split; [reflexivity|].
  split; [eexists; split; reflexivity|]. split.
  - intros Hauth Howner Hrequest.
    rewrite (reprocess_of_stored_record sv request _ uid key _ Hauth Hrequest
               (lookup_insert_eq _ _ _)).
    simpl in Howner. simpl.
    guard (userId r = Some uid) as Hu'; [|contradiction]. reflexivity.
  - intros page' asked Hinv. apply save_of_finalized.
    unfold isFinalized. rewrite Hinv. simpl. rewrite lookup_insert_eq. reflexivity.
Qed.

Lemma finalizing_is_one_way_witness :
  reprocessInvoiceV2 (answering sampleEntities)
    {| auth := Some "alice"; invoiceId := Some " inv-1 " |}
    (snd (save (answering sampleEntities) openPage finalized (onlyInvoice reviewedInvoice)))
  = (Throw (HttpsError failed_precondition "Finalized invoices cannot be reprocessed."),
     {| docs := docs (snd (save (answering sampleEntities) openPage finalized
                             (onlyInvoice reviewedInvoice)));
        log := [DocGet "inv-1"; DocUpdate "inv-1"] |}).
Proof.
  destruct (finalizing_is_one_way (answering sampleEntities) openPage
              (onlyInvoice reviewedInvoice)
              (snd (save (answering sampleEntities) openPage finalized
                      (onlyInvoice reviewedInvoice)))
              "alice" {| auth := Some "alice"; invoiceId := Some " inv-1 " |}
              eq_refl eq_refl eq_refl)
    as [key [r' (Hkey & Hr' & _ & _ & Hreprocess & _)]].
  - vm_compute. reflexivity.
  - vm_compute in Hkey. injection Hkey as <-.
    rewrite Hreprocess; [reflexivity|reflexivity| |reflexivity].
    vm_compute in Hr'. injection Hr' as <-. reflexivity.
Defined.

(** X21: an amount input that holds white space only is not empty, so it is
    read as a number: [numOrNull] gives 0 for it, not null, and so does the
    number input of a line item. *)
Theorem blank_amount_is_zero (v : string) :
  truthy v = true -> blank v = true ->
  numOrNull v = Some 0%float /\ typedNumber v = Some 0%float.
Proof.
  intros Hv Hb. unfold numOrNull, typedNumber, JsConv.Number.
  rewrite Hv, (trim_blank v Hb). split; reflexivity.
Qed.

Lemma blank_amount_is_zero_witness : numOrNull "  " = Some 0%float.
Proof. apply (blank_amount_is_zero "  "); reflexivity. Defined.

(** ** Editing the line items *)

Lemma filterFrom_all_but_one {A : Type} (t : nat) (l : list A) (from : nat) :
  JsArray.filterFrom (fun _ idx => negb (Nat.eqb idx t)) from l
  = if Nat.ltb t from then l
    else (take (t - from) l ++ drop (S (t - from)) l)%list.
Proof.
  revert from. induction l as [|x l IH]; intros from.
  - simpl. destruct (Nat.ltb t from); [reflexivity|].
    destruct (t - from)%nat; reflexivity.
  - simpl. rewrite IH.
    destruct (Nat.eqb from t) eqn:Heq; simpl.
    + apply Nat.eqb_eq in Heq. subst t.
      assert (Nat.ltb from (S from) = true) as -> by (apply Nat.ltb_lt; lia).
      assert (Nat.ltb from from = false) as -> by (apply Nat.ltb_ge; lia).
      rewrite Nat.sub_diag. reflexivity.
    + apply Nat.eqb_neq in Heq.
      destruct (Nat.ltb t from) eqn:Hlt.
      * apply Nat.ltb_lt in Hlt.
        assert (Nat.ltb t (S from) = true) as -> by (apply Nat.ltb_lt; lia). reflexivity.
      * apply Nat.ltb_ge in Hlt.
        assert (Nat.ltb t (S from) = false) as -> by (apply Nat.ltb_ge; lia).
        replace (t - from)%nat with (S (t - S from)) by lia. reflexivity.
Qed.

Lemma filter_all_but_one {A : Type} (i : nat) (l : list A) :
  JsArray.filter (fun _ idx => negb (Nat.eqb idx i)) l = (take i l ++ drop (S i) l)%list.
Proof.
  unfold JsArray.filter. rewrite filterFrom_all_but_one. simpl.
  rewrite Nat.sub_0_r. reflexivity.
Qed.

Lemma readOnly_onPage_items (next : list LineItem -> list LineItem) (k : string) (e : Editor) :
  readOnly (onPage (setLineItems next) (markDirty k e)) = readOnly e.
Proof. reflexivity. Qed.

(** X22: [updateLineItem] on a page that is not locked changes the item at
    the index given and no other: the list keeps its length, the item at
    that index takes the fields that the patch names and keeps its other
    fields, every other item is as before, and an index past the end
    changes nothing.  The line items are marked as edited. *)
Theorem updateLineItem_changes_one_item (i : nat) (patch : LineItemPatch) (e : Editor) :
  let items := lineItemsInput (shown e) in
  let e' := updateLineItem i patch e in
  let items' := lineItemsInput (shown e') in
  readOnly e = false ->
  length items' = length items
  /\ items' !! i = (fun x => patched x patch) <$> items !! i
  /\ (forall j, j <> i -> items' !! j = items !! j)
  /\ ((length items <= i)%nat -> items' = items)
  /\ "lineItems" ∈ dirty e'.
Proof.
  intros items e' items' Hro. subst e' items'. unfold updateLineItem. rewrite Hro.
  simpl. fold items. unfold JsArray.map.
  assert (Hi : forall j, imap (fun idx x => if Nat.eqb idx i then patched x patch else x) items !! j
                         = (fun x => if Nat.eqb j i then patched x patch else x) <$> items !! j)
    by (intros j; apply list_lookup_imap).
  split; [apply length_imap|]. split; [|split; [|split]].
  - rewrite Hi, Nat.eqb_refl. reflexivity.
  - intros j Hne. rewrite Hi. apply Nat.eqb_neq in Hne. rewrite Hne.
    destruct (items !! j); reflexivity.
  - intros Hlen. apply list_eq. intros j. rewrite Hi.
    destruct (items !! j) as [x|] eqn:Hx; [|reflexivity]. simpl.
    apply lookup_lt_Some in Hx.
    assert (Nat.eqb j i = false) as -> by (apply Nat.eqb_neq; lia). reflexivity.
  - set_solver.
Qed.

Lemma updateLineItem_changes_one_item_witness :
  lineItemsInput (shown (onDescriptionChange 0 "Widget B" widgetEditor)) !! 0%nat
  = Some {| description := Some "Widget B"; quantity := quantity specifiedWidgetItem;
            unitPrice := unitPrice specifiedWidgetItem; amount := amount specifiedWidgetItem |}.
Proof.
  destruct (updateLineItem_changes_one_item 0
              {| descriptionPatch := Some (Some "Widget B"); quantityPatch := None;
                 unitPricePatch := None; amountPatch := None |}
              widgetEditor eq_refl)
    as (_ & Hitem & _).
  exact Hitem.
Defined.

(** X23: [removeLineItem] on a page that is not locked drops the item at
    the index given and keeps the others in order: the items before it
    stay where they are and the items after it move up by one; an index
    past the end removes nothing. *)
Theorem removeLineItem_drops_one_item (i : nat) (e : Editor) :
  let items := lineItemsInput (shown e) in
  let items' := lineItemsInput (shown (removeLineItem i e)) in
  readOnly e = false ->
  items' = (take i items ++ drop (S i) items)%list
  /\ (forall j, (j < i)%nat -> items' !! j = items !! j)
  /\ (forall j, (i <= j)%nat -> items' !! j = items !! S j)
  /\ ((i < length items)%nat -> S (length items') = length items)
  /\ ((length items <= i)%nat -> items' = items).
Proof.
  intros items items' Hro. subst items'. unfold removeLineItem. rewrite Hro.
  simpl. fold items. rewrite filter_all_but_one.
  split; [reflexivity|]. split; [|split; [|split]].
  - intros j Hj. destruct (decide (i <= length items)%nat) as [Hle|Hgt].
    + rewrite lookup_app_l by (rewrite length_take; lia). apply lookup_take_lt. exact Hj.
    + rewrite take_ge, drop_ge, app_nil_r by lia. reflexivity.
  - intros j Hj. destruct (decide (i <= length items)%nat) as [Hle|Hgt].
    + rewrite lookup_app_r by (rewrite length_take; lia).
      rewrite length_take, lookup_drop. f_equal. lia.
    + rewrite take_ge, drop_ge, app_nil_r by lia.
      rewrite !lookup_ge_None_2 by lia. reflexivity.
  - intros Hlt. rewrite length_app, length_take, length_drop. lia.
  - intros Hge. rewrite take_ge, drop_ge, app_nil_r by lia. reflexivity.
Qed.

Lemma removeLineItem_drops_one_item_witness :
  lineItemsInput (shown (removeLineItem 0 widgetEditor)) = [].
Proof.
  destruct (removeLineItem_drops_one_item 0 widgetEditor eq_refl) as [Hitems _].
  exact Hitems.
Defined.

(** X24: [addLineItem] on a page that is not locked appends one item with an
    empty description and no numbers, and removing the item at the last
    index afterwards gives the list of before. *)
Theorem added_line_item_is_last (e : Editor) :
  let items := lineItemsInput (shown e) in
  let e' := addLineItem e in
  readOnly e = false ->
  lineItemsInput (shown e')
  = (items ++ [{| description := Some ""; quantity := None;
                  unitPrice := None; amount := None |}])%list
  /\ lineItemsInput (shown (removeLineItem (length items) e')) = items.
Proof.
  intros items e' Hro. subst e'. unfold addLineItem. rewrite Hro.
  split; [reflexivity|].
  unfold removeLineItem. rewrite readOnly_onPage_items, Hro. simpl. fold items.
  rewrite filter_all_but_one.
  rewrite take_app_length, drop_app_ge by lia.
  replace (S (length items) - length items)%nat with 1%nat by lia.
  simpl. apply app_nil_r.
Qed.

Lemma added_line_item_is_last_witness :
  lineItemsInput (shown (removeLineItem 1 (addLineItem widgetEditor)))
  = [specifiedWidgetItem].
Proof.
  destruct (added_line_item_is_last widgetEditor eq_refl) as [_ Hback].
  exact Hback.
Defined.

(** X25: the three operations on line items touch nothing else: the user,
    the invoice id, the record shown, the header inputs and the two flags
    are as before, the only field that can become marked as edited is the
    line items, and on a locked page (finalized record, or a save or a
    deletion under way) the editor is unchanged. *)
Theorem line_item_operations_touch_line_items_only
        (i : nat) (patch : LineItemPatch) (e : Editor) :
  forall e', e' = updateLineItem i patch e \/ e' = removeLineItem i e \/ e' = addLineItem e ->
    setLineItems (fun _ => lineItemsInput (shown e)) (shown e') = shown e
    /\ saving e' = saving e /\ deleting e' = deleting e
    /\ readOnly e' = readOnly e
    /\ (forall k, k ∈ dirty e' -> k = "lineItems" \/ k ∈ dirty e)
    /\ (readOnly e = true -> e' = e).
Proof.
  intros e' He'.
  assert (Hshown : setLineItems (fun _ => lineItemsInput (shown e)) (shown e) = shown e)
    by (destruct e as [[] ? ? ?]; reflexivity).
  unfold updateLineItem, removeLineItem, addLineItem in He'.
  destruct (readOnly e) eqn:Hro.
  - assert (e' = e) as -> by (destruct He' as [->|[->| ->]]; reflexivity).
    rewrite Hro. repeat split; auto.
  - destruct He' as [->|[->| ->]]; rewrite readOnly_onPage_items, Hro; simpl;
      (split; [destruct e as [[] ? ? ?]; reflexivity|]);
      (split; [reflexivity|]); (split; [reflexivity|]); (split; [reflexivity|]);
      (split; [|discriminate]); intros k Hk; set_solver.
Qed.

Lemma line_item_operations_touch_line_items_only_witness :
  setLineItems (fun _ => [specifiedWidgetItem]) (shown (addLineItem widgetEditor))
  = shown widgetEditor.
Proof.
  destruct (line_item_operations_touch_line_items_only 0
              {| descriptionPatch := None; quantityPatch := None;
                 unitPricePatch := None; amountPatch := None |}
              widgetEditor (addLineItem widgetEditor)) as [Hshown _].
  - right. right. reflexivity.
  - exact Hshown.
Defined.

(** X26: the numbers of a line item are not validated the way the header
    amounts are: for a text that is not empty and does not read as a finite
    number, [numOrNull] gives null, but the quantity input of a line item
    stores what [Number] gives for it, and a [save] of the owner whose id
    names a stored document and whose date inputs convert then writes that
    item as it is. *)
Theorem line_item_number_is_not_validated (sv : Services) (i : nat) (v : string)
        (e : Editor) (x : LineItem) (asked : SaveStatus) (p : Platform)
        (key : string) (r : InvoiceRecord) (issued due : option Timestamp) :
  let e' := onQuantityChange i v e in
  truthy v = true ->
  JsNumber.isFinite (JsConv.Number v) = false ->
  readOnly e = false ->
  lineItemsInput (shown e) !! i = Some x ->
  canEdit (shown e) = true ->
  documentKey (pageInvoiceId (shown e)) = Some key ->
  docs p !! key = Some r ->
  dateInputToTimestamp sv (invoiceDateInput (shown e)) = Ok issued ->
  dateInputToTimestamp sv (dueDateInput (shown e)) = Ok due ->
  numOrNull v = None
  /\ exists r',
       save sv (shown e') asked p
       = (Ok tt, {| docs := <[key := r']> (docs p); log := DocUpdate key :: log p |})
       /\ lineItems (fields r') !! i
          = Some {| description := description x; quantity := Some (JsConv.Number v);
                    unitPrice := unitPrice x; amount := amount x |}.
Proof.
  intros e' Hv Hfin Hro Hx Hc Hkey Hr Hissued Hdue.
  split; [unfold numOrNull; rewrite Hv, Hfin; reflexivity|].
  assert (Hfinal : isFinalized (shown e) = false).
  { unfold readOnly in Hro. destruct (isFinalized (shown e)); [discriminate|reflexivity]. }
  assert (Hshown : shown e'
                   = setLineItems (JsArray.map (fun y idx =>
                                     if Nat.eqb idx i
                                     then patched y {| descriptionPatch := None;
                                                       quantityPatch := Some (typedNumber v);
                                                       unitPricePatch := None;
                                                       amountPatch := None |}
                                     else y)) (shown e)).
  { subst e'. unfold onQuantityChange, updateLineItem. rewrite Hro. reflexivity. }
  rewrite Hshown.
  rewrite (save_of_open_record sv _ asked p key) by assumption.
  simpl invoiceDateInput. simpl dueDateInput. rewrite Hissued, Hdue.
  rewrite (docUpdate_existing _ _ _ _ p r Hr). eexists. split; [reflexivity|].
  simpl. unfold JsArray.map. rewrite list_lookup_imap, Hx. simpl.
  rewrite Nat.eqb_refl. unfold patched, typedNumber. rewrite Hv. reflexivity.
Qed.

Lemma line_item_number_is_not_validated_witness :
  numOrNull "two" = None
  /\ exists r',
       save (answering []) (shown (onQuantityChange 0 "two" widgetEditor)) needs_review
         (onlyInvoice reviewedInvoice)
       = (Ok tt, {| docs := <["inv-1" := r']> (docs (onlyInvoice reviewedInvoice));
                    log := [DocUpdate "inv-1"] |})
       /\ (lineItems (fields r') !! 0%nat) ≫= quantity = Some PrimFloat.nan.
Proof.
  assert (Hr : docs (onlyInvoice reviewedInvoice) !! "inv-1" = Some reviewedInvoice)
    by (vm_compute; reflexivity).
  assert (Hx : lineItemsInput (shown widgetEditor) !! 0%nat = Some specifiedWidgetItem)
    by reflexivity.
  assert (Hissued : dateInputToTimestamp (answering []) (invoiceDateInput (shown widgetEditor))
                    = Ok (Some (LocalDateTime "2024-01-31T00:00:00")))
    by (vm_compute; reflexivity).
  assert (Hdue : dateInputToTimestamp (answering []) (dueDateInput (shown widgetEditor))
                 = Ok None) by (vm_compute; reflexivity).
  destruct (line_item_number_is_not_validated (answering []) 0 "two" widgetEditor
              specifiedWidgetItem needs_review (onlyInvoice reviewedInvoice) "inv-1"
              reviewedInvoice _ _
              eq_refl eq_refl eq_refl Hx eq_refl eq_refl Hr Hissued Hdue)
    as [Hnull [r' [Hsave Hitem]]].
  split; [exact Hnull|]. exists r'. split; [exact Hsave|].
  rewrite Hitem. reflexivity.
Defined.

(** ** Snapshots of the record on the review page *)

Section SnapshotProperties.

Context (localDate : Timestamp -> string) (numberToString : float -> string).

Lemma dirty_unlessDirty (k : string) (set : ReviewPage -> ReviewPage) (e : Editor) :
  dirty (unlessDirty k set e) = dirty e.
Proof. unfold unlessDirty. destruct (bool_decide (k ∈ dirty e)); reflexivity. Qed.

Lemma saving_unlessDirty (k : string) (set : ReviewPage -> ReviewPage) (e : Editor) :
  saving (unlessDirty k set e) = saving e.
Proof. unfold unlessDirty. destruct (bool_decide (k ∈ dirty e)); reflexivity. Qed.

Lemma deleting_unlessDirty (k : string) (set : ReviewPage -> ReviewPage) (e : Editor) :
  deleting (unlessDirty k set e) = deleting e.
Proof. unfold unlessDirty. destruct (bool_decide (k ∈ dirty e)); reflexivity. Qed.

(** A step of the listener for another field keeps what [get] reads. *)
Lemma unlessDirty_other {A : Type} (get : ReviewPage -> A) (k : string)
      (set : ReviewPage -> ReviewPage) (e : Editor) :
  (forall pg, get (set pg) = get pg) ->
  get (shown (unlessDirty k set e)) = get (shown e).
Proof.
  intros Hset. unfold unlessDirty. destruct (bool_decide (k ∈ dirty e)); [reflexivity|].
  simpl. apply Hset.
Qed.

(** The step of the listener for the field that [get] reads. *)
Lemma unlessDirty_self {A : Type} (get : ReviewPage -> A) (k : string)
      (set : ReviewPage -> ReviewPage) (e : Editor) :
  get (shown (unlessDirty k set e))
  = if bool_decide (k ∈ dirty e) then get (shown e) else get (set (shown e)).
Proof. unfold unlessDirty. destruct (bool_decide (k ∈ dirty e)); reflexivity. Qed.

Lemma dirty_onSnapshot (data : option InvoiceRecord) (e : Editor) :
  dirty (onSnapshot localDate numberToString data e) = dirty e.
Proof.
  destruct data as [data|]; [|reflexivity]. unfold onSnapshot. cbv zeta.
  rewrite !dirty_unlessDirty. reflexivity.
Qed.

(** What a snapshot gives to a header input. *)
Lemma inputOf_onSnapshot (f : HeaderInput) (data : InvoiceRecord) (e : Editor) :
  inputOf f (shown (onSnapshot localDate numberToString (Some data) e))
  = if bool_decide (key f ∈ dirty e) then inputOf f (shown e)
    else extracted localDate numberToString f data.
Proof.
  unfold onSnapshot. cbv zeta.
  destruct f;
    repeat (rewrite unlessDirty_other by (intros pg; reflexivity));
    rewrite unlessDirty_self, ?dirty_unlessDirty;
    cbn [dirty onPage key];
    (destruct (bool_decide (_ ∈ dirty e)); [|reflexivity]);
    repeat (rewrite unlessDirty_other by (intros pg; reflexivity));
    reflexivity.
Qed.

(** What a snapshot gives to the line items. *)
Lemma lineItems_onSnapshot (data : InvoiceRecord) (e : Editor) :
  lineItemsInput (shown (onSnapshot localDate numberToString (Some data) e))
  = if bool_decide ("lineItems" ∈ dirty e) then lineItemsInput (shown e)
    else lineItems (fields data).
Proof.
  unfold onSnapshot. cbv zeta.
  rewrite unlessDirty_self, !dirty_unlessDirty. cbn [dirty onPage].
  destruct (bool_decide (_ ∈ dirty e)); [|reflexivity].
  repeat (rewrite unlessDirty_other by (intros pg; reflexivity)).
  reflexivity.
Qed.

Lemma dirty_onSnapshots (snaps : list (option InvoiceRecord)) (e : Editor) :
  dirty (onSnapshots localDate numberToString snaps e) = dirty e.
Proof.
  revert e. induction snaps as [|data snaps IH]; intros e; [reflexivity|].
  simpl. rewrite IH. apply dirty_onSnapshot.
Qed.

Lemma inputOf_onSnapshots (f : HeaderInput) (snaps : list (option InvoiceRecord)) (e : Editor) :
  key f ∈ dirty e -> inputOf f (shown (onSnapshots localDate numberToString snaps e)) = inputOf f (shown e).
Proof.
  revert e. induction snaps as [|data snaps IH]; intros e Hk; [reflexivity|].
  simpl. rewrite IH by (rewrite dirty_onSnapshot; exact Hk).
  destruct data as [data|]; [|reflexivity].
  rewrite inputOf_onSnapshot. rewrite bool_decide_eq_true_2 by exact Hk. reflexivity.
Qed.

Lemma lineItems_onSnapshots (snaps : list (option InvoiceRecord)) (e : Editor) :
  "lineItems" ∈ dirty e ->
  lineItemsInput (shown (onSnapshots localDate numberToString snaps e)) = lineItemsInput (shown e).
Proof.
  revert e. induction snaps as [|data snaps IH]; intros e Hk; [reflexivity|].
  simpl. rewrite IH by (rewrite dirty_onSnapshot; exact Hk).
  destruct data as [data|]; [|reflexivity].
  rewrite lineItems_onSnapshot. rewrite bool_decide_eq_true_2 by exact Hk. reflexivity.
Qed.

End SnapshotProperties.

(** X27: a snapshot of the record replaces the record shown, and gives
    every header input and the line items the value of the record, except
    those the user has edited, which keep what the page holds; it leaves
    the set of edited fields, the user and the invoice id as they are, and
    the snapshot of a document that does not exist changes nothing. *)
Theorem untouched_inputs_follow_the_record
        (localDate : Timestamp -> string) (numberToString : float -> string)
        (data : InvoiceRecord) (e : Editor) :
  let e' := onSnapshot localDate numberToString (Some data) e in
  inv (shown e') = Some data
  /\ user (shown e') = user (shown e)
  /\ pageInvoiceId (shown e') = pageInvoiceId (shown e)
  /\ dirty e' = dirty e
  /\ (forall f, key f ∉ dirty e ->
        inputOf f (shown e') = extracted localDate numberToString f data)
  /\ (forall f, key f ∈ dirty e -> inputOf f (shown e') = inputOf f (shown e))
  /\ ("lineItems" ∉ dirty e -> lineItemsInput (shown e') = lineItems (fields data))
  /\ ("lineItems" ∈ dirty e -> lineItemsInput (shown e') = lineItemsInput (shown e))
  /\ onSnapshot localDate numberToString None e = e.
Proof.
  intros e'. subst e'.
  split; [|split; [|split; [|split; [|split; [|split; [|split; [|split]]]]]]].
  - unfold onSnapshot. cbv zeta.
    repeat (rewrite unlessDirty_other by (intros pg; reflexivity)). reflexivity.
  - unfold onSnapshot. cbv zeta.
    repeat (rewrite unlessDirty_other by (intros pg; reflexivity)). reflexivity.
  - unfold onSnapshot. cbv zeta.
    repeat (rewrite unlessDirty_other by (intros pg; reflexivity)). reflexivity.
  - apply dirty_onSnapshot.
  - intros f Hf. rewrite inputOf_onSnapshot, bool_decide_eq_false_2 by exact Hf. reflexivity.
  - intros f Hf. rewrite inputOf_onSnapshot, bool_decide_eq_true_2 by exact Hf. reflexivity.
  - intros Hk. rewrite lineItems_onSnapshot, bool_decide_eq_false_2 by exact Hk. reflexivity.
  - intros Hk. rewrite lineItems_onSnapshot, bool_decide_eq_true_2 by exact Hk. reflexivity.
  - reflexivity.
Qed.

Lemma onChange_sets (f : HeaderInput) (v : string) (e : Editor) :
  inputOf f (shown (onChange f v e)) = v /\ key f ∈ dirty (onChange f v e).
Proof. split; [destruct f; reflexivity|]. unfold onChange, markDirty. simpl. set_solver. Qed.

(** X28: what the user has edited is not lost to the snapshots that arrive
    later, however many: a header input keeps the text typed into it, the
    line items stay as the last operation on them left them, and when the
    user then saves from a page that may write and the save returns, the
    record stored under the document that the id of the page names has
    those line items. *)
Theorem edits_survive_later_snapshots
        (sv : Services) (localDate : Timestamp -> string) (numberToString : float -> string)
        (snaps : list (option InvoiceRecord)) (e : Editor) :
  let later := onSnapshots localDate numberToString snaps in
  (forall f v, inputOf f (shown (later (onChange f v e))) = v)
  /\ (forall e',
        readOnly e = false ->
        (exists i patch, e' = updateLineItem i patch e)
        \/ (exists i, e' = removeLineItem i e) \/ e' = addLineItem e ->
        lineItemsInput (shown (later e')) = lineItemsInput (shown e')
        /\ forall asked p p',
             canEdit (shown (later e')) = true ->
             isFinalized (shown (later e')) = false ->
             truthy (pageInvoiceId (shown (later e'))) = true ->
             save sv (shown (later e')) asked p = (Ok tt, p') ->
             exists key r',
               documentKey (pageInvoiceId (shown (later e'))) = Some key
               /\ docs p' !! key = Some r'
               /\ lineItems (fields r') = lineItemsInput (shown e')).
Proof.
  intros later. subst later. split.
  - intros f v. destruct (onChange_sets f v e) as [Hv Hk].
    rewrite inputOf_onSnapshots by exact Hk. exact Hv.
  - intros e' Hro He'.
    assert (Hk : "lineItems" ∈ dirty e').
    { unfold updateLineItem, removeLineItem, addLineItem in He'. rewrite Hro in He'.
      destruct He' as [[i [patch ->]]|[[i ->]| ->]]; simpl; set_solver. }
    pose proof (lineItems_onSnapshots localDate numberToString snaps e' Hk) as Hitems.
    split; [exact Hitems|].
    intros asked p p' Hc Hf Hid Hsave.
    destruct (save_returns sv _ asked p p' Hc Hid Hf Hsave)
      as [key [issued [due [r (Hkey & _ & _ & Hr & ->)]]]].
    exists key. eexists. split; [exact Hkey|]. simpl.
    split; [apply lookup_insert_eq|]. simpl. exact Hitems.
Qed.

Lemma edits_survive_later_snapshots_witness :
  lineItemsInput
    (shown (onSnapshots (fun _ => "2024-01-31") (fun _ => "20.5")
              [Some reviewedInvoice; None; Some failedInvoice]
              (removeLineItem 0 widgetEditor)))
  = []
  /\ exists r',
       docs (snd (save (answering [])
                    (shown (onSnapshots (fun _ => "2024-01-31") (fun _ => "20.5")
                              [Some reviewedInvoice]
                              (removeLineItem 0 widgetEditor)))
                    needs_review (onlyInvoice reviewedInvoice))) !! "inv-1" = Some r'
       /\ lineItems (fields r') = [].
Proof.
  split.
  - destruct (edits_survive_later_snapshots (answering [])
                (fun _ => "2024-01-31") (fun _ => "20.5")
                [Some reviewedInvoice; None; Some failedInvoice] widgetEditor) as [_ Hitems].
    destruct (Hitems (removeLineItem 0 widgetEditor) eq_refl) as [Hkept _].
    + right. left. exists 0%nat. reflexivity.
    + exact Hkept.
  - destruct (edits_survive_later_snapshots (answering [])
                (fun _ => "2024-01-31") (fun _ => "20.5")
                [Some reviewedInvoice] widgetEditor) as [_ Hitems].
    destruct (Hitems (removeLineItem 0 widgetEditor) eq_refl) as [_ Hsaved].
    + right. left. exists 0%nat. reflexivity.
    + destruct (Hsaved needs_review (onlyInvoice reviewedInvoice)
                  (snd (save (answering [])
                          (shown (onSnapshots (fun _ => "2024-01-31") (fun _ => "20.5")
                                    [Some reviewedInvoice]
                                    (removeLineItem 0 widgetEditor)))
                          needs_review (onlyInvoice reviewedInvoice))))
        as [key [r' (Hkey & Hr' & Hlines)]];
        [vm_compute; reflexivity|vm_compute; reflexivity|vm_compute; reflexivity
        |vm_compute; reflexivity|].
      vm_compute in Hkey. injection Hkey as <-.
      exists r'. split; [exact Hr'|exact Hlines].
Defined.

(** ** From the upload page to the extraction *)

Lemma truthyText_truthy (s : option string) (t : string) :
  truthyText s = Some t -> truthy t = true.
Proof.
  unfold truthyText. destruct s as [u|]; [|discriminate].
  destruct (truthy u) eqn:Hu; [|discriminate]. intros [= <-]. exact Hu.
Qed.

Lemma uploadPath_truthy (uid : string) (now : Z) (item : UploadItem) :
  truthy (uploadPath uid now item) = true.
Proof.
  unfold uploadPath.
  destruct (truthyText (itemStoragePath item)) as [sp|] eqn:Hsp; [|reflexivity].
  destruct (negb (uploaded item)); [reflexivity|].
  exact (truthyText_truthy _ _ Hsp).
Qed.

(** The file name used in a storage path has no space: every space of
    the name is replaced by an underscore and every other character is
    kept in its place, so a name without spaces is used as it is. *)
Theorem safeName_has_no_space (name : string) :
  String.length (safeName name) = String.length name
  /\ (forall n, String.get n (safeName name)
                = (fun c => if Ascii.eqb c " " then "_"%char else c) <$> String.get n name)
  /\ (forall n, String.get n (safeName name) <> Some " "%char)
  /\ safeName (safeName name) = safeName name.
Proof.
  unfold safeName.
  assert (Hget : forall s n, String.get n (replaceAllChar " " "_" s)
                        = (fun c => if Ascii.eqb c " " then "_"%char else c)
                            <$> String.get n s).
  { induction s as [|c s IH]; intros n; [reflexivity|]. simpl.
    destruct (Ascii.eqb c " ") eqn:Hc.
    - rewrite append_cons, append_empty_l. destruct n as [|n]; simpl.
      + rewrite Hc. reflexivity.
      + apply IH.
    - destruct n as [|n]; simpl; [rewrite Hc; reflexivity|apply IH]. }
  split; [|split; [exact (Hget name)|split]].
  - induction name as [|c s IH]; [reflexivity|]. simpl.
    destruct (Ascii.eqb c " "); [rewrite append_cons, append_empty_l|]; simpl; congruence.
  - intros n. rewrite Hget. destruct (String.get n name) as [c|]; [|discriminate]. simpl.
    destruct (Ascii.eqb c " ") eqn:Hc; [discriminate|].
    intros [= ->]. discriminate.
  - induction name as [|c s IH]; [reflexivity|]. simpl.
    destruct (Ascii.eqb c " ") eqn:Hc.
    + rewrite append_cons, append_empty_l. simpl. congruence.
    + simpl. rewrite Hc. congruence.
Qed.

(** X29: the document that the upload page creates for a signed-in user is
    one that the extraction accepts: the handler of the document-created
    event runs the processing body on it, and a reprocess request of that
    user that names it by its id passes every guard and runs the
    processing body too. *)
Theorem uploaded_invoice_reaches_extraction (sv : Services) (uid : string) (now : Z)
        (item : UploadItem) (created : Timestamp) (id : string) (p : Platform) :
  let data := startUpload uid now item created in
  truthy uid = true ->
  truthy id = true ->
  trim id = id ->
  documentKey id = Some id ->
  docs p !! id = Some data ->
  processInvoiceOnCreateV2 sv (Some {| ref := id; snapshotData := Some data |}) p
  = processInvoiceDocument sv id data true p
  /\ reprocessInvoiceV2 sv {| auth := Some uid; invoiceId := Some id |} p
     = (_ ← processInvoiceDocument sv id data true; mret {| ok := true |})
         {| docs := docs p; log := DocGet id :: log p |}.
Proof.
  intros data Huid Hid Htrim Hkey Hdata. split; [reflexivity|].
  assert (Hauth : truthyText (auth {| auth := Some uid; invoiceId := Some id |}) = Some uid)
    by (simpl; rewrite Huid; reflexivity).
  assert (Hkey' : documentKey
                    (trim (default "" (invoiceId {| auth := Some uid; invoiceId := Some id |})))
                  = Some id) by (simpl; rewrite Htrim; exact Hkey).
  rewrite (reprocess_of_stored_record sv _ p uid id data Hauth Hkey' Hdata).
  guard (userId data = Some uid) as Hu; [|exfalso; apply Hu; reflexivity].
  guard (status data = Some "finalized") as Hs; [discriminate Hs|].
  assert (Hpath : truthyText (storagePath data) = Some (uploadPath uid now item)).
  { simpl. rewrite uploadPath_truthy. reflexivity. }
  rewrite Hpath. reflexivity.
Qed.

Lemma uploaded_invoice_reaches_extraction_witness :
  storagePath scannedInvoice = Some "invoices/alice/1700000000000_march_invoice.pdf"
  /\ reprocessInvoiceV2 (answering sampleEntities)
       {| auth := Some "alice"; invoiceId := Some "inv-1" |} (onlyInvoice scannedInvoice)
     = (_ ← processInvoiceDocument (answering sampleEntities) "inv-1" scannedInvoice true;
        mret {| ok := true |})
         {| docs := docs (onlyInvoice scannedInvoice); log := [DocGet "inv-1"] |}.
Proof.
  split; [vm_compute; reflexivity|].
  assert (Hr : docs (onlyInvoice scannedInvoice) !! "inv-1" = Some scannedInvoice)
    by (vm_compute; reflexivity).
  destruct (uploaded_invoice_reaches_extraction (answering sampleEntities) "alice"
              1700000000000 scannedItem (ServerTimestamp 0) "inv-1"
              (onlyInvoice scannedInvoice) eq_refl eq_refl eq_refl eq_refl Hr)
    as [_ Hreprocess].
  exact Hreprocess.
Defined.

(** X30: a simulated invoice never reaches the extraction: the handler of
    the document-created event does nothing on it, and every reprocess
    request that names it fails and leaves the store and the calls made as
    they are, but for the read of the record; for its owner the failure is
    FailedPrecondition, as the document has no file. *)
Theorem simulated_invoice_never_reaches_extraction (sv : Services) (uid : string) (i : nat)
        (amount : float) (issued : Timestamp) (serial : Z) (created : Timestamp)
        (id : string) (request : CallableRequest) (p : Platform) :
  let data := simulatedDoc uid i amount issued serial created in
  docs p !! id = Some data ->
  documentKey (trim (default "" (invoiceId request))) = Some id ->
  processInvoiceOnCreateV2 sv (Some {| ref := id; snapshotData := Some data |}) p = (Ok tt, p)
  /\ (exists code message p',
        reprocessInvoiceV2 sv request p = (Throw (HttpsError code message), p')
        /\ docs p' = docs p
        /\ (log p' = log p \/ log p' = DocGet id :: log p)
        /\ (truthyText (auth request) = Some uid ->
            code = failed_precondition
            /\ message = "No storage file available for reprocessing.")).
Proof.
  intros data Hdata Hkey. split; [reflexivity|].
  destruct (truthyText (auth request)) as [caller|] eqn:Hauth.
  - rewrite (reprocess_of_stored_record sv request p caller id data Hauth Hkey Hdata).
    guard (userId data = Some caller) as Hu.
    + simpl. do 3 eexists. split; [reflexivity|]. simpl.
      split; [reflexivity|]. split; [right; reflexivity|].
      intros _. split; reflexivity.
    + simpl. do 3 eexists. split; [reflexivity|]. simpl.
      split; [reflexivity|]. split; [right; reflexivity|].
      intros [= ->]. exfalso. apply Hu. reflexivity.
  - unfold reprocessInvoiceV2. rewrite Hauth.
    do 3 eexists. split; [reflexivity|].
    split; [reflexivity|]. split; [left; reflexivity|]. intros [=].
Qed.

Lemma simulated_invoice_never_reaches_extraction_witness :
  exists p',
    reprocessInvoiceV2 (answering sampleEntities)
      {| auth := Some "alice"; invoiceId := Some "inv-1" |} (onlyInvoice simulatedInvoice)
    = (Throw (HttpsError failed_precondition "No storage file available for reprocessing."), p')
    /\ docs p' = docs (onlyInvoice simulatedInvoice).
Proof.
  assert (Hr : docs (onlyInvoice simulatedInvoice) !! "inv-1" = Some simulatedInvoice)
    by (vm_compute; reflexivity).
  destruct (simulated_invoice_never_reaches_extraction (answering sampleEntities) "alice" 6
              1234.5%float (LocalDateTime "2024-01-31T10:00:00") 4242 (ServerTimestamp 0)
              "inv-1" {| auth := Some "alice"; invoiceId := Some "inv-1" |}
              (onlyInvoice simulatedInvoice) Hr eq_refl)
    as [_ [code [message [p' (Hrun & Hdocs & _ & Hcode)]]]].
  destruct (Hcode eq_refl) as [-> ->].
  exists p'. split; [exact Hrun|exact Hdocs].
Defined.

